(** * ESDAR-Checker: a shallow embedding of the command-line layer

    The development follows the layout of the repository:

    - [Py]        the Python built-ins the sources rely on ([str.strip],
                  [str.lower], [str.replace], [in], [os.path.join], ...);
    - [Helper]    [helper.py];
    - the world, the error monad and the terminal ([terminal_message_handler.py]);
    - [Config]    [config.py];
    - [CsvHelper] [csv_helper.py];
    - [Checker]   [esdar-checker_v2.py];
    - [DnsLookup] the resolution engine, which the sources only import.

    Python strings are embedded as [string]: a sequence of code points
    below 256, every built-in being Python's own restricted to that range.
    A glyph outside that range stands for itself, as its UTF-8 bytes; the
    program looks at such a glyph only to count it, and [len] and slicing
    count it once.  A code point of 196..244 followed by code points of
    128..191 is always read as such a glyph: the strings embedded are those
    that do not hold this sequence as characters of their own. *)

From Stdlib Require Import ZArith Ascii String.
From stdpp Require Import base gmap strings list sorting pretty.

Local Open Scope string_scope.
Local Open Scope list_scope.
Local Open Scope stdpp_scope.

(* ===================================================================== *)
(** ** Python built-ins *)
(* ===================================================================== *)

Module Py.

(** [str.isspace] on one code point: the white-space characters below 256
    are TAB..CR, FS..US, SPACE, NEL and NBSP. *)
Definition is_space (c : ascii) : bool :=
  let n := N_of_ascii c in
  ((9 <=? n) && (n <=? 13) || (28 <=? n) && (n <=? 32)
   || (n =? 133) || (n =? 160))%N.

(** [str.lower] on one code point: A..Z and the upper-case letters of the
    Latin-1 block (all of 192..222 but the multiplication sign 215). *)
Definition lower_char (c : ascii) : ascii :=
  let n := N_of_ascii c in
  if ((65 <=? n) && (n <=? 90)
      || (192 <=? n) && (n <=? 222) && negb (n =? 215))%N
  then ascii_of_N (n + 32) else c.

Fixpoint map_chars (f : ascii -> ascii) (s : string) : string :=
  match s with
  | EmptyString => EmptyString
  | String c r => String (f c) (map_chars f r)
  end.

(** [s.lower()] *)
Definition lower (s : string) : string := map_chars lower_char s.

(** [s.lstrip()] *)
Fixpoint lstrip (s : string) : string :=
  match s with
  | EmptyString => EmptyString
  | String c r => if is_space c then lstrip r else s
  end.

(** [s.rstrip(chars)], for the characters that satisfy [p] *)
Fixpoint rstrip_with (p : ascii -> bool) (s : string) : string :=
  match s with
  | EmptyString => EmptyString
  | String c r =>
      match rstrip_with p r with
      | EmptyString => if p c then EmptyString else String c EmptyString
      | r' => String c r'
      end
  end.

(** [s.rstrip()] *)
Definition rstrip (s : string) : string := rstrip_with is_space s.

(** [s.strip()] *)
Definition strip (s : string) : string := rstrip (lstrip s).

(** Truth value of a string: [if s:] *)
Definition truthy (s : string) : bool :=
  match s with EmptyString => false | _ => true end.

(** [needle in hay] for two strings *)
Fixpoint str_in (needle hay : string) : bool :=
  String.prefix needle hay
  || match hay with
     | EmptyString => false
     | String _ r => str_in needle r
     end.

(** [s.endswith(suffix)] *)
Fixpoint endswith (s suffix : string) : bool :=
  String.eqb s suffix
  || match s with
     | EmptyString => false
     | String _ r => endswith r suffix
     end.

(** [s.startswith(prefix)] *)
Definition startswith (s prefix : string) : bool := String.prefix prefix s.

(** [s.replace(old, new)]: the occurrences of [old] are found from the
    left and do not overlap; [skip] counts the characters of an occurrence
    still to be dropped.  With an empty [old], [new] is put before every
    character and at the end. *)
Fixpoint replace_go (old new : string) (skip : nat) (s : string) : string :=
  match s with
  | EmptyString => EmptyString
  | String c r =>
      match skip with
      | S k => replace_go old new k r
      | O =>
          if String.prefix old s
          then new +:+ replace_go old new (String.length old - 1) r
          else String c (replace_go old new 0 r)
      end
  end.

Fixpoint intersperse (new s : string) : string :=
  match s with
  | EmptyString => new
  | String c r => new +:+ String c (intersperse new r)
  end.

Definition replace (s old new : string) : string :=
  match old with
  | EmptyString => intersperse new s
  | _ => replace_go old new 0 s
  end.

(** [sep.join(l)] *)
Definition join (sep : string) (l : list string) : string :=
  String.concat sep l.

(** [s * n] *)
Fixpoint repeat_str (s : string) (n : nat) : string :=
  match n with
  | O => EmptyString
  | S k => s +:+ repeat_str s k
  end.

(** A byte that continues a glyph written in UTF-8: 128..191. *)
Definition is_continuation (c : ascii) : bool :=
  let n := N_of_ascii c in ((128 <=? n) && (n <=? 191))%N.

(** The number of bytes that follow the first byte of a glyph outside the
    range, by that first byte: one after 196..223, two after 224..239, three
    after 240..244.  A code point below 256 is one byte, followed by none. *)
Definition trail (c : ascii) : nat :=
  let n := N_of_ascii c in
  if ((196 <=? n) && (n <=? 223))%N then 1
  else if ((224 <=? n) && (n <=? 239))%N then 2
  else if ((240 <=? n) && (n <=? 244))%N then 3
  else 0.

(** The byte [c] belongs to the glyph being read, of which [pending] bytes
    are still to come. *)
Definition continues (pending : nat) (c : ascii) : bool :=
  (0 <? pending)%nat && is_continuation c.

(** [len(s)], read from a point where [pending] bytes of a glyph are still
    to come: a code point below 256 counts once, and so does a glyph
    outside the range with the bytes that continue it. *)
Fixpoint len_from (pending : nat) (s : string) : nat :=
  match s with
  | EmptyString => 0
  | String c r =>
      if continues pending c then len_from (pending - 1) r
      else S (len_from (trail c) r)
  end.

(** [len(s)] *)
Definition len (s : string) : nat := len_from 0 s.

(** [s[:n]] for a non-negative [n], read like [len_from]: the first [n]
    characters, a glyph outside the range with all its bytes. *)
Fixpoint take_from (pending n : nat) (s : string) : string :=
  match s with
  | EmptyString => EmptyString
  | String c r =>
      if continues pending c then String c (take_from (pending - 1) n r)
      else match n with
           | O => EmptyString
           | S k => String c (take_from (trail c) k r)
           end
  end.

(** [s[:n]] for a non-negative [n] *)
Definition take (n : nat) (s : string) : string := take_from 0 n s.

(** [str(n)] for a non-negative integer *)
Definition str_of_nat (n : nat) : string := pretty n.

(** [s1 <= s2]: strings compare code point by code point. *)
Definition le (s1 s2 : string) : Prop := String.le s1 s2.

(** [list.sort()] on strings.  The order is total and antisymmetric, so
    the sorted arrangement of a list is unique and any sorting algorithm
    computes the list that Python's does. *)
Definition sort (l : list string) : list string := merge_sort String.le l.

(** every character of [s] satisfies [p] *)
Fixpoint all_chars (p : ascii -> bool) (s : string) : bool :=
  match s with
  | EmptyString => true
  | String c r => p c && all_chars p r
  end.

Definition is_sep (c : ascii) : bool := Ascii.eqb c "/".

(** [s.split(sep)] for a separator of one character *)
Fixpoint split_char (sep : ascii) (s : string) : list string :=
  match s with
  | EmptyString => [EmptyString]
  | String c r =>
      if Ascii.eqb c sep then EmptyString :: split_char sep r
      else match split_char sep r with
           | [] => [String c EmptyString]
           | w :: ws => String c w :: ws
           end
  end.

(** [posixpath.join(a, b)] *)
Definition path_join (a b : string) : string :=
  if startswith b "/" then b
  else if negb (truthy a) || endswith a "/" then a +:+ b
  else a +:+ "/" +:+ b.

(** [p[:p.rfind('/') + 1]] *)
Fixpoint upto_last_sep (p : string) : string :=
  match p with
  | EmptyString => EmptyString
  | String c r =>
      if str_in "/" r then String c (upto_last_sep r)
      else if is_sep c then "/" else EmptyString
  end.

(** [posixpath.dirname(p)] *)
Definition dirname (p : string) : string :=
  let head := upto_last_sep p in
  if truthy head && negb (all_chars is_sep head)
  then rstrip_with is_sep head
  else head.

End Py.

(* ===================================================================== *)
(** ** helper.py *)
(* ===================================================================== *)

Module Helper.

(** [remove_new_line_char] *)
Definition remove_new_line_char (domains : list string) : list string :=
  let clean d :=
    Py.strip (Py.replace (Py.replace d (String "010" "") "")
                         (String "013" "") "") in
  filter (fun d => Py.truthy d = true) (map clean domains).

(** [replace_characters(record_to_check, char_to_replace, new_char)] *)
Definition replace_characters
    (record_to_check char_to_replace new_char : string) : string :=
  if negb (Py.truthy record_to_check) then ""
  else Py.replace record_to_check char_to_replace new_char.

(** The call with the default arguments [";"] and [","]. *)
Definition replace_characters_default (record_to_check : string) : string :=
  replace_characters record_to_check ";" ",".

(** The loop that removes duplicates: [seen] is the set, [unique_domains]
    the list being appended to. *)
Fixpoint dedup_loop (cleaned : list string) (seen : gset string)
    (unique_domains : list string) : list string :=
  match cleaned with
  | [] => unique_domains
  | domain :: rest =>
      if decide (domain ∈ seen)
      then dedup_loop rest seen unique_domains
      else dedup_loop rest ({[domain]} ∪ seen) (unique_domains ++ [domain])
  end.

(** [cleanup_domains_list] *)
Definition cleanup_domains_list (domains : list string) : list string :=
  match domains with
  | [] => []
  | _ =>
      let cleaned :=
        map (fun d => Py.lower (Py.strip d))
            (filter (fun d => Py.truthy (Py.strip d) = true) domains) in
      let unique_domains := dedup_loop cleaned ∅ [] in
      Py.sort unique_domains
  end.

End Helper.

(* ===================================================================== *)
(** ** The world of the program and its effects *)
(* ===================================================================== *)

(** Exceptions: [KeyboardInterrupt] is not an [Exception]; [PermissionError]
    is one, and is caught on its own in [csv_helper.py]; every other
    subclass of [Exception] is [OtherException].  The string is [str(e)]. *)
Inductive exn : Type :=
  | KeyboardInterrupt
  | PermissionError (msg : string)
  | OtherException (msg : string).

(** How a call ends: it returns, it raises, or [sys.exit(code)] ends the
    process ([SystemExit] is not an [Exception]; nothing in the sources
    catches it). *)
Inductive outcome (A : Type) : Type :=
  | Ret (a : A)
  | Raise (e : exn)
  | SysExit (code : Z).
Arguments Ret {A} a.
Arguments Raise {A} e.
Arguments SysExit {A} code.

(** The functions of [terminal_message_handler.py], and [print] itself. *)
Inductive printer : Type :=
  | print_error_p | print_warning_p | print_info_p | print_success_p
  | print_found_p | print_not_found_p | print_partial_p | print_p.

(** A result dictionary, as [perform_complete_dns_check] returns it: its
    string-valued entries, and the list under the key ['errors'].  A key
    may be absent. *)
Record result : Type := Result {
  entries : gmap string string;
  errors : option (list string)
}.

(** What the file of domains holds for [read_domains_from_file]. *)
Inductive file_of_domains : Type :=
  | Readable (domains : list string)
  | Unreadable (msg : string).

Record world : Type := World {
  RELATIVE_FILE_PATH : string;          (* config.RELATIVE_FILE_PATH *)
  NAMESERVER_LIST : list string;        (* config.NAMESERVER_LIST *)
  dirs : gset string;                   (* the directories that exist *)
  csv_files : gmap string (list (list string)); (* CSV files, as rows of cells *)
  inputs : gmap string file_of_domains;    (* the files of domains *)
  denied : gset string;                 (* paths that refuse creation or writing *)
  terminal : list (printer * string);   (* the calls that printed, in order *)
  checked : list string                 (* the domains handed to the DNS check *)
}.

Definition set_RELATIVE_FILE_PATH (p : string) (w : world) : world :=
  World p (NAMESERVER_LIST w) (dirs w) (csv_files w) (inputs w) (denied w)
        (terminal w) (checked w).
Definition set_dirs (d : gset string) (w : world) : world :=
  World (RELATIVE_FILE_PATH w) (NAMESERVER_LIST w) d (csv_files w) (inputs w)
        (denied w) (terminal w) (checked w).
Definition set_csv_files (f : gmap string (list (list string))) (w : world) : world :=
  World (RELATIVE_FILE_PATH w) (NAMESERVER_LIST w) (dirs w) f (inputs w)
        (denied w) (terminal w) (checked w).
Definition set_terminal (t : list (printer * string)) (w : world) : world :=
  World (RELATIVE_FILE_PATH w) (NAMESERVER_LIST w) (dirs w) (csv_files w)
        (inputs w) (denied w) t (checked w).
Definition set_checked (c : list string) (w : world) : world :=
  World (RELATIVE_FILE_PATH w) (NAMESERVER_LIST w) (dirs w) (csv_files w)
        (inputs w) (denied w) (terminal w) c.

(** Computations over a state [S]: the world for a function of a module,
    the locals of a loop paired with the world inside the loop, so that an
    assignment made before an exception is still there in the handler. *)
Definition M (S A : Type) : Type := S -> outcome A * S.

Global Instance M_ret {S} : MRet (M S) := λ A a s, (Ret a, s).
Global Instance M_bind {S} : MBind (M S) := λ A B f m s,
  match m s with
  | (Ret a, s') => f a s'
  | (Raise e, s') => (Raise e, s')
  | (SysExit c, s') => (SysExit c, s')
  end.

Definition raise {S A} (e : exn) : M S A := λ s, (Raise e, s).
Definition sys_exit {S A} (code : Z) : M S A := λ s, (SysExit code, s).
Definition get_state {S} : M S S := λ s, (Ret s, s).
Definition modify {S} (f : S -> S) : M S unit := λ s, (Ret tt, f s).

(** [try: body except ...: handler]: the handler of the first clause that
    matches runs; an exception no clause matches, and an exit, go through. *)
Definition try_except {S A} (body : M S A) (handler : exn -> option (M S A)) : M S A :=
  λ s, match body s with
       | (Raise e, s') =>
           match handler e with
           | Some h => h s'
           | None => (Raise e, s')
           end
       | r => r
       end.

(** A function of a module, called from inside a loop with locals [L]. *)
Definition call {L A} (m : M world A) : M (L * world) A :=
  λ '(l, w), let '(r, w') := m w in (r, (l, w')).
Definition get_locals {L} : M (L * world) L := λ '(l, w), (Ret l, (l, w)).
Definition set_locals {L} (l : L) : M (L * world) unit := λ '(_, w), (Ret tt, (l, w)).

(** [for x in l: body x] *)
Fixpoint for_each {S A} (l : list A) (body : A -> M S unit) : M S unit :=
  match l with
  | [] => mret tt
  | x :: rest => body x ;; for_each rest body
  end.

(* ===================================================================== *)
(** ** terminal_message_handler.py *)
(* ===================================================================== *)

Module Terminal.

Definition emit (p : printer) (message : string) : M world unit :=
  modify (λ w, set_terminal (terminal w ++ [(p, message)]) w).

Definition print (message : string) : M world unit := emit print_p message.

(** [print_error(message, fatal=True)] *)
Definition print_error_with (message : string) (fatal : bool) : M world unit :=
  emit print_error_p message ;;
  if fatal then sys_exit 1 else mret tt.

(** [print_error(message)]: [fatal] takes its default, [True]. *)
Definition print_error (message : string) : M world unit :=
  print_error_with message true.

Definition print_warning (message : string) : M world unit := emit print_warning_p message.
Definition print_info (message : string) : M world unit := emit print_info_p message.
Definition print_success (message : string) : M world unit := emit print_success_p message.
Definition print_found (message : string) : M world unit := emit print_found_p message.
Definition print_not_found (message : string) : M world unit := emit print_not_found_p message.
Definition print_partial (message : string) : M world unit := emit print_partial_p message.

(** The text a call puts on the terminal, colour codes left out. *)
Definition rendered (e : printer * string) : string :=
  match e with
  | (print_error_p, m) => " [!] ERROR: " +:+ m
  | (print_warning_p, m) => " [-] WARN: " +:+ m
  | (print_info_p, m) => " [+] INFO: " +:+ m
  | (print_success_p, m) => " " +:+ m
  | (print_found_p, m) => "[✓] " +:+ m
  | (print_not_found_p, m) => "[✗] " +:+ m
  | (print_partial_p, m) => "[~] " +:+ m
  | (print_p, m) => m
  end.

End Terminal.

(* ===================================================================== *)
(** ** The file system *)
(* ===================================================================== *)

Module Os.

(** [os.path.isfile(p)] *)
Definition isfile (p : string) : M world bool :=
  w ← get_state;
  mret (bool_decide (is_Some (csv_files w !! p)) || bool_decide (is_Some (inputs w !! p))).

(** [os.makedirs(d, exist_ok=True)] *)
Definition makedirs (d : string) : M world unit :=
  w ← get_state;
  if negb (Py.truthy d)
  then raise (OtherException "[Errno 2] No such file or directory: ''")
  else if bool_decide (d ∈ denied w)
  then raise (PermissionError ("[Errno 13] Permission denied: '" +:+ d +:+ "'"))
  else modify (set_dirs ({[d]} ∪ dirs w)).

Inductive mode : Type := mode_w | mode_a.

(** [open(p, mode=..., newline='', encoding='utf-8')] for writing: ['w']
    empties the file, ['a'] keeps what it holds; both create it. *)
Definition open (p : string) (m : mode) : M world unit :=
  w ← get_state;
  if bool_decide (p ∈ denied w)
  then raise (PermissionError ("[Errno 13] Permission denied: '" +:+ p +:+ "'"))
  else
    let old := match m with
               | mode_w => []
               | mode_a => default [] (csv_files w !! p)
               end in
    modify (set_csv_files (<[p := old]> (csv_files w))).

(** [csv.writer(file).writerow(row)] on the file opened at [p] *)
Definition writerow (p : string) (row : list string) : M world unit :=
  modify (λ w, set_csv_files (<[p := default [] (csv_files w !! p) ++ [row]]> (csv_files w)) w).

End Os.

(* ===================================================================== *)
(** ** config.py *)
(* ===================================================================== *)

Module Config.

(** The module-level assignments. *)
Definition RELATIVE_FILE_PATH_at_import : string := "resources/output/".
Definition NAMESERVER_LIST_at_import : list string := ["8.8.8.8"; "8.8.4.4"; "1.1.1.1"].

(** The world once [config] is imported, over a given file system. *)
Definition at_import (d : gset string) (f : gmap string (list (list string)))
    (i : gmap string file_of_domains) (x : gset string) : world :=
  World RELATIVE_FILE_PATH_at_import NAMESERVER_LIST_at_import d f i x [] [].

(** [update_path(path)] *)
Definition update_path (path : string) : M world bool :=
  try_except
    (let normalized_path := Py.replace path "\" "/" in
     let normalized_path :=
       if negb (Py.endswith normalized_path "/")
       then normalized_path +:+ "/" else normalized_path in
     Os.makedirs normalized_path ;;
     modify (set_RELATIVE_FILE_PATH normalized_path) ;;
     mret true)
    (λ e, match e with
          | KeyboardInterrupt => None
          | PermissionError _ | OtherException _ => Some (mret false)
          end).

(** [get_nameserver_list()] *)
Definition get_nameserver_list : M world (list string) :=
  w ← get_state; mret (NAMESERVER_LIST w).

End Config.

(* ===================================================================== *)
(** ** csv_helper.py *)
(* ===================================================================== *)

Module CsvHelper.
Import Terminal.

Definition OUTPUT_FILENAME : string := "esdar-check_result.csv".

(** [get_output_filepath()] *)
Definition get_output_filepath : M world string :=
  w ← get_state;
  mret (Py.replace (Py.path_join (RELATIVE_FILE_PATH w) OUTPUT_FILENAME) "\" "/").

Definition headers : list string :=
  ["Domain"; "MX Record"; "SPF Record"; "DKIM Record"; "DMARC Record"].

(** [create_csv_file_with_header(filepath)] *)
Definition create_csv_file_with_header (filepath : string) : M world bool :=
  try_except
    (Os.makedirs (Py.dirname filepath) ;;
     Os.open filepath Os.mode_w ;;
     Os.writerow filepath headers ;;
     mret true)
    (λ e, match e with
          | KeyboardInterrupt => None
          | PermissionError _ =>
              Some (print_error ("Cannot write to " +:+ filepath +:+
                      " - file is open in another program. Please close it and try again.") ;;
                    mret false)
          | OtherException msg =>
              Some (print_error ("Error creating CSV file: " +:+ msg) ;; mret false)
          end).

(** [result.get(key, '')] *)
Definition get (r : result) (key : string) : string :=
  default "" (entries r !! key).

(** The row written for one result. *)
Definition row_of (r : result) : list string :=
  [get r "domain"; get r "mx"; get r "spf"; get r "dkim"; get r "dmarc"].

(** [write_results_to_csv(results, append=False)] *)
Definition write_results_to_csv (results : list result) (append : bool) : M world bool :=
  match results with
  | [] => print_warning "No results to write to CSV" ;; mret false
  | _ =>
      filepath ← get_output_filepath;
      file_exists ← Os.isfile filepath;
      try_except
        (Os.makedirs (Py.dirname filepath) ;;
         let '(mode, write_header) :=
           if append then (Os.mode_a, negb file_exists) else (Os.mode_w, true) in
         Os.open filepath mode ;;
         (if write_header then Os.writerow filepath headers else mret tt) ;;
         for_each results (λ r, Os.writerow filepath (row_of r)) ;;
         print ("Results written to " +:+ filepath) ;;
         mret true)
        (λ e, match e with
              | KeyboardInterrupt => None
              | PermissionError _ =>
                  Some (print_error ("Cannot write to " +:+ filepath +:+
                          " - file is open in another program. Please close it and try again.") ;;
                        mret false)
              | OtherException msg =>
                  Some (print_error ("Error writing to CSV file: " +:+ msg) ;; mret false)
              end)
  end.

(** [write_single_result_to_csv(result, append=True)] *)
Definition write_single_result_to_csv (r : result) (append : bool) : M world bool :=
  write_results_to_csv [r] append.

(** [read_domains_from_file(filepath)].  For a file of domains the decoding
    and the parsing are not unfolded: the world says which list the function
    extracts from it ([Readable]), or that reading fails under every
    encoding ([Unreadable]).  A file that holds CSV rows is read as the
    function reads any file, a row standing for the line of its cells
    joined by commas (cells that need no quoting): when the first line has
    a comma and names a domain or a url, the header row is skipped and the
    stripped first cell of every other row is kept when it is not empty;
    otherwise every stripped line is kept that is neither empty nor a
    comment. *)
Definition read_domains_from_file (filepath : string) : M world (list string) :=
  is_file ← Os.isfile filepath;
  if negb is_file
  then print_error ("File not found: " +:+ filepath) ;; mret []
  else
    w ← get_state;
    match inputs w !! filepath with
    | Some (Readable domains) => mret domains
    | Some (Unreadable msg) =>
        print_error ("Error reading domains from file: " +:+ msg) ;; mret []
    | None =>
        let rows := default [] (csv_files w !! filepath) in
        let first_line := Py.strip (Py.join "," (default [] (head rows))) in
        if Py.str_in "," first_line
           && (Py.str_in "domain" (Py.lower first_line)
               || Py.str_in "url" (Py.lower first_line))
        then
          mret (map (λ row, Py.strip (default "" (head row)))
                  (filter (λ row, Py.truthy (Py.strip (default "" (head row))) = true)
                          (drop 1 rows)))
        else
          mret (filter (λ d, Py.truthy d && negb (Py.startswith d "#") = true)
                  (map (λ row, Py.strip (Py.join "," row)) rows))
    end.

End CsvHelper.

(* ===================================================================== *)
(** ** domain_validator.py *)
(* ===================================================================== *)

(** The command-line arguments, as [argparse] hands them to [main]. *)
Module Args.
Record t : Type := Make {
  domain : option string;
  domains_file : option string;
  selector : string;
  selectors : string;
  auto_discover_dkim : bool;
  append : string;
  output_path : option string;
  timeout : Z;
  skip_errors : bool
}.
End Args.

(** Truth value of an optional string argument: neither [None] nor empty. *)
Definition given (a : option string) : option string :=
  match a with
  | Some s => if Py.truthy s then Some s else None
  | None => None
  end.

Module DomainValidator.
Import Terminal.

Section Validators.
(** [validators.domain], of the [validators] package: its truth value. *)
Variable validate_domain : string -> bool.

(** [validate_provided_domains(domains)] *)
Definition validate_provided_domains (domains : list string) : M world bool :=
  let invalid_domains := filter (λ d, validate_domain d = false) domains in
  match invalid_domains with
  | [] => mret true
  | _ =>
      for_each invalid_domains
        (λ invalid, print_warning ("Invalid domain format: " +:+ invalid)) ;;
      mret false
  end.

(** [validate_args(args)] *)
Definition validate_args (a : Args.t) : M world bool :=
  domain_arg_valid ←
    match given (Args.domain a) with
    | Some d =>
        let v := validate_domain d in
        (if negb v
         then print_warning ("Domain '" +:+ d +:+ "' is not valid. Is it formatted correctly?")
         else mret tt) ;;
        mret v
    | None => mret true
    end;
  domain_file_arg_valid ←
    match given (Args.domains_file a) with
    | Some f =>
        v ← Os.isfile f;
        (if negb v
         then print_warning ("Domain file '" +:+ f +:+ "' does not exist or is not accessible.")
         else mret tt) ;;
        mret v
    | None => mret true
    end;
  let valid_args := domain_arg_valid && domain_file_arg_valid in
  (if negb valid_args
   then print_error "Arguments are invalid. Please check your input." ;; sys_exit 1
   else mret tt) ;;
  mret valid_args.
End Validators.

End DomainValidator.

(* ===================================================================== *)
(** ** esdar-checker_v2.py *)
(* ===================================================================== *)

(** What a call of [perform_complete_dns_check] does: it returns a result
    dictionary or it raises (a [KeyboardInterrupt] arrives while it waits
    for the network, or the engine fails). *)
Inductive check_reply : Type :=
  | Returns (r : result)
  | Raises (e : exn).

Module Checker.
Import Terminal.

(** [parse_selectors(selector_arg, selectors_arg)] *)
Definition parse_selectors (selector_arg selectors_arg : string) : list string :=
  let selectors :=
    if Py.truthy selector_arg && Py.truthy (Py.strip selector_arg)
    then [Py.strip selector_arg] else [] in
  let selectors :=
    if Py.truthy selectors_arg && Py.truthy (Py.strip selectors_arg)
    then selectors ++ map Py.strip
           (filter (λ s, Py.truthy (Py.strip s) = true) (Py.split_char "," selectors_arg))
    else selectors in
  Helper.dedup_loop selectors ∅ [].

(** [result[key]] *)
Definition getitem {S} (r : result) (key : string) : M S string :=
  match entries r !! key with
  | Some v => mret v
  | None => raise (OtherException ("'" +:+ key +:+ "'"))
  end.

(** The test made on the MX, SPF and DMARC entries, [marker] being
    ['No MX'], ['No SPF'] or ['No DMARC']. *)
Definition reads_as_absent (marker v : string) : bool :=
  Py.str_in marker v || Py.str_in "does not exist" v
  || Py.str_in "timeout" v || Py.str_in "error" (Py.lower v).

(** The outer test made on the DKIM entry. *)
Definition dkim_reads_as_absent (dkim : string) : bool :=
  let dkim_lower := Py.lower dkim in
  Py.str_in "no dkim" dkim_lower
  || Py.str_in "no selector" dkim_lower
  || Py.str_in "no selectors provided" dkim_lower
  || Py.str_in "no valid selectors" dkim_lower
  || Py.str_in "does not exist" dkim
  || Py.str_in "timeout" dkim
  || Py.str_in "error" dkim_lower.

(** The inner test: the user gave no selector. *)
Definition dkim_no_selectors (dkim : string) : bool :=
  let dkim_lower := Py.lower dkim in
  Py.str_in "no selectors provided" dkim_lower
  && negb (Py.str_in "tested common selectors" dkim_lower).

(** [f"{label}{v[:50]}..." if len(v) > 50 else f"{label}{v}"] *)
Definition brief (label v : string) : string :=
  if (50 <? Py.len v)%nat then label +:+ Py.take 50 v +:+ "..."
  else label +:+ v.

Definition rule : string := Py.repeat_str "=" 60.
Definition nl : string := String "010" "".

(** The announcement of the DKIM mode, shared by both entry points. *)
Definition announce_dkim (selectors : list string) (auto_discover_dkim : bool) : M world unit :=
  match selectors with
  | _ :: _ => print_info ("DKIM selectors: " +:+ Py.join ", " selectors)
  | [] =>
      if auto_discover_dkim
      then print_info "DKIM: Auto-discovering common selectors (--auto_discover_dkim flag enabled)"
      else print_info "DKIM: No selector provided (use --auto_discover_dkim to test common selectors)"
  end.

(** [selectors if selectors else None] *)
Definition or_None (selectors : list string) : option (list string) :=
  match selectors with [] => None | _ => Some selectors end.

Section Engine.
(** [dns_lookup.perform_complete_dns_check], seen from its callers: what
    the call answers, given the domains checked before it. *)
Variable dns : list string -> string -> option (list string) -> Z -> bool -> check_reply.

Definition perform_complete_dns_check (domain : string)
    (selectors : option (list string)) (timeout : Z) (auto_discover_dkim : bool)
    : M world result :=
  w ← get_state;
  modify (set_checked (checked w ++ [domain])) ;;
  match dns (checked w) domain selectors timeout auto_discover_dkim with
  | Returns r => mret r
  | Raises e => raise e
  end.

(** [process_single_domain] *)
Definition process_single_domain (domain : string) (selectors : list string)
    (timeout : Z) (append : bool) (auto_discover_dkim : bool) : M world bool :=
  print (nl +:+ rule) ;;
  print ("Checking domain: " +:+ domain) ;;
  print rule ;;
  announce_dkim selectors auto_discover_dkim ;;
  try_except
    (result ← perform_complete_dns_check domain (or_None selectors) timeout auto_discover_dkim;
(* MX Records *)
mx ← getitem result "mx";
(if reads_as_absent "No MX" mx
 then print_not_found ("MX Records: " +:+ mx)
 else print_found ("MX Records: " +:+ mx)) ;;
(* SPF Record *)
spf ← getitem result "spf";
(if reads_as_absent "No SPF" spf
 then print_not_found ("SPF Record: " +:+ spf)
 else print_found ("SPF Record: " +:+ spf)) ;;
(* DKIM Record *)
dkim ← getitem result "dkim";
(if dkim_reads_as_absent dkim
 then if dkim_no_selectors dkim
      then print_partial ("DKIM Record: " +:+ dkim)
      else print_not_found ("DKIM Record: " +:+ dkim)
 else print_found ("DKIM Record: " +:+ dkim)) ;;
(* DMARC Record *)
dmarc ← getitem result "dmarc";
(if reads_as_absent "No DMARC" dmarc
 then print_not_found ("DMARC Record: " +:+ dmarc)
 else print_found ("DMARC Record: " +:+ dmarc)) ;;
(* Print errors if any *)
match errors result with
| Some (e :: es) =>
    for_each (e :: es) (λ error, print_warning ("Warning: " +:+ error))
| Some [] | None => mret tt
end ;;
(* Write to CSV *)
written ← CsvHelper.write_results_to_csv [result] append;
if negb written
then print_error "Failed to write result to CSV" ;; mret false
else mret true)
(λ e, match e with
     | KeyboardInterrupt =>
         Some (print_error (nl +:+ "Interrupted by user") ;; mret false)
     | PermissionError msg | OtherException msg =>
         Some (print_error ("Error checking domain " +:+ domain +:+ ": " +:+ msg) ;;
               mret false)
     end).

(** The locals of the loop of [process_multiple_domains]. *)
Record locals : Type := Locals {
  results : list result;
  successful : nat;
  failed : nat
}.

Local Abbreviation callw := (@call locals _).

(** The body of the [try] statement inside the loop. *)
Definition check_and_summarise (domain : string) (selectors : list string)
    (timeout : Z) (auto_discover_dkim : bool) : M (locals * world) unit :=
  result ← callw (perform_complete_dns_check domain (or_None selectors) timeout auto_discover_dkim);
  l ← get_locals;
  set_locals (Locals (results l ++ [result]) (successful l) (failed l)) ;;
  l ← get_locals;
  set_locals (Locals (results l) (successful l + 1) (failed l)) ;;
  mx ← getitem result "mx";
  (if reads_as_absent "No MX" mx
   then callw (print_not_found (brief "  MX: " mx))
   else callw (print_found "  MX: Found")) ;;
  spf ← getitem result "spf";
  (if reads_as_absent "No SPF" spf
   then callw (print_not_found (brief "  SPF: " spf))
   else callw (print_found "  SPF: Found")) ;;
  dkim ← getitem result "dkim";
  (if dkim_reads_as_absent dkim
   then if dkim_no_selectors dkim
        then callw (print_partial (brief "  DKIM: " dkim))
        else callw (print_not_found (brief "  DKIM: " dkim))
   else callw (print_found "  DKIM: Found")) ;;
  dmarc ← getitem result "dmarc";
  (if reads_as_absent "No DMARC" dmarc
   then callw (print_not_found (brief "  DMARC: " dmarc))
   else callw (print_found "  DMARC: Found")).

(** [if results: print_info(...); write_results_to_csv(results, append=append)] *)
Definition write_completed (append : bool) : M (locals * world) unit :=
  l ← get_locals;
  match results l with
  | _ :: _ =>
      callw (print_info ("Writing " +:+ Py.str_of_nat (length (results l)) +:+
                        " completed results to CSV...")) ;;
      callw (CsvHelper.write_results_to_csv (results l) append) ;;
      mret tt
  | [] => mret tt
  end.

(** The two [except] clauses of the loop. *)
Definition on_exception (domain : string) (append skip_errors : bool) (e : exn)
    : option (M (locals * world) unit) :=
  match e with
  | KeyboardInterrupt =>
      Some (callw (print_error (nl +:+ "Interrupted by user")) ;;
            write_completed append ;;
            sys_exit 1)
  | PermissionError msg | OtherException msg =>
      Some (l ← get_locals;
            set_locals (Locals (results l) (successful l) (failed l + 1)) ;;
            let error_msg := "Error checking " +:+ domain +:+ ": " +:+ msg in
            callw (print_error ("  ✗ " +:+ error_msg)) ;;
            if negb skip_errors
            then callw (print_error "Stopping due to error (use --skip_errors to continue)") ;;
                 write_completed append ;;
                 sys_exit 1
            else mret tt)
  end.

(** [for i, domain in enumerate(domains, 1): ...], [rest] being the
    domains still to come and [total] being [len(domains)]. *)
Fixpoint check_each (i total : nat) (rest : list string) (selectors : list string)
    (timeout : Z) (append skip_errors auto_discover_dkim : bool)
    : M (locals * world) unit :=
  match rest with
  | [] => mret tt
  | domain :: rest' =>
      callw (print (nl +:+ "[" +:+ Py.str_of_nat i +:+ "/" +:+ Py.str_of_nat total +:+
                   "] Checking: " +:+ domain)) ;;
      try_except
        (check_and_summarise domain selectors timeout auto_discover_dkim)
        (on_exception domain append skip_errors) ;;
      check_each (S i) total rest' selectors timeout append skip_errors auto_discover_dkim
  end.

(** [process_multiple_domains] *)
Definition process_multiple_domains (domains selectors : list string) (timeout : Z)
    (append skip_errors auto_discover_dkim : bool) : M (locals * world) unit :=
  callw (print (nl +:+ rule)) ;;
  callw (print ("Processing " +:+ Py.str_of_nat (length domains) +:+ " domain(s)")) ;;
  callw (announce_dkim selectors auto_discover_dkim) ;;
  callw (print (rule +:+ nl)) ;;
  set_locals (Locals [] 0 0) ;;
  check_each 1 (length domains) domains selectors timeout append skip_errors auto_discover_dkim ;;
(* Write all results to CSV *)
l ← get_locals;
match results l with
| _ :: _ =>
    callw (print (nl +:+ rule)) ;;
    callw (print_info ("Writing " +:+ Py.str_of_nat (length (results l)) +:+ " result(s) to CSV...")) ;;
    written ← callw (CsvHelper.write_results_to_csv (results l) append);
    if (written : bool)
    then callw (print_success ("✓ Successfully processed " +:+
                              Py.str_of_nat (successful l) +:+ " domain(s)")) ;;
         if (0 <? failed l)%nat
         then callw (print_warning ("⚠ " +:+ Py.str_of_nat (failed l) +:+ " domain(s) failed"))
         else mret tt
    else callw (print_error "Failed to write results to CSV")
| [] => callw (print_error "No results to write")
end.

(** Running a function that has locals from a caller that sees the
    world alone. *)
Definition run_with_locals {A} (m : M (locals * world) A) : M world A :=
  λ w, let '(r, (_, w')) := m (Locals [] 0 0, w) in (r, w').

Section Main.
Variable validate_domain : string -> bool.

(** [main(args)] *)
Definition main (a : Args.t) : M world unit :=
  DomainValidator.validate_args validate_domain a ;;
  let selectors := parse_selectors (Args.selector a) (Args.selectors a) in
  match given (Args.output_path a) with
  | Some p =>
      updated ← Config.update_path p;
      if negb updated
      then print_warning ("Invalid output path: " +:+ p +:+ ". Using default from config.py")
      else mret tt
  | None => mret tt
  end ;;
  let append_mode := String.eqb (Py.lower (Args.append a)) "yes" in
  domains ←
    match given (Args.domain a) with
    | Some d => mret [d]
    | None =>
        match given (Args.domains_file a) with
        | Some f =>
            domains ← CsvHelper.read_domains_from_file f;
            match domains with
            | [] => print_error "No valid domains found in file" ;; sys_exit 1
            | _ => mret domains
            end
        | None => mret []
        end
    end;
  let domains := Helper.cleanup_domains_list domains in
  match domains with
  | [] => print_error "No valid domains to check" ;; sys_exit 1
  | [d] =>
      success ← process_single_domain d selectors (Args.timeout a) append_mode
                  (Args.auto_discover_dkim a);
      if negb success then sys_exit 1 else mret tt
  | _ =>
      run_with_locals
        (process_multiple_domains domains selectors (Args.timeout a) append_mode
           (Args.skip_errors a) (Args.auto_discover_dkim a))
  end.
End Main.
End Engine.

End Checker.

(* ===================================================================== *)
(** ** dns_lookup: the resolution engine *)
(* ===================================================================== *)

(** [esdar-checker_v2.py] imports [perform_complete_dns_check] from
    [dns_lookup], a module that is not among the sources.  The engine is
    therefore written down from its specification (sections 3 and 4). *)

Module DnsLookup.

(** Modelled from the spec: the record types the missing Resolver Client
    queries (section 4.1), "recordType: enum{MX,TXT}". *)
Inductive RecordType : Type := MX | TXT.

(** Modelled from the spec: the missing engine's [QueryOutcome] (section 3),
    "tagged variant with cases Found(value), NotFound, NonexistentDomain,
    Timeout, QueryError(detail)". *)
Inductive QueryOutcome : Type :=
  | Found (value : string)
  | NotFound
  | NonexistentDomain
  | Timeout
  | QueryError (detail : string).

(** Modelled from the spec: the missing engine's [DomainResult] (section 3). *)
Record DomainResult : Type := MkDomainResult {
  domain : string;
  mx : string;
  spf : string;
  dkim : string;
  dmarc : string;
  errors : list string
}.

(** Modelled from the spec: what the missing Resolver Client gets for one
    query (section 4.1), "a list of raw record values" or a failure: no
    matching record, NXDOMAIN, the timeout exceeded, any other resolver
    failure with its diagnostic text. *)
Inductive fault : Type :=
  | NoAnswer                      (* the name exists, no record of that type *)
  | NXDOMAIN                      (* the name does not exist at all *)
  | TimedOut                      (* no nameserver answered in time *)
  | OtherFault (detail : string). (* SERVFAIL, refused, malformed, ... *)

Inductive reply : Type :=
  | Answers (values : list string)
  | Fault (f : fault).

(** Modelled from the spec: the missing Outcome Classifier (section 4.2),
    "classify(rawAnswers, exception) -> QueryOutcome", with the mapping of
    section 4.1.  [rawAnswers] is the value the strategy reads off the
    answer, if any. *)
Definition classify (rawAnswers : option string) (exception : option fault) : QueryOutcome :=
  match exception with
  | Some NXDOMAIN => NonexistentDomain
  | Some TimedOut => Timeout
  | Some (OtherFault detail) => QueryError detail
  | Some NoAnswer => NotFound
  | None =>
      match rawAnswers with
      | Some value => Found value
      | None => NotFound
      end
  end.

(** Modelled from the spec: the phrase table of the missing strategies
    (section 4.3): "Found -> record value; NotFound -> No <TYPE> record
    found; NonexistentDomain -> Domain does not exist; Timeout -> DNS query
    timeout; QueryError -> error: <detail>". *)
Definition phrase (TYPE : string) (o : QueryOutcome) : string :=
  match o with
  | Found value => value
  | NotFound => "No " +:+ TYPE +:+ " record found"
  | NonexistentDomain => "Domain does not exist"
  | Timeout => "DNS query timeout"
  | QueryError detail => "error: " +:+ detail
  end.

(** Modelled from the spec: the entries the missing Aggregator appends to
    [errors] (section 4.5): one for every [QueryError] or [Timeout] met;
    absence is not an error (section 8).  The spec does not fix the text of
    an entry: it is the queried label followed by the phrase. *)
Definition diagnostic (what : string) (o : QueryOutcome) : list string :=
  match o with
  | Timeout | QueryError _ => [what +:+ ": " +:+ phrase what o]
  | Found _ | NotFound | NonexistentDomain => []
  end.

(** Modelled from the spec: a failed explicit selector, as the missing
    Selector Discovery Engine reports it in [errors] (section 4.4, step 1). *)
Definition selector_failure (selector : string) (o : QueryOutcome) : string :=
  "DKIM selector " +:+ selector +:+ ": " +:+ phrase "DKIM" o.

(** Modelled from the spec: the test "stop at the first Found" of the missing
    Selector Discovery Engine (section 4.4). *)
Definition is_Found (o : QueryOutcome) : bool :=
  match o with Found _ => true | _ => false end.

(** Modelled from the spec: a row of the table of the missing Record-Type
    Strategies (section 4.3): the name and type to query and the value read
    off a successful answer. *)
Record Strategy : Type := MkStrategy {
  TYPE : string;
  query_name : string;
  query_type : RecordType;
  success_formatting : list string -> option string
}.

(** Modelled from the spec: the choice of the missing SPF and DMARC
    strategies among several TXT values (section 4.3), "pick the matching
    one; if none matches, outcome is NotFound": the first value that starts
    with [tag]. *)
Definition first_starting_with (tag : string) (values : list string) : option string :=
  head (filter (λ v, Py.startswith v tag = true) values).

(** Modelled from the spec: the missing MX strategy (section 4.3), "join all
    returned mail-exchanger hostnames (priority order) with a separator"; the
    spec does not name the separator. *)
Definition MX_strategy (domain : string) : Strategy :=
  MkStrategy "MX" domain MX
    (λ values, match values with [] => None | _ => Some (Py.join ", " values) end).

(** Modelled from the spec: the missing SPF strategy (section 4.3), "the TXT
    value whose content starts with v=spf1", its [;] replaced by [,] before
    storage. *)
Definition SPF_strategy (domain : string) : Strategy :=
  MkStrategy "SPF" domain TXT
    (λ values, Helper.replace_characters_default <$> first_starting_with "v=spf1" values).

(** Modelled from the spec: the missing DMARC strategy (section 4.3), query
    name [_dmarc.domain], "the TXT value starting with v=DMARC1", sanitized
    like the SPF value. *)
Definition DMARC_strategy (domain : string) : Strategy :=
  MkStrategy "DMARC" ("_dmarc." +:+ domain) TXT
    (λ values, Helper.replace_characters_default <$> first_starting_with "v=DMARC1" values).

(** Modelled from the spec: the missing DKIM strategy (section 4.3), query
    name [selector._domainkey.domain], "the TXT value", queried once per
    selector. *)
Definition DKIM_strategy (domain selector : string) : Strategy :=
  MkStrategy "DKIM" (selector +:+ "._domainkey." +:+ domain) TXT head.

(** Modelled from the spec: the queries the missing engine has issued so
    far, in order (the "query-count assertion" of section 8 reads it). *)
Definition log : Type := list (string * RecordType).

(** Modelled from the spec: the computations of the missing engine, which
    "never raises a process-fatal error" (section 7): they return a value
    and add to the log of queries. *)
Definition Logged (A : Type) : Type := log -> A * log.

Global Instance Logged_ret : MRet Logged := λ A a l, (a, l).
Global Instance Logged_bind : MBind Logged := λ A B f m l,
  let '(a, l') := m l in f a l'.

(** Modelled from the spec: one query of the missing engine goes out. *)
Definition tell (q : string * RecordType) : Logged unit := λ l, (tt, l ++ [q]).

Section Engine.
(** The configured nameservers, what they answer to a query made with a
    given timeout, and the fixed list of common selectors. *)
Variable nameservers : list string.
Variable network : string -> RecordType -> Z -> reply.
Variable candidates : list string.

(** Modelled from the spec: what the missing Resolver Client (section 4.1)
    obtains for a query; with no nameserver configured the query
    degrades to an error (section 6). *)
Definition resolve (name : string) (recordType : RecordType) (timeoutSeconds : Z) : reply :=
  match nameservers with
  | [] => Fault (OtherFault "no nameservers configured")
  | _ => network name recordType timeoutSeconds
  end.

(** Modelled from the spec: the missing Resolver Client (section 4.1),
    "query(name, recordType, timeoutSeconds)": one query, logged. *)
Definition query (name : string) (recordType : RecordType) (timeoutSeconds : Z)
    : Logged reply :=
  tell (name, recordType) ;;
  mret (resolve name recordType timeoutSeconds).

(** Modelled from the spec: how a missing strategy runs (section 4.3): one
    call of the Resolver Client, then the classifier. *)
Definition run (s : Strategy) (timeoutSeconds : Z) : Logged QueryOutcome :=
  r ← query (query_name s) (query_type s) timeoutSeconds;
  mret (match r with
        | Answers values => classify (success_formatting s values) None
        | Fault f => classify None (Some f)
        end).

(** Modelled from the spec: step 1 of the missing Selector Discovery
    Engine (section 4.4): "query each in the given order; stop at the
    first Found and report it; if all fail, report No valid selectors
    found with the per-selector failures appended to errors".  [failed]
    holds the selectors tried so far with their outcomes. *)
Fixpoint try_explicit (domain : string) (timeoutSeconds : Z)
    (failed : list (string * QueryOutcome)) (selectors : list string)
    : Logged (string * list string) :=
  match selectors with
  | [] =>
      mret ("No valid selectors found",
            map (λ '(s, o), selector_failure s o) failed)
  | s :: rest =>
      o ← run (DKIM_strategy domain s) timeoutSeconds;
      match o with
      | Found value =>
          mret (value, flat_map (λ '(s, o), diagnostic ("DKIM selector " +:+ s) o) failed)
      | _ => try_explicit domain timeoutSeconds (failed ++ [(s, o)]) rest
      end
  end.

(** Modelled from the spec: step 2 of the missing Selector Discovery
    Engine: the fixed candidates in their order, stopping at the first
    [Found]; "if none match, report No DKIM record found — tested common
    selectors: <list>".  Absence adds nothing to [errors]. *)
Fixpoint try_candidates (domain : string) (timeoutSeconds : Z)
    (diagnostics : list string) (rest : list string)
    : Logged (string * list string) :=
  match rest with
  | [] =>
      mret ("No DKIM record found — tested common selectors: " +:+ Py.join ", " candidates,
            diagnostics)
  | s :: rest' =>
      o ← run (DKIM_strategy domain s) timeoutSeconds;
      match o with
      | Found value => mret (value, diagnostics)
      | _ => try_candidates domain timeoutSeconds
               (diagnostics ++ diagnostic ("DKIM selector " +:+ s) o) rest'
      end
  end.

(** Modelled from the spec: the missing Selector Discovery Engine
    (section 4.4); step 3 issues no query at all. *)
Definition discover (domain : string) (explicitSelectors : list string)
    (autoDiscover : bool) (timeoutSeconds : Z) : Logged (string * list string) :=
  match explicitSelectors with
  | _ :: _ => try_explicit domain timeoutSeconds [] explicitSelectors
  | [] =>
      if autoDiscover
      then try_candidates domain timeoutSeconds [] candidates
      else mret ("No selectors provided", [])
  end.

(** Modelled from the spec: the missing Aggregator (section 4.5),
    "checkDomain(domain, selectors, timeoutSeconds, autoDiscover)": the
    MX, SPF and DMARC strategies unconditionally and the Selector
    Discovery Engine for DKIM. *)
Definition checkDomain_logged (domain : string) (selectors : list string)
    (timeoutSeconds : Z) (autoDiscover : bool) : Logged DomainResult :=
  o_mx ← run (MX_strategy domain) timeoutSeconds;
  o_spf ← run (SPF_strategy domain) timeoutSeconds;
  o_dmarc ← run (DMARC_strategy domain) timeoutSeconds;
  '(dkim_field, dkim_errors) ← discover domain selectors autoDiscover timeoutSeconds;
  mret (MkDomainResult domain
          (phrase "MX" o_mx) (phrase "SPF" o_spf) dkim_field (phrase "DMARC" o_dmarc)
          (diagnostic "MX" o_mx ++ diagnostic "SPF" o_spf ++ diagnostic "DMARC" o_dmarc
           ++ dkim_errors)).

(** Modelled from the spec: the result and the queries of one check of the
    missing Aggregator, started with an empty log. *)
Definition checkDomain_run (domain : string) (selectors : list string)
    (timeoutSeconds : Z) (autoDiscover : bool) : DomainResult * log :=
  checkDomain_logged domain selectors timeoutSeconds autoDiscover [].

(** Modelled from the spec: the [DomainResult] the missing Aggregator
    returns. *)
Definition checkDomain (domain : string) (selectors : list string)
    (timeoutSeconds : Z) (autoDiscover : bool) : DomainResult :=
  (checkDomain_run domain selectors timeoutSeconds autoDiscover).1.
End Engine.

(** Modelled from the spec: the dictionary the missing
    [perform_complete_dns_check] hands to its callers, the [DomainResult] of
    section 3 under the keys [esdar-checker_v2.py] reads. *)
Definition as_dict (r : DomainResult) : result :=
  Result (<["domain" := domain r]> (<["mx" := mx r]> (<["spf" := spf r]>
            (<["dkim" := dkim r]> (<["dmarc" := dmarc r]> ∅)))))
         (Some (errors r)).

(** Modelled from the spec: the missing [perform_complete_dns_check(domain,
    selectors, timeout, auto_discover_dkim)], as [esdar-checker_v2.py] calls
    it: the Aggregator, [None] standing for no selectors. *)
Definition perform_complete_dns_check (nameservers : list string)
    (network : string -> RecordType -> Z -> reply) (candidates : list string)
    : list string -> string -> option (list string) -> Z -> bool -> check_reply :=
  λ _ domain selectors timeout auto_discover_dkim,
    Returns (as_dict (checkDomain nameservers network candidates domain
                        (default [] selectors) timeout auto_discover_dkim)).

End DnsLookup.

(* ===================================================================== *)
(** ** The states the program reaches *)
(* ===================================================================== *)

(** One call of a function of the program that touches the configuration,
    the files or the terminal. *)
Inductive step : world -> world -> Prop :=
  | step_update_path path w :
      step w (Config.update_path path w).2
  | step_get_nameserver_list w :
      step w (Config.get_nameserver_list w).2
  | step_write_results_to_csv results append w :
      step w (CsvHelper.write_results_to_csv results append w).2
  | step_main dns validate_domain a w :
      step w (Checker.main dns validate_domain a w).2.

(** The states reached from the import of [config], over any file system. *)
Definition reachable (w : world) : Prop :=
  ∃ d f i x, rtc step (Config.at_import d f i x) w.

(* ===================================================================== *)
(** ** The vocabulary of the properties *)
(* ===================================================================== *)

(** *** Strings *)

(** [needle in hay] holds exactly when [hay] is some text, then [needle],
    then some text. *)
Definition contains (hay needle : string) : Prop :=
  ∃ pre post, hay = pre +:+ needle +:+ post.

(** What the default call does to one character. *)
Definition semicolon_to_comma (c : ascii) : ascii :=
  if Ascii.eqb c ";" then "," else c.

(** A cleaned element: stripped, in lower case, not empty. *)
Definition clean (x : string) : Prop :=
  Py.strip x = x ∧ Py.lower x = x ∧ x ≠ "".

(** *** Computations and the relations they respect *)

(** A computation respects a relation between states when every run, however
    it ends, leaves a state related to the one it started from. *)
Definition respects {S A} (R : relation S) (m : M S A) : Prop :=
  ∀ s, R s (m s).2.

(** Inside a loop the relation is on the world; the locals are free. *)
Definition on_world {L} (R : relation world) : relation (L * world) :=
  λ s s', R s.2 s'.2.

(** The relations that matter below.  Each leaves one component of the
    world alone, or lets the terminal grow by lines of a given kind. *)
Definition keeps {X} (f : world → X) : relation world := λ w w', f w' = f w.

Definition prints (P : printer * string → Prop) : relation world :=
  λ w w', ∃ new, terminal w' = terminal w ++ new ∧ Forall P new.

(** The world after one more line on the terminal. *)
Definition printed (p : printer) (m : string) (w : world) : world :=
  set_terminal (terminal w ++ [(p, m)]) w.

(** Every printer. *)
Definition any_printer : printer → bool := λ _, true.

(** *** The output file *)

(** The path the results go to. *)
Definition output_filepath (w : world) : string :=
  Py.replace (Py.path_join (RELATIVE_FILE_PATH w) CsvHelper.OUTPUT_FILENAME) "\" "/".

(** The file can be written: its directory has a name and neither refuses. *)
Definition writable (w : world) : Prop :=
  Py.truthy (Py.dirname (output_filepath w)) = true
  ∧ (Py.dirname (output_filepath w) ∉ denied w)
  ∧ (output_filepath w ∉ denied w).

(** [os.path.isfile] of the output path. *)
Definition file_exists (w : world) : bool :=
  bool_decide (is_Some (csv_files w !! output_filepath w))
  || bool_decide (is_Some (inputs w !! output_filepath w)).

(** What the file holds before the rows: with [append], what it held. *)
Definition kept (append : bool) (w : world) : list (list string) :=
  if append then default [] (csv_files w !! output_filepath w) else [].

(** The header row, where it is written: always without [append], and with
    it when no file is there yet. *)
Definition header_rows (append : bool) (w : world) : list (list string) :=
  if append && file_exists w then []
  else [["Domain"; "MX Record"; "SPF Record"; "DKIM Record"; "DMARC Record"]].

(** The five strings of a result, when it has them. *)
Definition has_strings (r : result) (d m s k c : string) : Prop :=
  entries r !! "domain" = Some d ∧ entries r !! "mx" = Some m
  ∧ entries r !! "spf" = Some s ∧ entries r !! "dkim" = Some k
  ∧ entries r !! "dmarc" = Some c.

(** The message of [csv_helper.py] for a [PermissionError]. *)
Definition cannot_write (p : string) : string :=
  "Cannot write to " +:+ p +:+
  " - file is open in another program. Please close it and try again.".

(** *** The lines of the terminal *)

(** The lines that carry a status. *)
Definition is_status (p : printer) : bool :=
  match p with
  | print_found_p | print_not_found_p | print_partial_p => true
  | _ => false
  end.

(** The lines of [print], [print_warning] and [print_error]. *)
Definition is_plain (p : printer) : bool :=
  match p with
  | print_p | print_warning_p | print_error_p => true
  | _ => false
  end.

(** A line that carries no status, and a plain line. *)
Definition no_status (e : printer * string) : Prop := is_status e.1 = false.

Definition plain (e : printer * string) : Prop := is_plain e.1 = true.

(** The lines of a terminal that carry a status. *)
Definition status_lines (t : list (printer * string)) : list (printer * string) :=
  filter (λ e, is_status e.1 = true) t.

(** The printer of an MX, SPF or DMARC line. *)
Definition record_printer (marker v : string) : printer :=
  if Checker.reads_as_absent marker v then print_not_found_p else print_found_p.

(** The printer of the DKIM line. *)
Definition dkim_printer (dkim : string) : printer :=
  if Checker.dkim_reads_as_absent dkim
  then if Checker.dkim_no_selectors dkim then print_partial_p else print_not_found_p
  else print_found_p.

(** The reading of a record string that earns the found status: none of the
    marker, [does not exist] and [timeout] occurs in it, nor [error] in any
    casing. *)
Definition reads_found (marker v : string) : Prop :=
  ¬ contains v marker ∧ ¬ contains v "does not exist"
  ∧ ¬ contains v "timeout" ∧ ¬ contains (Py.lower v) "error".

(** *** The checks of a run *)

(** The checks made during a run are the first [n] domains of [l]. *)
Definition checks (l : list string) : relation world :=
  λ w w', ∃ n, checked w' = checked w ++ take n l.

(** The check of [d] is made, and no other. *)
Definition checks_one (d : string) : relation world :=
  λ w w', checked w' = checked w ++ [d].

(** *** Engines and results to run the program on *)

(** A result with a record in each field. *)
Definition example_result (mx spf dkim dmarc : string) : result :=
  Result (<["domain" := "example.com"]> (<["mx" := mx]> (<["spf" := spf]>
            (<["dkim" := dkim]> (<["dmarc" := dmarc]> ∅)))))
         (Some []).

(** An engine that returns the same result for every domain. *)
Definition always (r : result)
    : list string → string → option (list string) → Z → bool → check_reply :=
  λ _ _ _ _ _, Returns r.

(** An engine that answers for the domain [d] and is interrupted on any
    other. *)
Definition interrupted_after (d : string) (r : result)
    : list string → string → option (list string) → Z → bool → check_reply :=
  λ _ domain _ _ _, if String.eqb domain d then Returns r else Raises KeyboardInterrupt.

(** An engine that fails on the domain [d] and answers for any other. *)
Definition failing_on (d : string) (r : result)
    : list string → string → option (list string) → Z → bool → check_reply :=
  λ _ domain _ _ _,
    if String.eqb domain d then Raises (OtherException "The DNS operation timed out.")
    else Returns r.

(** A result whose [errors] are not empty. *)
Definition timed_out_result : result :=
  Result (<["domain" := "example.com"]> (<["mx" := "10 mail.example.com."]>
            (<["spf" := "v=spf1 -all"]> (<["dkim" := "No selectors provided"]>
               (<["dmarc" := "No DMARC record found"]> ∅)))))
         (Some ["DMARC lookup: DNS query timeout"]).

(** *** The engine *)

Section EngineVocabulary.
Import DnsLookup.
Variable nameservers : list string.
Variable network : string -> RecordType -> Z -> reply.
Variable candidates : list string.

(** The outcome of the one query a strategy makes. *)
Definition outcome_of (s : Strategy) (timeoutSeconds : Z) : QueryOutcome :=
  match resolve nameservers network (query_name s) (query_type s) timeoutSeconds with
  | Answers values => classify (success_formatting s values) None
  | Fault f => classify None (Some f)
  end.

(** The query a strategy makes. *)
Definition query_of (s : Strategy) : string * RecordType := (query_name s, query_type s).

(** The outcome for one selector of a domain. *)
Definition dkim_outcome (domain : string) (timeoutSeconds : Z) (selector : string)
    : QueryOutcome :=
  outcome_of (DKIM_strategy domain selector) timeoutSeconds.

(** The query for one selector of a domain. *)
Definition dkim_query (domain selector : string) : string * RecordType :=
  (selector +:+ "._domainkey." +:+ domain, TXT).

(** A selector fails when its query is anything but [Found]. *)
Definition fails (domain : string) (timeoutSeconds : Z) (selector : string) : Prop :=
  is_Found (dkim_outcome domain timeoutSeconds selector) = false.

(** The three queries every check makes before selector discovery. *)
Definition record_queries (domain : string) : log :=
  [(domain, MX); (domain, TXT); ("_dmarc." +:+ domain, TXT)].

End EngineVocabulary.

(** Of the selectors [a], [b] and [c] of [example.com], [b] and [c] carry a
    key. *)
Definition b_and_c_network : string → DnsLookup.RecordType → Z → DnsLookup.reply :=
  λ name recordType _,
    if String.eqb name "b._domainkey.example.com" then DnsLookup.Answers ["v=DKIM1; p=KEYB"]
    else if String.eqb name "c._domainkey.example.com" then DnsLookup.Answers ["v=DKIM1; p=KEYC"]
    else DnsLookup.Fault DnsLookup.NoAnswer.

(* ===================================================================== *)
(** ** The vocabulary of the further properties *)
(* ===================================================================== *)

(** What [s.replace(c, d)] does to one character, for one-character [c]
    and [d]. *)
Definition swap_char (c d x : ascii) : ascii :=
  if Ascii.eqb x c then d else x.

(** [s] without its occurrences of the character [c]. *)
Fixpoint without_char (c : ascii) (s : string) : string :=
  match s with
  | EmptyString => EmptyString
  | String x r => if Ascii.eqb x c then without_char c r else String x (without_char c r)
  end.

(** The line feed and the carriage return, as strings of one character. *)
Definition LF : string := String "010" "".
Definition CR : string := String "013" "".

(** The path [update_path] stores: its back-slashes turned into slashes, and
    a slash put at the end when there is none. *)
Definition normalized (path : string) : string :=
  let n := Py.replace path "\" "/" in
  if negb (Py.endswith n "/") then n +:+ "/" else n.

(** An output directory as [config.py] keeps it: it ends with a slash and
    holds no back-slash. *)
Definition well_formed_path (p : string) : Prop :=
  Py.endswith p "/" = true ∧ ¬ contains p "\".

(** A relation between states that keeps a property of the output
    directory. *)
Definition keeps_path (good : string → Prop) : relation world :=
  λ w w', good (RELATIVE_FILE_PATH w) → good (RELATIVE_FILE_PATH w').

(** The warning of [validate_provided_domains] for one domain. *)
Definition invalid_format (d : string) : printer * string :=
  (print_warning_p, "Invalid domain format: " +:+ d).

(** [os.path.isfile] in a state. *)
Definition is_file (p : string) (w : world) : Prop :=
  is_Some (csv_files w !! p) ∨ is_Some (inputs w !! p).

(** The arguments [validate_args] accepts: the domain, when one is given,
    has a valid form, and the file of domains, when one is given, is
    there. *)
Definition valid_arguments (validate_domain : string → bool) (a : Args.t) (w : world) : Prop :=
  (∀ d, given (Args.domain a) = Some d → validate_domain d = true)
  ∧ (∀ f, given (Args.domains_file a) = Some f → is_file f w).

(** Arguments with everything left at its default but the domain. *)
Definition args_of_domain (d : string) : Args.t :=
  Args.Make (Some d) None "" "" false "no" None 10 false.

(** A result that has the four records [process_single_domain] prints. *)
Definition has_records (r : result) : Prop :=
  is_Some (entries r !! "mx") ∧ is_Some (entries r !! "spf")
  ∧ is_Some (entries r !! "dkim") ∧ is_Some (entries r !! "dmarc").

(** The last line of the terminal is an error. *)
Definition ends_with_error (w : world) : Prop :=
  ∃ m, last (terminal w) = Some (print_error_p, m).

(** *** How a computation can end *)

(** Every run of [m] returns, exits with status 1, or raises an exception
    of the kind [P]: no other exception escapes it, and no other status. *)
Definition escapes {S A} (P : exn → Prop) (m : M S A) : Prop :=
  ∀ s, match (m s).1 with
       | Ret _ => True
       | Raise e => P e
       | SysExit code => code = 1%Z
       end.

(** No exception. *)
Definition none : exn → Prop := λ _, False.

(** The exceptions of the file system and of a missing key, a
    [KeyboardInterrupt] left aside. *)
Definition errors_only : exn → Prop := λ e, e ≠ KeyboardInterrupt.

(** Any exception. *)
Definition anything : exn → Prop := λ _, True.

(** *** The run of [main] *)

(** The state once [main] has dealt with [--output_path]: the path is
    stored and its directory made; when that fails a warning is printed and
    the path stays as it was. *)
Definition after_output_path (a : Args.t) (w : world) : world :=
  match given (Args.output_path a) with
  | Some p =>
      if bool_decide (normalized p ∈ denied w)
      then printed print_warning_p
             ("Invalid output path: " +:+ p +:+ ". Using default from config.py") w
      else set_RELATIVE_FILE_PATH (normalized p)
             (set_dirs ({[normalized p]} ∪ dirs w) w)
  | None => w
  end.

(** [args.append.lower() == "yes"] *)
Definition append_mode (a : Args.t) : bool := String.eqb (Py.lower (Args.append a)) "yes".

(** A validator that accepts no domain. *)
Definition rejects_all : string → bool := λ _, false.

(** A validator that accepts every domain. *)
Definition accepts_all : string → bool := λ _, true.

(** *** The answers of the engine to a list of domains *)

(** [has_records], as a test. *)
Definition has_records_b (r : result) : bool :=
  bool_decide (is_Some (entries r !! "mx")) && bool_decide (is_Some (entries r !! "spf"))
  && bool_decide (is_Some (entries r !! "dkim")) && bool_decide (is_Some (entries r !! "dmarc")).

(** The results the engine gives for the domains of a list, checked in
    order after the domains [seen]: all of them, when every call returns a
    result that has its four records; none, when a call raises or a record is
    missing. *)
Fixpoint answers (dns : list string → string → option (list string) → Z → bool → check_reply)
    (selectors : option (list string)) (timeout : Z) (auto_discover_dkim : bool)
    (seen : list string) (domains : list string) : option (list result) :=
  match domains with
  | [] => Some []
  | d :: ds =>
      match dns seen d selectors timeout auto_discover_dkim with
      | Returns r =>
          if has_records_b r
          then cons r <$> answers dns selectors timeout auto_discover_dkim (seen ++ [d]) ds
          else None
      | Raises _ => None
      end
  end.

(** The state after some lines were printed and some domains checked. *)
Definition later (lines : list (printer * string)) (domains : list string) (w : world) : world :=
  set_terminal (terminal w ++ lines) (set_checked (checked w ++ domains) w).

(** The arguments with [--skip_errors] set or not. *)
Definition with_skip_errors (b : bool) (a : Args.t) : Args.t :=
  Args.Make (Args.domain a) (Args.domains_file a) (Args.selector a) (Args.selectors a)
    (Args.auto_discover_dkim a) (Args.append a) (Args.output_path a) (Args.timeout a) b.



(** The engine's report of an auto-discovery that found nothing, for three
    common selectors: 67 characters, one of them a dash outside the range. *)
Definition none_of_three : string :=
  "No DKIM record found — tested common selectors: default, dkim, mail".

(** *** The domains [main] is given *)

(** The domains of the arguments: the [--domain], or else what
    [read_domains_from_file] reads from the [--domains_file]; none when
    neither is given or the file cannot be read. *)
Definition given_domains (a : Args.t) (w : world) : list string :=
  match given (Args.domain a) with
  | Some d => [d]
  | None =>
      match given (Args.domains_file a) with
      | Some f =>
          match (CsvHelper.read_domains_from_file f w).1 with
          | Ret domains => domains
          | Raise _ | SysExit _ => []
          end
      | None => []
      end
  end.

(** A file of three domains, out of order, one of them twice and in
    capitals. *)
Definition three_domains : gmap string file_of_domains :=
  {["domains.txt" := Readable ["zeta.org"; " Alpha.com"; "mid.net"; "ZETA.org"]]}.

(** The arguments that name that file and nothing else. *)
Definition args_of_file : Args.t :=
  Args.Make None (Some "domains.txt") "" "" false "no" None 10 false.

(* ===================================================================== *)
(** * Properties *)
(* ===================================================================== *)

(** ** Running the definitions *)

Example replace_characters_ex :
  Helper.replace_characters_default "v=DMARC1; p=none; rua=x" = "v=DMARC1, p=none, rua=x".
Proof. reflexivity. Qed.

Example replace_characters_round_trip_ex :
  Helper.replace_characters_default
    (DnsLookup.phrase "SPF" (DnsLookup.Found "v=spf1 include:_spf.example.com ~all"))
  = "v=spf1 include:_spf.example.com ~all".
Proof. reflexivity. Qed.

Example replace_overlap_ex : Py.replace "aaaa" "aa" "b" = "bb".
Proof. reflexivity. Qed.

Example replace_empty_ex : Py.replace "abc" "" "-" = "-a-b-c-".
Proof. reflexivity. Qed.

Example strip_ex : Py.strip (String "009" " a b " +:+ Checker.nl) = "a b".
Proof. reflexivity. Qed.

Example split_ex : Py.split_char "," "a,,b," = ["a"; ""; "b"; ""].
Proof. reflexivity. Qed.

Example dirname_ex :
  Py.dirname "resources/output/esdar-check_result.csv" = "resources/output"
  ∧ Py.dirname "/x" = "/" ∧ Py.dirname "x" = "" ∧ Py.dirname "a//b" = "a".
Proof. repeat split; reflexivity. Qed.

Example cleanup_ex :
  Helper.cleanup_domains_list ["  Zeta.org "; "alpha.COM"; ""; "  "; "zeta.org"; "Beta.net"]
  = ["alpha.com"; "beta.net"; "zeta.org"].
Proof. vm_compute. reflexivity. Qed.

Example parse_selectors_ex :
  Checker.parse_selectors " google " "default, google ,,k1" = ["google"; "default"; "k1"].
Proof. vm_compute. reflexivity. Qed.

(** ** Strings *)

Section StringFacts.

Lemma app_nil_l (t : string) : "" +:+ t = t.
Proof. reflexivity. Qed.

Lemma app_cons (c : ascii) (s t : string) : String c s +:+ t = String c (s +:+ t).
Proof. reflexivity. Qed.

Lemma prefix_app (needle post : string) : String.prefix needle (needle +:+ post) = true.
Proof.
  induction needle as [|c n IH].
  - by destruct post.
  - rewrite app_cons. simpl. destruct (ascii_dec c c); [exact IH | done].
Qed.

Lemma prefix_split (needle hay : string) :
  String.prefix needle hay = true → ∃ post, hay = needle +:+ post.
Proof.
  revert hay. induction needle as [|c n IH]; intros hay H.
  - by exists hay.
  - destruct hay as [|d hay]; simpl in H; [done |].
    destruct (ascii_dec c d) as [->|]; [| done].
    destruct (IH _ H) as [post ->]. by exists post.
Qed.

Lemma str_in_nil (needle : string) :
  Py.str_in needle "" = String.prefix needle "".
Proof. unfold Py.str_in. apply orb_false_r. Qed.

Lemma str_in_cons (needle : string) (c : ascii) (hay : string) :
  Py.str_in needle (String c hay)
  = String.prefix needle (String c hay) || Py.str_in needle hay.
Proof. reflexivity. Qed.

Lemma str_in_contains (needle hay : string) :
  Py.str_in needle hay = true ↔ contains hay needle.
Proof.
  split.
  - induction hay as [|c hay IH]; intros H.
    + rewrite str_in_nil in H.
      apply prefix_split in H as [post ->]. by exists "", post.
    + rewrite str_in_cons in H. apply orb_true_iff in H as [H | H].
      * apply prefix_split in H as [post ->]. by exists "", post.
      * destruct (IH H) as (pre & post & ->). by exists (String c pre), post.
  - intros (pre & post & ->). induction pre as [|c pre IH].
    + rewrite app_nil_l. destruct (needle +:+ post) eqn:E.
      * rewrite str_in_nil, <- E. apply prefix_app.
      * rewrite str_in_cons, <- E, prefix_app. done.
    + rewrite app_cons, str_in_cons, IH. apply orb_true_r.
Qed.

Lemma str_in_not_contains (needle hay : string) :
  Py.str_in needle hay = false ↔ ¬ contains hay needle.
Proof.
  rewrite <- str_in_contains. destruct (Py.str_in needle hay); naive_solver.
Qed.

End StringFacts.

(** ** helper.py: [replace_characters] *)

Section ReplaceCharacters.

Lemma replace_semicolon_go (s : string) :
  Py.replace_go ";" "," 0 s = Py.map_chars semicolon_to_comma s.
Proof.
  induction s as [|c s IH]; [done |].
  cbn [Py.replace_go Py.map_chars String.prefix String.length Nat.sub].
  unfold semicolon_to_comma at 1.
  destruct (ascii_dec ";" c) as [<-|Hne].
  - assert (String.prefix "" s = true) as -> by (by destruct s).
    rewrite app_cons, app_nil_l, IH. done.
  - assert (Ascii.eqb c ";" = false) as -> by (apply Ascii.eqb_neq; congruence).
    by rewrite IH.
Qed.

Lemma map_chars_length f (s : string) :
  String.length (Py.map_chars f s) = String.length s.
Proof. induction s; simpl; congruence. Qed.

Lemma map_chars_get f (s : string) (i : nat) :
  String.get i (Py.map_chars f s) = f <$> String.get i s.
Proof.
  revert i. induction s as [|c s IH]; intros [|i]; simpl; auto.
Qed.

End ReplaceCharacters.

(** C1.  For every string [s], [replace_characters(s)] with its default
    arguments is [s] with every [;] replaced by [,] and nothing else changed:
    the result has the length of [s], and at every position it holds [,]
    where [s] holds [;] and the character of [s] otherwise.  The empty
    string is mapped to the empty string. *)
Theorem replace_characters_default_spec (s : string) :
  Helper.replace_characters_default s = Py.map_chars semicolon_to_comma s
  ∧ String.length (Helper.replace_characters_default s) = String.length s
  ∧ (∀ i, String.get i (Helper.replace_characters_default s)
          = (λ c, if decide (c = ";"%char) then ","%char else c) <$> String.get i s)
  ∧ Helper.replace_characters_default "" = "".
Proof.
  assert (Helper.replace_characters_default s = Py.map_chars semicolon_to_comma s) as E.
  { unfold Helper.replace_characters_default, Helper.replace_characters, Py.replace.
    destruct s as [|c s]; [done |]. cbn [Py.truthy negb]. apply replace_semicolon_go. }
  rewrite E. split_and!; [done | apply map_chars_length | | done].
  intros i. rewrite map_chars_get. destruct (String.get i s) as [c|]; [| done].
  simpl. f_equal. unfold semicolon_to_comma.
  destruct (decide (c = ";"%char)) as [->|Hne]; [done |].
  by apply Ascii.eqb_neq in Hne as ->.
Qed.

(** ** helper.py: [cleanup_domains_list] *)

Section Cleanup.

Lemma is_space_lower_char (c : ascii) : Py.is_space (Py.lower_char c) = Py.is_space c.
Proof. destruct c as [[] [] [] [] [] [] [] []]; reflexivity. Qed.

Lemma lower_char_idemp (c : ascii) : Py.lower_char (Py.lower_char c) = Py.lower_char c.
Proof. destruct c as [[] [] [] [] [] [] [] []]; reflexivity. Qed.

Lemma lower_idemp (s : string) : Py.lower (Py.lower s) = Py.lower s.
Proof.
  unfold Py.lower. induction s as [|c s IH]; simpl; [done |].
  by rewrite lower_char_idemp, IH.
Qed.

Lemma lower_truthy (s : string) : Py.truthy (Py.lower s) = Py.truthy s.
Proof. by destruct s. Qed.

Lemma lstrip_lower (s : string) : Py.lstrip (Py.lower s) = Py.lower (Py.lstrip s).
Proof.
  unfold Py.lower. induction s as [|c s IH]; simpl; [done |].
  rewrite is_space_lower_char. by destruct (Py.is_space c).
Qed.

Lemma rstrip_lower (s : string) : Py.rstrip (Py.lower s) = Py.lower (Py.rstrip s).
Proof.
  unfold Py.lower, Py.rstrip. induction s as [|c s IH]; simpl; [done |].
  rewrite IH, is_space_lower_char.
  destruct (Py.rstrip_with Py.is_space s); simpl; [| done].
  by destruct (Py.is_space c).
Qed.

Lemma strip_lower (s : string) : Py.strip (Py.lower s) = Py.lower (Py.strip s).
Proof. unfold Py.strip. by rewrite lstrip_lower, rstrip_lower. Qed.

Lemma lstrip_idemp (s : string) : Py.lstrip (Py.lstrip s) = Py.lstrip s.
Proof.
  induction s as [|c s IH]; simpl; [done |].
  destruct (Py.is_space c) eqn:E; [done |]. simpl. by rewrite E.
Qed.

Lemma rstrip_with_idemp p (s : string) :
  Py.rstrip_with p (Py.rstrip_with p s) = Py.rstrip_with p s.
Proof.
  induction s as [|c s IH]; simpl; [done |].
  destruct (Py.rstrip_with p s) as [|d r] eqn:E.
  - destruct (p c) eqn:Ec; simpl; [done |]. by rewrite Ec.
  - simpl in *. by rewrite IH.
Qed.

(** A string that does not start with white space still does not once
    its tail is stripped. *)
Lemma lstrip_rstrip_fixed (s : string) :
  Py.lstrip s = s → Py.lstrip (Py.rstrip s) = Py.rstrip s.
Proof.
  unfold Py.rstrip. destruct s as [|c s]; simpl; [done |].
  destruct (Py.is_space c) eqn:Ec.
  - intros H. exfalso.
    assert (String.length (Py.lstrip s) ≤ String.length s)%nat as Hle.
    { clear. induction s as [|d s IH]; simpl; [lia |].
      destruct (Py.is_space d); simpl; lia. }
    rewrite H in Hle. simpl in Hle. lia.
  - intros _. destruct (Py.rstrip_with Py.is_space s); simpl; by rewrite Ec.
Qed.

Lemma strip_idemp (s : string) : Py.strip (Py.strip s) = Py.strip s.
Proof.
  unfold Py.strip.
  rewrite (lstrip_rstrip_fixed (Py.lstrip s)) by apply lstrip_idemp.
  apply rstrip_with_idemp.
Qed.

(** The invariant of the loop that removes duplicates: [seen] holds the
    members of [unique_domains]. *)
Lemma dedup_loop_spec (cleaned : list string) (seen : gset string) (acc : list string) :
  (∀ x, x ∈ seen ↔ x ∈ acc) → NoDup acc →
  NoDup (Helper.dedup_loop cleaned seen acc)
  ∧ (∀ x, x ∈ Helper.dedup_loop cleaned seen acc ↔ x ∈ acc ∨ x ∈ cleaned).
Proof.
  revert seen acc. induction cleaned as [|d rest IH]; intros seen acc Hseen Hnd; simpl.
  - split; [done |]. intros x. rewrite elem_of_nil. tauto.
  - destruct (decide (d ∈ seen)) as [Hin | Hnin].
    + destruct (IH seen acc Hseen Hnd) as [H1 H2]. split; [done |].
      intros x. rewrite H2, elem_of_cons. apply Hseen in Hin.
      split; [tauto |]. intros [? | [-> | ?]]; tauto.
    + destruct (IH ({[d]} ∪ seen) (acc ++ [d])) as [H1 H2].
      * intros x. rewrite elem_of_union, elem_of_singleton, elem_of_app, list_elem_of_singleton, Hseen.
        tauto.
      * apply NoDup_app. split_and!; [done | | apply NoDup_singleton].
        intros x Hx ->%list_elem_of_singleton. by apply Hnin, Hseen.
      * split; [done |]. intros x.
        rewrite H2, elem_of_app, list_elem_of_singleton, elem_of_cons. tauto.
Qed.

(** On a list without duplicates, none of them seen, the loop appends the
    whole list. *)
Lemma dedup_loop_NoDup (cleaned : list string) (seen : gset string) (acc : list string) :
  NoDup cleaned → (∀ x, x ∈ cleaned → x ∉ seen) →
  Helper.dedup_loop cleaned seen acc = acc ++ cleaned.
Proof.
  revert seen acc. induction cleaned as [|d rest IH]; intros seen acc Hnd Hfresh; simpl.
  - by rewrite app_nil_r.
  - apply NoDup_cons in Hnd as [Hd Hnd].
    destruct (decide (d ∈ seen)) as [Hin | _].
    + exfalso. eapply Hfresh; [left | done].
    + rewrite IH, <- app_assoc; [done | done |].
      intros x Hx. rewrite elem_of_union, elem_of_singleton.
      intros [-> | Hs]; [done |]. eapply Hfresh; [by right | done].
Qed.

(** [list.sort()] leaves a sorted list as it is. *)
Lemma sort_sorted (l : list string) : Sorted String.le l → Py.sort l = l.
Proof.
  intros Hs. unfold Py.sort. apply (Sorted_unique String.le); [| done |].
  - apply Sorted_merge_sort. apply _.
  - apply merge_sort_Permutation.
Qed.

(** Whatever the algorithm, the sorted arrangement of a list is the one
    [Py.sort] computes. *)
Lemma sort_unique (l l' : list string) :
  Sorted String.le l' → l' ≡ₚ l → l' = Py.sort l.
Proof.
  intros Hs Hp. unfold Py.sort. apply (Sorted_unique String.le); [done | |].
  - apply Sorted_merge_sort. apply _.
  - by rewrite merge_sort_Permutation.
Qed.

Lemma clean_lower_strip (d : string) :
  Py.truthy (Py.strip d) = true → clean (Py.lower (Py.strip d)).
Proof.
  intros H. split_and!.
  - by rewrite strip_lower, strip_idemp.
  - apply lower_idemp.
  - intros E. rewrite <- lower_truthy, E in H. done.
Qed.

Lemma cleanup_elements (domains : list string) (x : string) :
  x ∈ Helper.cleanup_domains_list domains ↔
  ∃ d, d ∈ domains ∧ Py.truthy (Py.strip d) = true ∧ x = Py.lower (Py.strip d).
Proof.
  unfold Helper.cleanup_domains_list. destruct domains as [|d0 ds].
  { rewrite elem_of_nil. split; [done |]. intros (d & Hd & _). by apply elem_of_nil in Hd. }
  set (l := d0 :: ds). unfold Py.sort. rewrite merge_sort_Permutation.
  destruct (dedup_loop_spec
              (map (λ d, Py.lower (Py.strip d))
                   (filter (λ d, Py.truthy (Py.strip d) = true) l)) ∅ []) as [_ H].
  { intros y. rewrite elem_of_empty, elem_of_nil. tauto. }
  { constructor. }
  rewrite H, elem_of_nil.
  change (map ?f ?k) with (f <$> k). rewrite list_elem_of_fmap.
  setoid_rewrite list_elem_of_filter. split.
  - intros [[] | (d & -> & Hd & Hin)]. by exists d.
  - intros (d & Hin & Hd & ->). right. by exists d.
Qed.

Lemma cleanup_NoDup (domains : list string) : NoDup (Helper.cleanup_domains_list domains).
Proof.
  unfold Helper.cleanup_domains_list. destruct domains as [|d0 ds]; [constructor |].
  unfold Py.sort. rewrite merge_sort_Permutation.
  apply dedup_loop_spec; [| constructor].
  intros y. rewrite elem_of_empty, elem_of_nil. tauto.
Qed.

Lemma cleanup_Sorted (domains : list string) :
  Sorted String.le (Helper.cleanup_domains_list domains).
Proof.
  unfold Helper.cleanup_domains_list. destruct domains as [|d0 ds]; [constructor |].
  apply Sorted_merge_sort. apply _.
Qed.

Lemma cleanup_clean (domains : list string) :
  Forall clean (Helper.cleanup_domains_list domains).
Proof.
  apply Forall_forall. intros x (d & _ & Hd & ->)%cleanup_elements.
  by apply clean_lower_strip.
Qed.

(** On a list that is already sorted, free of duplicates and clean, the
    function is the identity. *)
Lemma cleanup_fixed (l : list string) :
  Sorted String.le l → NoDup l → Forall clean l → Helper.cleanup_domains_list l = l.
Proof.
  intros Hs Hnd Hc. unfold Helper.cleanup_domains_list.
  destruct l as [|d0 ds]; [done |]. set (l := d0 :: ds) in *.
  assert (filter (λ d, Py.truthy (Py.strip d) = true) l = l) as ->.
  { clearbody l. induction Hc as [|x k (Hx1 & _ & Hx3) _ IH]; [done |].
    apply NoDup_cons in Hnd as [_ Hnd]. apply Sorted_inv in Hs as [Hs _].
    rewrite filter_cons_True, IH; [done.. |].
    rewrite Hx1. by destruct x. }
  assert (map (λ d, Py.lower (Py.strip d)) l = l) as ->.
  { clearbody l. clear Hs Hnd. induction Hc as [|x k (Hx1 & Hx2 & _) _ IH]; [done |].
    simpl. by rewrite Hx1, Hx2, IH. }
  rewrite dedup_loop_NoDup; [| done | set_solver].
  by apply sort_sorted.
Qed.

End Cleanup.

(** ** Reasoning about computations *)

Section Respects.
Context {S : Type} (R : relation S) `{!PreOrder R}.

Lemma respects_ret {A} (a : A) : respects R (mret a : M S A).
Proof. intros s. simpl. reflexivity. Qed.

Lemma respects_raise {A} (e : exn) : respects R (raise e : M S A).
Proof. intros s. simpl. reflexivity. Qed.

Lemma respects_sys_exit {A} (c : Z) : respects R (sys_exit c : M S A).
Proof. intros s. simpl. reflexivity. Qed.

Lemma respects_get_state : respects R (get_state : M S S).
Proof. intros s. simpl. reflexivity. Qed.

Lemma respects_modify (f : S → S) : (∀ s, R s (f s)) → respects R (modify f).
Proof. intros H s. apply H. Qed.

Lemma respects_bind {A B} (m : M S A) (k : A → M S B) :
  respects R m → (∀ a, respects R (k a)) → respects R (m ≫= k).
Proof.
  intros Hm Hk s. unfold mbind, M_bind. specialize (Hm s).
  destruct (m s) as [[a | e | c] s1]; simpl in *; [| done..].
  etrans; [exact Hm | apply Hk].
Qed.

Lemma respects_try_except {A} (body : M S A) (handler : exn → option (M S A)) :
  respects R body → (∀ e h, handler e = Some h → respects R h) →
  respects R (try_except body handler).
Proof.
  intros Hb Hh s. unfold try_except. specialize (Hb s).
  destruct (body s) as [[a | e | c] s1]; simpl in *; [done | | done].
  destruct (handler e) as [h |] eqn:E; [| done].
  etrans; [exact Hb | by eapply Hh].
Qed.

Lemma respects_for_each {A} (l : list A) (body : A → M S unit) :
  (∀ x, respects R (body x)) → respects R (for_each l body).
Proof.
  intros Hb. induction l as [|x l IH]; simpl.
  - apply respects_ret.
  - apply respects_bind; [apply Hb | by intros _].
Qed.
End Respects.

Global Instance on_world_preorder {L} (R : relation world) `{!PreOrder R} :
  PreOrder (@on_world L R).
Proof.
  split.
  - intros [l w]. unfold on_world. reflexivity.
  - intros [l1 w1] [l2 w2] [l3 w3]. unfold on_world. simpl. apply transitivity.
Qed.

Section OnWorld.
Context {L : Type} (R : relation world) `{!PreOrder R}.

Lemma respects_call {A} (m : M world A) :
  respects R m → respects (@on_world L R) (call m).
Proof.
  intros Hm [l w]. unfold call, on_world. specialize (Hm w).
  by destruct (m w) as [r w'].
Qed.

Lemma respects_get_locals : respects (@on_world L R) get_locals.
Proof. intros [l w]. unfold on_world. simpl. reflexivity. Qed.

Lemma respects_set_locals (l : L) : respects (@on_world L R) (set_locals l).
Proof. intros [l' w]. unfold on_world. simpl. reflexivity. Qed.
End OnWorld.

(** Running a sequence: the first computation decides. *)
Lemma run_bind {S A B} (m : M S A) (k : A → M S B) (s : S) :
  (m ≫= k) s = match m s with
               | (Ret a, s') => k a s'
               | (Raise e, s') => (Raise e, s')
               | (SysExit c, s') => (SysExit c, s')
               end.
Proof. reflexivity. Qed.

(** Unfolding the monad to run a computation on a state. *)
Ltac run_m := cbv [mbind M_bind mret M_ret get_state modify raise sys_exit].

Global Instance keeps_preorder {X} (f : world → X) : PreOrder (keeps f).
Proof. split; unfold keeps; [done | congruence]. Qed.

Global Instance prints_preorder P : PreOrder (prints P).
Proof.
  split.
  - intros w. exists []. by rewrite app_nil_r.
  - intros w1 w2 w3 (n1 & E1 & H1) (n2 & E2 & H2). exists (n1 ++ n2).
    rewrite E2, E1, app_assoc. split; [done | by apply Forall_app].
Qed.

(** The automation: split a computation along its structure, look at the
    primitives. *)
Create HintDb frame discriminated.

Ltac frame_case :=
  match goal with
  | |- respects _ (match ?x with _ => _ end) => destruct x
  | |- respects _ (if ?b then _ else _) => destruct b
  | |- respects _ (let '(_, _) := ?x in _) => destruct x
  end.

Ltac frame_tidy :=
  match goal with
  | |- PreOrder _ => apply _
  | |- ∀ _, _ => intros ?
  | _ => idtac
  end.

Ltac frame_step :=
  first
    [ solve [auto with frame]
    | apply respects_ret | apply respects_raise | apply respects_sys_exit
    | apply respects_get_state | apply respects_get_locals | apply respects_set_locals
    | apply respects_bind
    | apply respects_for_each
    | apply respects_try_except; [.. | intros [] ? [= <-]]
    | apply respects_call
    | frame_case ];
  frame_tidy.

(** What a primitive change of the world does to each relation. *)
Ltac frame_modify :=
  intros;
  first
    [ reflexivity
    | by (exists []; split; [symmetry; apply app_nil_r | constructor])
    | by (eexists [_]; split; [reflexivity | repeat constructor]) ].

Ltac frames :=
  repeat first [ frame_step | apply respects_modify; solve [auto | frame_modify] ].

(** ** The primitives and the functions of the modules, relation by relation *)

Section Frames.
Context (R : relation world) `{!PreOrder R}.
(** [R] tolerates the changes to the file system and to the output path, and
    the lines of the given printers. *)
Context (quiet : printer → bool).
Hypothesis R_dirs : ∀ d w, R w (set_dirs d w).
Hypothesis R_csv : ∀ f w, R w (set_csv_files f w).
Hypothesis R_path : ∀ p w, R w (set_RELATIVE_FILE_PATH p w).
Hypothesis R_line : ∀ p m w, quiet p = true → R w (set_terminal (terminal w ++ [(p, m)]) w).

Lemma emit_respects p m : quiet p = true → respects R (Terminal.emit p m).
Proof. intros H. apply respects_modify. intros w. by apply R_line. Qed.

Lemma isfile_respects p : respects R (Os.isfile p).
Proof. unfold Os.isfile. frames. Qed.

Lemma makedirs_respects d : respects R (Os.makedirs d).
Proof. unfold Os.makedirs. frames. Qed.

Lemma open_respects p m : respects R (Os.open p m).
Proof. unfold Os.open. frames. Qed.

Lemma writerow_respects p row : respects R (Os.writerow p row).
Proof. apply respects_modify. intros w. apply R_csv. Qed.

Lemma update_path_respects path : respects R (Config.update_path path).
Proof.
  unfold Config.update_path. frames.
Qed.

Lemma get_output_filepath_respects : respects R CsvHelper.get_output_filepath.
Proof. unfold CsvHelper.get_output_filepath. frames. Qed.

Hypothesis quiet_print : quiet print_p = true.
Hypothesis quiet_warning : quiet print_warning_p = true.
Hypothesis quiet_error : quiet print_error_p = true.

Lemma print_respects m : respects R (Terminal.print m).
Proof. by apply emit_respects. Qed.

Lemma print_warning_respects m : respects R (Terminal.print_warning m).
Proof. by apply emit_respects. Qed.

Lemma print_error_respects m : respects R (Terminal.print_error m).
Proof. unfold Terminal.print_error, Terminal.print_error_with. frames. Qed.

Lemma write_results_to_csv_respects results append :
  respects R (CsvHelper.write_results_to_csv results append).
Proof. unfold CsvHelper.write_results_to_csv. frames. Qed.

Lemma read_domains_from_file_respects filepath :
  respects R (CsvHelper.read_domains_from_file filepath).
Proof. unfold CsvHelper.read_domains_from_file. frames. Qed.

Lemma validate_args_respects validate_domain a :
  respects R (DomainValidator.validate_args validate_domain a).
Proof. unfold DomainValidator.validate_args. frames. Qed.

End Frames.

Section FramesOfChecker.
Context (R : relation world) `{!PreOrder R}.
(** [R] tolerates every change but one it may not: here all of them. *)
Hypothesis R_dirs : ∀ d w, R w (set_dirs d w).
Hypothesis R_csv : ∀ f w, R w (set_csv_files f w).
Hypothesis R_path : ∀ p w, R w (set_RELATIVE_FILE_PATH p w).
Hypothesis R_terminal : ∀ t w, R w (set_terminal t w).
Hypothesis R_checked : ∀ c w, R w (set_checked c w).

Context (dns : list string → string → option (list string) → Z → bool → check_reply).

Lemma any_line (p : printer) m w :
  any_printer p = true → R w (set_terminal (terminal w ++ [(p, m)]) w).
Proof. intros _. apply R_terminal. Qed.

Local Hint Resolve any_line : core.

Lemma getitem_respects {S} (Q : relation S) `{!PreOrder Q} r key :
  respects Q (Checker.getitem r key).
Proof. unfold Checker.getitem. frames. Qed.

Lemma announce_dkim_respects selectors auto :
  respects R (Checker.announce_dkim selectors auto).
Proof. unfold Checker.announce_dkim, Terminal.print_info. frames. Qed.

Lemma perform_complete_dns_check_respects domain selectors timeout auto :
  respects R (Checker.perform_complete_dns_check dns domain selectors timeout auto).
Proof. unfold Checker.perform_complete_dns_check. frames. Qed.

Lemma process_single_domain_respects domain selectors timeout append auto :
  respects R (Checker.process_single_domain dns domain selectors timeout append auto).
Proof.
  unfold Checker.process_single_domain.
  pose proof (write_results_to_csv_respects R any_printer R_dirs R_csv any_line eq_refl eq_refl eq_refl).
  pose proof announce_dkim_respects. pose proof perform_complete_dns_check_respects.
  pose proof (@getitem_respects world R _).
  frames.
Qed.

Lemma check_and_summarise_respects domain selectors timeout auto :
  respects (on_world R) (Checker.check_and_summarise dns domain selectors timeout auto).
Proof.
  unfold Checker.check_and_summarise.
  pose proof perform_complete_dns_check_respects.
  pose proof (@getitem_respects (Checker.locals * world) (on_world R) _).
  frames.
Qed.

Lemma write_completed_respects append :
  respects (on_world R) (Checker.write_completed append).
Proof.
  unfold Checker.write_completed.
  pose proof (write_results_to_csv_respects R any_printer R_dirs R_csv any_line eq_refl eq_refl eq_refl).
  frames.
Qed.

Lemma on_exception_respects domain append skip_errors e h :
  Checker.on_exception domain append skip_errors e = Some h → respects (on_world R) h.
Proof.
  pose proof write_completed_respects.
  destruct e; intros [= <-]; frames.
Qed.

Lemma check_each_respects i total rest selectors timeout append skip_errors auto :
  respects (on_world R)
    (Checker.check_each dns i total rest selectors timeout append skip_errors auto).
Proof.
  revert i. induction rest as [|d rest IH]; intros i; simpl.
  - frames.
  - apply respects_bind; [apply _ | frames |]. intros _.
    apply respects_bind; [apply _ | | intros _; apply IH].
    apply respects_try_except; [apply _ | apply check_and_summarise_respects |].
    intros e h. apply on_exception_respects.
Qed.

Lemma process_multiple_domains_respects domains selectors timeout append skip_errors auto :
  respects (on_world R)
    (Checker.process_multiple_domains dns domains selectors timeout append skip_errors auto).
Proof.
  unfold Checker.process_multiple_domains.
  pose proof (write_results_to_csv_respects R any_printer R_dirs R_csv any_line eq_refl eq_refl eq_refl).
  pose proof announce_dkim_respects. pose proof check_each_respects.
  frames.
Qed.

Lemma run_with_locals_respects {A} (m : M (Checker.locals * world) A) :
  respects (on_world R) m → respects R (Checker.run_with_locals m).
Proof.
  intros H w. unfold Checker.run_with_locals.
  specialize (H (Checker.Locals [] 0 0, w)). unfold on_world in H.
  by destruct (m _) as [r [l w']].
Qed.

Lemma main_respects validate_domain a :
  respects R (Checker.main dns validate_domain a).
Proof.
  unfold Checker.main.
  pose proof (validate_args_respects R any_printer any_line eq_refl eq_refl validate_domain).
  pose proof (update_path_respects R R_dirs R_path).
  pose proof (read_domains_from_file_respects R any_printer any_line eq_refl).
  pose proof process_single_domain_respects.
  pose proof process_multiple_domains_respects.
  pose proof (@run_with_locals_respects unit).
  frames.
Qed.

End FramesOfChecker.

(** ** config.py: the nameserver list *)

Ltac keeps_side := first [apply _ | by intros; unfold keeps].

Lemma keeps_NAMESERVER_LIST_main dns validate_domain a :
  respects (keeps NAMESERVER_LIST) (Checker.main dns validate_domain a).
Proof. apply main_respects; keeps_side. Qed.

Lemma step_keeps_NAMESERVER_LIST w w' : step w w' → NAMESERVER_LIST w' = NAMESERVER_LIST w.
Proof.
  destruct 1.
  - apply (update_path_respects (keeps NAMESERVER_LIST)); keeps_side.
  - done.
  - apply (write_results_to_csv_respects (keeps NAMESERVER_LIST) (λ _, true)); keeps_side.
  - apply keeps_NAMESERVER_LIST_main.
Qed.

Lemma reachable_NAMESERVER_LIST w :
  reachable w → NAMESERVER_LIST w = Config.NAMESERVER_LIST_at_import.
Proof.
  intros (d & f & i & x & Hsteps).
  change Config.NAMESERVER_LIST_at_import with (NAMESERVER_LIST (Config.at_import d f i x)).
  induction Hsteps as [|w1 w2 w3 H12 _ IH]; [done |].
  by rewrite IH, (step_keeps_NAMESERVER_LIST _ _ H12).
Qed.

(** C8.  In every state the program can reach from its start-up,
    [get_nameserver_list] returns the list fixed at start-up; and
    [update_path], whatever its argument and whether it returns [True] or
    [False], leaves [NAMESERVER_LIST] as it is: it returns [True] having set
    [RELATIVE_FILE_PATH] (and made the directory), or [False] having changed
    nothing at all. *)
Theorem nameserver_list_never_mutated (w : world) (Hw : reachable w) (path : string) :
  Config.get_nameserver_list w = (Ret ["8.8.8.8"; "8.8.4.4"; "1.1.1.1"], w)
  ∧ NAMESERVER_LIST (Config.update_path path w).2 = NAMESERVER_LIST w
  ∧ (((Config.update_path path w).1 = Ret true
      ∧ csv_files (Config.update_path path w).2 = csv_files w
      ∧ terminal (Config.update_path path w).2 = terminal w)
     ∨ Config.update_path path w = (Ret false, w)).
Proof.
  split_and!.
  - unfold Config.get_nameserver_list. run_m. by rewrite (reachable_NAMESERVER_LIST w Hw).
  - apply (update_path_respects (keeps NAMESERVER_LIST)); keeps_side.
  - unfold Config.update_path, try_except, Os.makedirs. run_m.
    destruct (negb (Py.truthy _)); [by right |].
    destruct (bool_decide _); [by right |]. by left.
Qed.

Lemma nameserver_list_never_mutated_witness :
  Config.get_nameserver_list (Config.at_import ∅ ∅ ∅ ∅)
  = (Ret ["8.8.8.8"; "8.8.4.4"; "1.1.1.1"], Config.at_import ∅ ∅ ∅ ∅)
  ∧ NAMESERVER_LIST (Config.update_path "out\csv" (Config.at_import ∅ ∅ ∅ ∅)).2
    = ["8.8.8.8"; "8.8.4.4"; "1.1.1.1"].
Proof.
  assert (reachable (Config.at_import ∅ ∅ ∅ ∅)) as Hw.
  { exists ∅, ∅, ∅, ∅. apply rtc_refl. }
  pose proof (nameserver_list_never_mutated _ Hw "out\csv") as (H1 & H2 & _).
  split; [exact H1 | exact H2].
Defined.

(** ** csv_helper.py: [write_results_to_csv] *)

Lemma set_csv_files_id w : set_csv_files (csv_files w) w = w.
Proof. by destruct w. Qed.

Lemma for_each_writerow (p : string) (rs : list result) (w : world) (old : list (list string)) :
  csv_files w !! p = Some old →
  for_each rs (λ r, Os.writerow p (CsvHelper.row_of r)) w
  = (Ret tt, set_csv_files (<[p := old ++ map CsvHelper.row_of rs]> (csv_files w)) w).
Proof.
  revert w old. induction rs as [|r rs IH]; intros w old H.
  - simpl. rewrite app_nil_r, insert_id, set_csv_files_id; done.
  - cbn [for_each]. rewrite run_bind. unfold Os.writerow at 1, modify.
    rewrite H. cbn [default].
    erewrite IH; [| apply lookup_insert_eq].
    cbn [csv_files set_csv_files map]. rewrite insert_insert_eq, <- app_assoc. done.
Qed.

Lemma row_of_has_strings r d m s k c :
  has_strings r d m s k c → CsvHelper.row_of r = [d; m; s; k; c].
Proof.
  intros (H1 & H2 & H3 & H4 & H5).
  unfold CsvHelper.row_of, CsvHelper.get. by rewrite H1, H2, H3, H4, H5.
Qed.

Lemma run_try_bind {S A B} (m : M S A) (k : A → M S B) handler (s : S) :
  try_except (m ≫= k) handler s
  = match m s with
    | (Ret a, s') => try_except (k a) handler s'
    | (Raise e, s') =>
        match handler e with
        | Some h => h s'
        | None => (Raise e, s')
        end
    | (SysExit c, s') => (SysExit c, s')
    end.
Proof. unfold try_except. rewrite run_bind. by destruct (m s) as [[] ?]. Qed.

Lemma makedirs_run d w :
  Os.makedirs d w
  = if negb (Py.truthy d)
    then (Raise (OtherException "[Errno 2] No such file or directory: ''"), w)
    else if bool_decide (d ∈ denied w)
    then (Raise (PermissionError ("[Errno 13] Permission denied: '" +:+ d +:+ "'")), w)
    else (Ret tt, set_dirs ({[d]} ∪ dirs w) w).
Proof.
  unfold Os.makedirs. run_m. destruct (negb _); [done |]. by destruct (bool_decide _).
Qed.

Lemma open_run p m w :
  Os.open p m w
  = if bool_decide (p ∈ denied w)
    then (Raise (PermissionError ("[Errno 13] Permission denied: '" +:+ p +:+ "'")), w)
    else (Ret tt,
          set_csv_files (<[p := match m with
                                | Os.mode_w => []
                                | Os.mode_a => default [] (csv_files w !! p)
                                end]> (csv_files w)) w).
Proof. unfold Os.open. run_m. by destruct (bool_decide _). Qed.

Lemma print_error_run m w : Terminal.print_error m w = (SysExit 1, printed print_error_p m w).
Proof. reflexivity. Qed.

(** The run of [write_results_to_csv] on a list that is not empty: the four
    ways it can go. *)
Lemma write_results_to_csv_run (r : result) (rs : list result) (append : bool) (w : world) :
  CsvHelper.write_results_to_csv (r :: rs) append w
  = let p := output_filepath w in
    let d := Py.dirname p in
    if negb (Py.truthy d)
    then (SysExit 1,
          printed print_error_p
            ("Error writing to CSV file: " +:+ "[Errno 2] No such file or directory: ''") w)
    else if bool_decide (d ∈ denied w)
    then (SysExit 1, printed print_error_p (cannot_write p) w)
    else if bool_decide (p ∈ denied w)
    then (SysExit 1, printed print_error_p (cannot_write p) (set_dirs ({[d]} ∪ dirs w) w))
    else (Ret true,
          printed print_p ("Results written to " +:+ p)
            (set_csv_files
               (<[p := kept append w ++ header_rows append w
                       ++ map CsvHelper.row_of (r :: rs)]> (csv_files w))
               (set_dirs ({[d]} ∪ dirs w) w))).
Proof.
  cbv zeta. set (p := output_filepath w). set (d := Py.dirname p).
  unfold CsvHelper.write_results_to_csv. cbv beta iota.
  rewrite run_bind. change (CsvHelper.get_output_filepath w) with (Ret p, w). cbv beta iota.
  rewrite run_bind. change (Os.isfile p w) with (Ret (file_exists w), w). cbv beta iota.
  rewrite run_try_bind, makedirs_run. fold d.
  destruct (negb (Py.truthy d)); [done |].
  destruct (bool_decide (d ∈ denied w)); [done |].
  set (w1 := set_dirs _ w).
  assert (∀ (mode : Os.mode) (header : bool),
    try_except
      (Os.open p mode ;;
       (if header then Os.writerow p CsvHelper.headers else mret tt) ;;
       for_each (r :: rs) (λ r, Os.writerow p (CsvHelper.row_of r)) ;;
       Terminal.print ("Results written to " +:+ p) ;; (mret true : M world bool))
      (λ e, match e with
            | KeyboardInterrupt => None
            | PermissionError _ =>
                Some (Terminal.print_error (cannot_write p) ;; (mret false : M world bool))
            | OtherException msg =>
                Some (Terminal.print_error ("Error writing to CSV file: " +:+ msg) ;;
                      (mret false : M world bool))
            end) w1
    = if bool_decide (p ∈ denied w)
      then (SysExit 1, printed print_error_p (cannot_write p) w1)
      else (Ret true,
            printed print_p ("Results written to " +:+ p)
              (set_csv_files
                 (<[p := match mode with
                         | Os.mode_w => []
                         | Os.mode_a => default [] (csv_files w !! p)
                         end ++ (if header then [CsvHelper.headers] else [])
                         ++ map CsvHelper.row_of (r :: rs)]> (csv_files w)) w1))) as Hrun.
  { intros mode header. rewrite run_try_bind, open_run.
    change (denied w1) with (denied w). change (csv_files w1) with (csv_files w).
    destruct (bool_decide (p ∈ denied w)).
    { rewrite run_bind, print_error_run. done. }
    set (old := match mode with Os.mode_w => [] | Os.mode_a => _ end).
    set (w2 := set_csv_files _ w1).
    assert (csv_files w2 !! p = Some old) as H2 by apply lookup_insert_eq.
    rewrite run_try_bind.
    destruct header.
    - unfold Os.writerow at 1. cbv [modify]. rewrite H2. cbn [default].
      set (w3 := set_csv_files _ w2).
      assert (csv_files w3 !! p = Some (old ++ [CsvHelper.headers])) as H3
        by apply lookup_insert_eq.
      rewrite run_try_bind, (for_each_writerow p (r :: rs) w3 _ H3).
      cbn [csv_files set_csv_files w3 w2].
      rewrite !insert_insert_eq, <- app_assoc. done.
    - cbv [mret M_ret].
      rewrite run_try_bind, (for_each_writerow p (r :: rs) w2 _ H2).
      cbn [csv_files set_csv_files w2].
      rewrite !insert_insert_eq. done. }
  unfold kept, header_rows. fold p.
  destruct append; cbn [andb]; cbv beta iota.
  - etrans; [exact (Hrun Os.mode_a (negb (file_exists w))) |].
    by destruct (file_exists w).
  - exact (Hrun Os.mode_w true).
Qed.

Lemma row_of_entries (r r' : result) :
  entries r' = entries r → CsvHelper.row_of r' = CsvHelper.row_of r.
Proof. intros E. unfold CsvHelper.row_of, CsvHelper.get. by rewrite E. Qed.

Lemma rows_of_entries (rs rs' : list result) :
  map entries rs' = map entries rs → map CsvHelper.row_of rs' = map CsvHelper.row_of rs.
Proof.
  revert rs'. induction rs as [|r rs IH]; intros [|r' rs'] E; simplify_eq/=; [done |].
  f_equal; [by apply row_of_entries | by apply IH].
Qed.

(** When the file cannot be written the function does not return: the
    process exits, no CSV file having changed. *)
Lemma write_results_to_csv_unwritable (r : result) (rs : list result) (append : bool) (w : world) :
  ¬ writable w →
  let run := CsvHelper.write_results_to_csv (r :: rs) append w in
  run.1 = SysExit 1 ∧ csv_files run.2 = csv_files w.
Proof.
  intros Hnw run. subst run. rewrite write_results_to_csv_run. cbv zeta.
  destruct (Py.truthy _) eqn:Hd; cbn [negb]; [| done].
  destruct (bool_decide _) eqn:Hdir; [done |].
  destruct (bool_decide (output_filepath w ∈ _)) eqn:Hfile; [done |].
  exfalso. apply Hnw. split_and!; [done | |].
  - by apply bool_decide_eq_false in Hdir.
  - by apply bool_decide_eq_false in Hfile.
Qed.

(** C2.  For a list of results that is not empty, [write_results_to_csv]
    leaves in the output file: what it held before, when appending; then the
    header row [Domain, MX Record, SPF Record, DKIM Record, DMARC Record],
    when a header is written; then one row per result, in order, whose five
    cells are the result's [domain], [mx], [spf], [dkim] and [dmarc] strings
    as they are.  It then returns [True]; no other file changes.  The
    [errors] of the results play no part: results with the same strings give
    the same files.  That is the run when the file can be written; when it
    cannot, the process exits and no file has changed. *)
Theorem write_results_to_csv_rows (results : list result) (append : bool) (w : world)
    (Hne : results ≠ []) :
  let p := output_filepath w in
  let run := CsvHelper.write_results_to_csv results append w in
  (writable w →
     run.1 = Ret true
     ∧ csv_files run.2 !! p
       = Some (kept append w ++ header_rows append w ++ map CsvHelper.row_of results)
     ∧ (∀ q, q ≠ p → csv_files run.2 !! q = csv_files w !! q))
  ∧ (¬ writable w → run.1 = SysExit 1 ∧ csv_files run.2 = csv_files w)
  ∧ (∀ r d m s k c, r ∈ results → has_strings r d m s k c →
       CsvHelper.row_of r = [d; m; s; k; c])
  ∧ (∀ results', map entries results' = map entries results →
       csv_files (CsvHelper.write_results_to_csv results' append w).2 = csv_files run.2).
Proof.
  intros p run. subst run.
  destruct results as [|r rs]; [done |]. clear Hne.
  assert (∀ r' rs', map entries (r' :: rs') = map entries (r :: rs) →
    CsvHelper.write_results_to_csv (r' :: rs') append w
    = CsvHelper.write_results_to_csv (r :: rs) append w) as Hsame.
  { intros r' rs' E. rewrite !write_results_to_csv_run. cbv zeta.
    by rewrite (rows_of_entries _ _ E). }
  split_and!.
  - intros (Hd & Hdir & Hfile). fold p in Hd, Hdir, Hfile.
    rewrite write_results_to_csv_run. cbv zeta. fold p.
    rewrite Hd. cbn [negb]. rewrite !bool_decide_eq_false_2 by done.
    cbn [fst snd printed csv_files set_terminal set_csv_files].
    split_and!; [done | apply lookup_insert_eq |].
    intros q Hq. by apply lookup_insert_ne.
  - intros Hnw. by apply write_results_to_csv_unwritable.
  - intros r0 d m s k c _. apply row_of_has_strings.
  - intros [|r' rs'] E; [done |]. by rewrite (Hsame r' rs' E).
Qed.

Lemma write_results_to_csv_rows_witness :
  csv_files (CsvHelper.write_results_to_csv [timed_out_result] false
               (Config.at_import ∅ ∅ ∅ ∅)).2
    !! "resources/output/esdar-check_result.csv"
  = Some [["Domain"; "MX Record"; "SPF Record"; "DKIM Record"; "DMARC Record"];
          ["example.com"; "10 mail.example.com."; "v=spf1 -all"; "No selectors provided";
           "No DMARC record found"]].
Proof.
  assert ([timed_out_result] ≠ []) as Hne by done.
  assert (writable (Config.at_import ∅ ∅ ∅ ∅)) as Hw.
  { split_and!; [reflexivity | apply not_elem_of_empty | apply not_elem_of_empty]. }
  exact (proj1 (proj2 (proj1 (write_results_to_csv_rows _ false _ Hne) Hw))).
Defined.

(** C10.  With an empty list of results, [write_results_to_csv] returns
    [False] and has no effect on the file system: it prints a warning, and
    neither a file nor a directory is created, emptied or written. *)
Theorem write_results_to_csv_empty (append : bool) (w : world) :
  let run := CsvHelper.write_results_to_csv [] append w in
  run = (Ret false, printed print_warning_p "No results to write to CSV" w)
  ∧ csv_files run.2 = csv_files w
  ∧ dirs run.2 = dirs w
  ∧ inputs run.2 = inputs w.
Proof. done. Qed.

(** ** esdar-checker_v2.py: the lines of [process_single_domain] *)

Lemma plain_no_status e : plain e → no_status e.
Proof. destruct e as [[] m]; by cbv. Qed.

Section SingleDomain.
Context (dns : list string → string → option (list string) → Z → bool → check_reply).

Lemma emit_run p m w : Terminal.emit p m w = (Ret tt, printed p m w).
Proof. reflexivity. Qed.

Lemma getitem_run {S} (r : result) key v (s : S) :
  entries r !! key = Some v → Checker.getitem r key s = (Ret v, s).
Proof. intros H. unfold Checker.getitem. by rewrite H. Qed.

Lemma announce_dkim_run selectors auto w :
  ∃ m, Checker.announce_dkim selectors auto w = (Ret tt, printed print_info_p m w).
Proof. unfold Checker.announce_dkim. destruct selectors, auto; by eexists. Qed.

Lemma perform_complete_dns_check_run domain selectors timeout auto w r :
  dns (checked w) domain selectors timeout auto = Returns r →
  Checker.perform_complete_dns_check dns domain selectors timeout auto w
  = (Ret r, set_checked (checked w ++ [domain]) w).
Proof. intros H. unfold Checker.perform_complete_dns_check. run_m. by rewrite H. Qed.

Lemma record_line_run marker label v w :
  (if Checker.reads_as_absent marker v
   then Terminal.print_not_found (label +:+ v)
   else Terminal.print_found (label +:+ v)) w
  = (Ret tt, printed (record_printer marker v) (label +:+ v) w).
Proof. unfold record_printer. by destruct (Checker.reads_as_absent marker v). Qed.

Lemma dkim_line_run dkim w :
  (if Checker.dkim_reads_as_absent dkim
   then if Checker.dkim_no_selectors dkim
        then Terminal.print_partial ("DKIM Record: " +:+ dkim)
        else Terminal.print_not_found ("DKIM Record: " +:+ dkim)
   else Terminal.print_found ("DKIM Record: " +:+ dkim)) w
  = (Ret tt, printed (dkim_printer dkim) ("DKIM Record: " +:+ dkim) w).
Proof.
  unfold dkim_printer.
  by destruct (Checker.dkim_reads_as_absent dkim), (Checker.dkim_no_selectors dkim).
Qed.

Lemma plain_line p m w :
  is_plain p = true → prints plain w (set_terminal (terminal w ++ [(p, m)]) w).
Proof. intros Hp. exists [(p, m)]. split; [done | by repeat constructor]. Qed.

Lemma plain_dirs d w : prints plain w (set_dirs d w).
Proof. exists []. split; [symmetry; apply app_nil_r | constructor]. Qed.

Lemma plain_csv f w : prints plain w (set_csv_files f w).
Proof. exists []. split; [symmetry; apply app_nil_r | constructor]. Qed.

Lemma print_error_plain m : respects (prints plain) (Terminal.print_error m).
Proof. exact (print_error_respects (prints plain) is_plain plain_line eq_refl m). Qed.

(** What follows the four record lines prints plain lines only. *)
Lemma after_the_lines_plain (r : result) (append : bool) handler :
  (∀ e h, handler e = Some h → respects (prints plain) h) →
  respects (prints plain)
    (try_except
       (match errors r with
        | Some (e :: es) =>
            for_each (e :: es) (λ error, Terminal.print_warning ("Warning: " +:+ error))
        | Some [] | None => mret tt
        end ;;
        written ← CsvHelper.write_results_to_csv [r] append;
        if negb written
        then Terminal.print_error "Failed to write result to CSV" ;; mret false
        else mret true)
       handler).
Proof.
  intros Hh.
  pose proof (write_results_to_csv_respects (prints plain) is_plain plain_dirs plain_csv
                plain_line eq_refl eq_refl eq_refl).
  pose proof (print_warning_respects (prints plain) is_plain plain_line eq_refl).
  pose proof print_error_plain.
  apply respects_try_except; [apply _ | | exact Hh].
  frames.
Qed.

(** The run of [process_single_domain] on a result that has its four
    records: the announcement, one line per record, then plain lines. *)
Lemma process_single_domain_lines domain selectors timeout append auto w r mx spf dkim dmarc :
  dns (checked w) domain (Checker.or_None selectors) timeout auto = Returns r →
  entries r !! "mx" = Some mx → entries r !! "spf" = Some spf →
  entries r !! "dkim" = Some dkim → entries r !! "dmarc" = Some dmarc →
  ∃ pre rest,
    terminal (Checker.process_single_domain dns domain selectors timeout append auto w).2
    = terminal w ++ pre
      ++ [(record_printer "No MX" mx, "MX Records: " +:+ mx);
          (record_printer "No SPF" spf, "SPF Record: " +:+ spf);
          (dkim_printer dkim, "DKIM Record: " +:+ dkim);
          (record_printer "No DMARC" dmarc, "DMARC Record: " +:+ dmarc)]
      ++ rest
    ∧ Forall no_status pre ∧ Forall no_status rest.
Proof.
  intros Hdns Hmx Hspf Hdkim Hdmarc.
  unfold Checker.process_single_domain.
  unfold Terminal.print.
  do 3 (rewrite run_bind, emit_run; cbv beta iota).
  set (w3 := printed _ _ (printed _ _ (printed _ _ w))).
  rewrite run_bind.
  destruct (announce_dkim_run selectors auto w3) as [info ->]. cbv beta iota.
  set (w4 := printed _ _ w3).
  rewrite run_try_bind, (perform_complete_dns_check_run _ _ _ _ _ r) by exact Hdns.
  cbv beta iota. set (w5 := set_checked _ w4).
  rewrite run_try_bind, (getitem_run r "mx" mx) by done. cbv beta iota.
  rewrite run_try_bind, (record_line_run "No MX"). cbv beta iota.
  rewrite run_try_bind, (getitem_run r "spf" spf) by done. cbv beta iota.
  rewrite run_try_bind, (record_line_run "No SPF"). cbv beta iota.
  rewrite run_try_bind, (getitem_run r "dkim" dkim) by done. cbv beta iota.
  rewrite run_try_bind, dkim_line_run. cbv beta iota.
  rewrite run_try_bind, (getitem_run r "dmarc" dmarc) by done. cbv beta iota.
  rewrite run_try_bind, (record_line_run "No DMARC"). cbv beta iota.
  match goal with
  | |- context [try_except ?body ?handler ?w9] =>
      destruct (after_the_lines_plain r append handler) with (s := w9)
        as (rest & Hrest & Hplain)
  end.
  { pose proof print_error_plain. intros [] h [= <-]; frames. }
  exists [(print_p, Checker.nl +:+ Checker.rule);
          (print_p, "Checking domain: " +:+ domain);
          (print_p, Checker.rule); (print_info_p, info)], rest.
  split_and!.
  - rewrite Hrest. cbn [terminal printed set_terminal set_checked w5 w4 w3].
    by rewrite <- !app_assoc.
  - by repeat constructor.
  - eapply Forall_impl; [exact Hplain | apply plain_no_status].
Qed.

End SingleDomain.

Lemma record_printer_found marker v :
  record_printer marker v = print_found_p ↔ reads_found marker v.
Proof.
  unfold record_printer, reads_found, Checker.reads_as_absent.
  rewrite <- !str_in_not_contains.
  destruct (Py.str_in marker v), (Py.str_in "does not exist" v),
    (Py.str_in "timeout" v), (Py.str_in "error" (Py.lower v)); cbn; intuition congruence.
Qed.

Lemma record_printer_not_found marker v :
  record_printer marker v = print_not_found_p ↔ ¬ reads_found marker v.
Proof.
  rewrite <- record_printer_found. unfold record_printer.
  destruct (Checker.reads_as_absent marker v); intuition congruence.
Qed.

(** C5.  For a result record, [process_single_domain] prints the MX line
    with the found status exactly when the [mx] string contains none of
    [No MX], [does not exist], [timeout] and, in any casing, [error]; it
    prints it with the not-found status otherwise.  The same holds of the
    SPF line with [No SPF] and of the DMARC line with [No DMARC].  These,
    with the DKIM line between them, are the only lines that carry a
    status. *)
Theorem process_single_domain_record_status
    (dns : list string → string → option (list string) → Z → bool → check_reply)
    (domain : string) (selectors : list string) (timeout : Z) (append auto : bool)
    (w : world) (r : result) (mx spf dkim dmarc : string)
    (Hdns : dns (checked w) domain (Checker.or_None selectors) timeout auto = Returns r)
    (Hmx : entries r !! "mx" = Some mx) (Hspf : entries r !! "spf" = Some spf)
    (Hdkim : entries r !! "dkim" = Some dkim) (Hdmarc : entries r !! "dmarc" = Some dmarc) :
  ∃ pre rest p_mx p_spf p_dkim p_dmarc,
    terminal (Checker.process_single_domain dns domain selectors timeout append auto w).2
    = terminal w ++ pre
      ++ [(p_mx, "MX Records: " +:+ mx); (p_spf, "SPF Record: " +:+ spf);
          (p_dkim, "DKIM Record: " +:+ dkim); (p_dmarc, "DMARC Record: " +:+ dmarc)]
      ++ rest
    ∧ Forall no_status pre ∧ Forall no_status rest
    ∧ (p_mx = print_found_p ↔ reads_found "No MX" mx)
    ∧ (p_mx = print_not_found_p ↔ ¬ reads_found "No MX" mx)
    ∧ (p_spf = print_found_p ↔ reads_found "No SPF" spf)
    ∧ (p_spf = print_not_found_p ↔ ¬ reads_found "No SPF" spf)
    ∧ (p_dmarc = print_found_p ↔ reads_found "No DMARC" dmarc)
    ∧ (p_dmarc = print_not_found_p ↔ ¬ reads_found "No DMARC" dmarc).
Proof.
  destruct (process_single_domain_lines dns domain selectors timeout append auto w r
              mx spf dkim dmarc Hdns Hmx Hspf Hdkim Hdmarc) as (pre & rest & E & Hpre & Hrest).
  exists pre, rest, (record_printer "No MX" mx), (record_printer "No SPF" spf),
    (dkim_printer dkim), (record_printer "No DMARC" dmarc).
  split_and!; try done;
    first [apply record_printer_found | apply record_printer_not_found].
Qed.

Lemma process_single_domain_record_status_witness :
  ∃ pre rest p_mx p_spf p_dkim p_dmarc,
    terminal (Checker.process_single_domain
                (always (example_result "10 mail.example.com." "No SPF record found"
                           "v=DKIM1; p=abc" "DNS query timeout"))
                "example.com" ["google"] 10 false false (Config.at_import ∅ ∅ ∅ ∅)).2
    = [] ++ pre
      ++ [(p_mx, "MX Records: 10 mail.example.com."); (p_spf, "SPF Record: No SPF record found");
          (p_dkim, "DKIM Record: v=DKIM1; p=abc"); (p_dmarc, "DMARC Record: DNS query timeout")]
      ++ rest
    ∧ Forall no_status pre ∧ Forall no_status rest
    ∧ (p_mx = print_found_p ↔ reads_found "No MX" "10 mail.example.com.")
    ∧ (p_mx = print_not_found_p ↔ ¬ reads_found "No MX" "10 mail.example.com.")
    ∧ (p_spf = print_found_p ↔ reads_found "No SPF" "No SPF record found")
    ∧ (p_spf = print_not_found_p ↔ ¬ reads_found "No SPF" "No SPF record found")
    ∧ (p_dmarc = print_found_p ↔ reads_found "No DMARC" "DNS query timeout")
    ∧ (p_dmarc = print_not_found_p ↔ ¬ reads_found "No DMARC" "DNS query timeout").
Proof.
  apply (process_single_domain_record_status
           (always (example_result "10 mail.example.com." "No SPF record found"
                      "v=DKIM1; p=abc" "DNS query timeout"))
           "example.com" ["google"] 10 false false (Config.at_import ∅ ∅ ∅ ∅)
           (example_result "10 mail.example.com." "No SPF record found"
              "v=DKIM1; p=abc" "DNS query timeout")); reflexivity.
Defined.

Example process_single_domain_status_lines_ex :
  status_lines
    (terminal (Checker.process_single_domain
                 (always (example_result "10 mail.example.com." "No SPF record found"
                            "v=DKIM1; p=abc" "DNS query timeout"))
                 "example.com" ["google"] 10 false false (Config.at_import ∅ ∅ ∅ ∅)).2)
  = [(print_found_p, "MX Records: 10 mail.example.com.");
     (print_not_found_p, "SPF Record: No SPF record found");
     (print_found_p, "DKIM Record: v=DKIM1; p=abc");
     (print_not_found_p, "DMARC Record: DNS query timeout")].
Proof. vm_compute. reflexivity. Qed.

(** The claim as it is worded fails: a [dkim] string that holds [no
    selectors provided] in some casing, and [Tested Common Selectors] with
    capitals, does not contain [tested common selectors]; yet its line is
    printed with the not-found status, for the program looks for both phrases
    in the lower-cased string. *)
Lemma dkim_partial_status_counterexample :
  let dkim := "No selectors provided (Tested Common Selectors)" in
  let run :=
    Checker.process_single_domain
      (always (example_result "10 mail.example.com." "v=spf1 -all" dkim "v=DMARC1, p=none"))
      "example.com" [] 10 false false (Config.at_import ∅ ∅ ∅ ∅) in
  contains (Py.lower dkim) "no selectors provided"
  ∧ ¬ contains dkim "tested common selectors"
  ∧ status_lines (terminal run.2)
    = [(print_found_p, "MX Records: 10 mail.example.com.");
       (print_found_p, "SPF Record: v=spf1 -all");
       (print_not_found_p, "DKIM Record: No selectors provided (Tested Common Selectors)");
       (print_found_p, "DMARC Record: v=DMARC1, p=none")].
Proof.
  split_and!.
  - apply str_in_contains. vm_compute. reflexivity.
  - apply str_in_not_contains. vm_compute. reflexivity.
  - vm_compute. reflexivity.
Qed.

(** C4, amended.  For a result whose [dkim] string, taken in lower case,
    contains [no selectors provided] and does not contain [tested common
    selectors], [process_single_domain] prints the DKIM line with the
    neutral status of [print_partial]; no other line carries a status but
    those of the MX, SPF and DMARC records. *)
Theorem process_single_domain_dkim_partial
    (dns : list string → string → option (list string) → Z → bool → check_reply)
    (domain : string) (selectors : list string) (timeout : Z) (append auto : bool)
    (w : world) (r : result) (mx spf dkim dmarc : string)
    (Hdns : dns (checked w) domain (Checker.or_None selectors) timeout auto = Returns r)
    (Hmx : entries r !! "mx" = Some mx) (Hspf : entries r !! "spf" = Some spf)
    (Hdkim : entries r !! "dkim" = Some dkim) (Hdmarc : entries r !! "dmarc" = Some dmarc)
    (Hnone : contains (Py.lower dkim) "no selectors provided")
    (Htested : ¬ contains (Py.lower dkim) "tested common selectors") :
  ∃ pre rest p_mx p_spf p_dmarc,
    terminal (Checker.process_single_domain dns domain selectors timeout append auto w).2
    = terminal w ++ pre
      ++ [(p_mx, "MX Records: " +:+ mx); (p_spf, "SPF Record: " +:+ spf);
          (print_partial_p, "DKIM Record: " +:+ dkim);
          (p_dmarc, "DMARC Record: " +:+ dmarc)]
      ++ rest
    ∧ Forall no_status pre ∧ Forall no_status rest.
Proof.
  destruct (process_single_domain_lines dns domain selectors timeout append auto w r
              mx spf dkim dmarc Hdns Hmx Hspf Hdkim Hdmarc) as (pre & rest & E & Hpre & Hrest).
  exists pre, rest, (record_printer "No MX" mx), (record_printer "No SPF" spf),
    (record_printer "No DMARC" dmarc).
  split_and!; [| done | done].
  rewrite E. do 5 f_equal.
  apply str_in_contains in Hnone. apply str_in_not_contains in Htested.
  unfold dkim_printer, Checker.dkim_reads_as_absent, Checker.dkim_no_selectors.
  cbv zeta. rewrite Hnone, Htested, !orb_true_r. done.
Qed.

Lemma process_single_domain_dkim_partial_witness :
  ∃ pre rest p_mx p_spf p_dmarc,
    terminal (Checker.process_single_domain
                (always (example_result "10 mail.example.com." "v=spf1 -all"
                           "No selectors provided" "v=DMARC1, p=none"))
                "example.com" [] 10 false false (Config.at_import ∅ ∅ ∅ ∅)).2
    = [] ++ pre
      ++ [(p_mx, "MX Records: 10 mail.example.com."); (p_spf, "SPF Record: v=spf1 -all");
          (print_partial_p, "DKIM Record: No selectors provided");
          (p_dmarc, "DMARC Record: v=DMARC1, p=none")]
      ++ rest
    ∧ Forall no_status pre ∧ Forall no_status rest.
Proof.
  apply (process_single_domain_dkim_partial
           (always (example_result "10 mail.example.com." "v=spf1 -all"
                      "No selectors provided" "v=DMARC1, p=none"))
           "example.com" [] 10 false false (Config.at_import ∅ ∅ ∅ ∅)
           (example_result "10 mail.example.com." "v=spf1 -all"
              "No selectors provided" "v=DMARC1, p=none")); try reflexivity.
  - apply str_in_contains. reflexivity.
  - apply str_in_not_contains. reflexivity.
Defined.

(** ** esdar-checker_v2.py: the order in which domains are checked *)

(** Composing two relations along a sequence, or along a [try]: the first
    part may end the run. *)
Lemma respects_bind_gen {S A B} (R1 R2 R3 : relation S) (m : M S A) (k : A → M S B) :
  respects R1 m → (∀ a, respects R2 (k a)) →
  (∀ x y, R1 x y → R3 x y) → (∀ x y z, R1 x y → R2 y z → R3 x z) →
  respects R3 (m ≫= k).
Proof.
  intros Hm Hk H1 H12 s. rewrite run_bind. specialize (Hm s).
  destruct (m s) as [[a | e | c] s1]; simpl in *; [| by apply H1..].
  eapply H12; [exact Hm | apply Hk].
Qed.

Lemma respects_try_gen {S A} (R1 R2 R3 : relation S) (body : M S A) handler :
  respects R1 body → (∀ e h, handler e = Some h → respects R2 h) →
  (∀ x y, R1 x y → R3 x y) → (∀ x y z, R1 x y → R2 y z → R3 x z) →
  respects R3 (try_except body handler).
Proof.
  intros Hb Hh H1 H12 s. unfold try_except. specialize (Hb s).
  destruct (body s) as [[a | e | c] s1]; simpl in *; [by apply H1 | | by apply H1].
  destruct (handler e) as [h |] eqn:E; [| by apply H1].
  eapply H12; [exact Hb | by eapply Hh].
Qed.

Lemma keeps_checks l w w' : keeps checked w w' → checks l w w'.
Proof. intros H. exists 0. by rewrite take_0, app_nil_r. Qed.

Lemma keeps_then_checks l x y z : keeps checked x y → checks l y z → checks l x z.
Proof. intros H [n Hn]. exists n. by rewrite Hn, H. Qed.

Lemma checks_then_keeps l x y z : checks l x y → keeps checked y z → checks l x z.
Proof. intros [n Hn] H. exists n. by rewrite H, Hn. Qed.

Lemma checks_one_then_checks d l x y z :
  checks_one d x y → checks l y z → checks (d :: l) x z.
Proof. intros H [n Hn]. exists (S n). by rewrite Hn, H, <- app_assoc. Qed.

Lemma checks_one_checks d l x y : checks_one d x y → checks (d :: l) x y.
Proof. intros H. exists 1. by rewrite H. Qed.

Section Order.
Context (dns : list string → string → option (list string) → Z → bool → check_reply).

Lemma kc_dirs d w : keeps checked w (set_dirs d w).
Proof. done. Qed.
Lemma kc_csv f w : keeps checked w (set_csv_files f w).
Proof. done. Qed.
Lemma kc_path p w : keeps checked w (set_RELATIVE_FILE_PATH p w).
Proof. done. Qed.
Lemma kc_terminal t w : keeps checked w (set_terminal t w).
Proof. done. Qed.
Lemma kc_line (p : printer) m w :
  any_printer p = true → keeps checked w (set_terminal (terminal w ++ [(p, m)]) w).
Proof. done. Qed.

Lemma write_results_to_csv_keeps_checked results append :
  respects (keeps checked) (CsvHelper.write_results_to_csv results append).
Proof.
  exact (write_results_to_csv_respects (keeps checked) any_printer kc_dirs kc_csv kc_line
           eq_refl eq_refl eq_refl results append).
Qed.

Lemma emit_keeps_checked p m : respects (keeps checked) (Terminal.emit p m).
Proof. by apply (emit_respects (keeps checked) any_printer kc_line). Qed.

Lemma print_error_keeps_checked m : respects (keeps checked) (Terminal.print_error m).
Proof. exact (print_error_respects (keeps checked) any_printer kc_line eq_refl m). Qed.

Lemma announce_dkim_keeps_checked selectors auto :
  respects (keeps checked) (Checker.announce_dkim selectors auto).
Proof. apply announce_dkim_respects; first [apply _ | apply kc_terminal]. Qed.

Lemma perform_complete_dns_check_checks_one domain selectors timeout auto :
  respects (checks_one domain)
    (Checker.perform_complete_dns_check dns domain selectors timeout auto).
Proof.
  intros w. unfold Checker.perform_complete_dns_check. run_m. by destruct (dns _ _ _ _ _).
Qed.

Local Hint Resolve write_results_to_csv_keeps_checked emit_keeps_checked
  print_error_keeps_checked announce_dkim_keeps_checked : frame.

Local Hint Extern 1 (respects _ (Checker.getitem _ _)) =>
  (apply getitem_respects; apply _) : frame.

Local Hint Extern 1 (respects (keeps checked) (Terminal.print _)) =>
  apply emit_keeps_checked : frame.
Local Hint Extern 1 (respects (keeps checked) (Terminal.print_warning _)) =>
  apply emit_keeps_checked : frame.
Local Hint Extern 1 (respects (keeps checked) (Terminal.print_info _)) =>
  apply emit_keeps_checked : frame.
Local Hint Extern 1 (respects (keeps checked) (Terminal.print_success _)) =>
  apply emit_keeps_checked : frame.
Local Hint Extern 1 (respects (keeps checked) (Terminal.print_found _)) =>
  apply emit_keeps_checked : frame.
Local Hint Extern 1 (respects (keeps checked) (Terminal.print_not_found _)) =>
  apply emit_keeps_checked : frame.
Local Hint Extern 1 (respects (keeps checked) (Terminal.print_partial _)) =>
  apply emit_keeps_checked : frame.

(** [process_single_domain] checks its domain, at most. *)
Lemma process_single_domain_checks domain selectors timeout append auto :
  respects (checks [domain])
    (Checker.process_single_domain dns domain selectors timeout append auto).
Proof.
  unfold Checker.process_single_domain.
  do 4 (eapply (respects_bind_gen (keeps checked) (checks [domain]));
        [frames | intros _ | apply keeps_checks | apply keeps_then_checks]).
  eapply (respects_try_gen (checks_one domain) (keeps checked)).
  - eapply (respects_bind_gen (checks_one domain) (keeps checked)).
    + apply perform_complete_dns_check_checks_one.
    + intros r. frames.
    + done.
    + unfold checks_one, keeps. congruence.
  - intros [] h [= <-]; frames.
  - intros x y. apply checks_one_checks.
  - intros x y z H1 H2. apply checks_one_checks. unfold checks_one, keeps in *. congruence.
Qed.

(** The [try] statement of the loop checks its domain, however it ends. *)
Lemma try_checks_one domain selectors timeout append skip_errors auto :
  respects (on_world (checks_one domain))
    (try_except (Checker.check_and_summarise dns domain selectors timeout auto)
                (Checker.on_exception domain append skip_errors)).
Proof.
  assert (∀ x y z : Checker.locals * world,
            on_world (checks_one domain) x y → on_world (keeps checked) y z →
            on_world (checks_one domain) x z) as Hcomp.
  { intros x y z. unfold on_world, checks_one, keeps. congruence. }
  eapply (respects_try_gen (on_world (checks_one domain)) (on_world (keeps checked)));
    [| | done | exact Hcomp].
  - unfold Checker.check_and_summarise.
    eapply (respects_bind_gen (on_world (checks_one domain)) (on_world (keeps checked)));
      [| | done | exact Hcomp].
    + apply respects_call, perform_complete_dns_check_checks_one.
    + intros r. frames.
  - intros e h. unfold Checker.on_exception, Checker.write_completed.
    destruct e; intros [= <-]; frames.
Qed.

(** The loop checks the first domains of its list, in their order. *)
Lemma check_each_checks i total rest selectors timeout append skip_errors auto :
  respects (on_world (checks rest))
    (Checker.check_each dns i total rest selectors timeout append skip_errors auto).
Proof.
  revert i. induction rest as [|d rest IH]; intros i; cbn [Checker.check_each].
  - intros [l w]. exists 0. cbn. by rewrite app_nil_r.
  - eapply (respects_bind_gen (on_world (keeps checked)) (on_world (checks (d :: rest)))).
    + frames.
    + intros _.
      eapply (respects_bind_gen (on_world (checks_one d)) (on_world (checks rest))).
      * apply try_checks_one.
      * intros _. apply IH.
      * intros x y. apply checks_one_checks.
      * intros x y z. apply checks_one_then_checks.
    + intros x y. apply keeps_checks.
    + intros x y z. apply keeps_then_checks.
Qed.

(** [process_multiple_domains] checks the first domains of its list. *)
Lemma process_multiple_domains_checks domains selectors timeout append skip_errors auto :
  respects (on_world (checks domains))
    (Checker.process_multiple_domains dns domains selectors timeout append skip_errors auto).
Proof.
  unfold Checker.process_multiple_domains.
  do 5 (eapply (respects_bind_gen (on_world (keeps checked)) (on_world (checks domains)));
        [frames | intros _ | intros x y; apply keeps_checks
        | intros x y z; apply keeps_then_checks]).
  eapply (respects_bind_gen (on_world (checks domains)) (on_world (keeps checked))).
  - apply check_each_checks.
  - intros _. frames.
  - done.
  - intros x y z. apply checks_then_keeps.
Qed.

End Order.

Example main_checks_in_order_ex :
  checked (Checker.main (always (example_result "m" "s" "k" "d")) (λ _, true)
             (Args.Make None (Some "domains.txt") "" "" false "no" None 10 false)
             (Config.at_import ∅ ∅ {["domains.txt" := Readable ["zeta.org"; " Alpha.com"; "mid.net"]]} ∅)).2
  = ["alpha.com"; "mid.net"; "zeta.org"].
Proof. vm_compute. reflexivity. Qed.

(** ** esdar-checker_v2.py: what an exception does to the collected results *)

Lemma call_print_error_run {L} m (l : L) w :
  call (Terminal.print_error m) (l, w) = (SysExit 1, (l, printed print_error_p m w)).
Proof. reflexivity. Qed.

(** C3.  What the program does where the claim speaks.  Each [except]
    clause of the loop of [process_multiple_domains] opens with a call of
    [print_error], whose [fatal] argument defaults to [True]: the process
    exits there, with status 1, and the statements that follow, the write
    of the collected results among them, are not reached.  So an interrupt
    on the second of two domains exits with the first result collected and no
    CSV file written; and with [skip_errors] set, a failure on the first
    domain exits before the second is checked. *)
Theorem process_multiple_domains_exception_exits :
  (∀ domain append skip_errors e (l : Checker.locals) w,
     ∃ h, Checker.on_exception domain append skip_errors e = Some h
          ∧ (h (l, w)).1 = SysExit 1
          ∧ csv_files (h (l, w)).2.2 = csv_files w)
  ∧ (let r := example_result "10 mail.a.example." "v=spf1 -all" "No selectors provided"
                "v=DMARC1, p=none" in
     let run := Checker.process_multiple_domains (interrupted_after "a.example" r)
                  ["a.example"; "b.example"] [] 10 false false false
                  (Checker.Locals [] 0 0, Config.at_import ∅ ∅ ∅ ∅) in
     run.1 = SysExit 1
     ∧ Checker.results run.2.1 = [r]
     ∧ checked run.2.2 = ["a.example"; "b.example"]
     ∧ csv_files run.2.2 = ∅)
  ∧ (let r := example_result "10 mail.b.example." "v=spf1 -all" "No selectors provided"
                "v=DMARC1, p=none" in
     let run := Checker.process_multiple_domains (failing_on "a.example" r)
                  ["a.example"; "b.example"] [] 10 false true false
                  (Checker.Locals [] 0 0, Config.at_import ∅ ∅ ∅ ∅) in
     run.1 = SysExit 1
     ∧ Checker.results run.2.1 = []
     ∧ checked run.2.2 = ["a.example"]
     ∧ csv_files run.2.2 = ∅).
Proof.
  split_and!.
  - intros domain append skip_errors e l w. destruct e; (eexists; split; [reflexivity |]).
    + rewrite run_bind, call_print_error_run. done.
    + rewrite run_bind. cbn [get_locals]. cbv beta iota.
      rewrite run_bind. cbn [set_locals]. cbv beta iota.
      rewrite run_bind, call_print_error_run. done.
    + rewrite run_bind. cbn [get_locals]. cbv beta iota.
      rewrite run_bind. cbn [set_locals]. cbv beta iota.
      rewrite run_bind, call_print_error_run. done.
  - vm_compute. done.
  - vm_compute. done.
Qed.

(** ** dns_lookup: the engine modelled from its specification *)

Section EngineFacts.
Import DnsLookup.
Context (nameservers : list string) (network : string → RecordType → Z → reply)
        (candidates : list string).

Local Abbreviation outcome_of := (outcome_of nameservers network).
Local Abbreviation dkim_outcome := (dkim_outcome nameservers network).
Local Abbreviation fails := (fails nameservers network).

Lemma logged_bind {A B} (m : Logged A) (k : A → Logged B) (l : log) :
  (m ≫= k) l = let '(a, l') := m l in k a l'.
Proof. reflexivity. Qed.

Lemma run_eq (s : Strategy) (timeoutSeconds : Z) (l : log) :
  run nameservers network s timeoutSeconds l
  = (outcome_of s timeoutSeconds, l ++ [query_of s]).
Proof. reflexivity. Qed.

(** The loop over explicit selectors, when one of them is found: the
    selectors before it are queried, then it, and no other. *)
Lemma try_explicit_found domain timeoutSeconds pre s post value failed (l : log) :
  Forall (fails domain timeoutSeconds) pre →
  dkim_outcome domain timeoutSeconds s = Found value →
  ∃ errs,
    try_explicit nameservers network domain timeoutSeconds failed (pre ++ s :: post) l
    = ((value, errs), l ++ map (dkim_query domain) (pre ++ [s])).
Proof.
  intros Hpre Hs. revert failed l.
  induction Hpre as [|x pre Hx _ IH]; intros failed l.
  - cbn [app try_explicit]. rewrite logged_bind, run_eq. cbv beta iota.
    fold (dkim_outcome domain timeoutSeconds s). rewrite Hs. by eexists.
  - cbn [app try_explicit]. rewrite logged_bind, run_eq. cbv beta iota.
    fold (dkim_outcome domain timeoutSeconds x). unfold fails in Hx.
    destruct (IH (failed ++ [(x, dkim_outcome domain timeoutSeconds x)])
                 (l ++ [query_of (DKIM_strategy domain x)])) as [errs E].
    exists errs.
    destruct (dkim_outcome domain timeoutSeconds x) eqn:Ex; [done | ..];
      rewrite E; cbn [map app]; by rewrite <- app_assoc.
Qed.

(** The loop over explicit selectors, when every one of them fails: all
    are queried, in order, and each failure is reported. *)
Lemma try_explicit_all_fail domain timeoutSeconds selectors failed (l : log) :
  Forall (fails domain timeoutSeconds) selectors →
  try_explicit nameservers network domain timeoutSeconds failed selectors l
  = (("No valid selectors found",
      map (λ '(s, o), selector_failure s o) failed
      ++ map (λ s, selector_failure s (dkim_outcome domain timeoutSeconds s)) selectors),
     l ++ map (dkim_query domain) selectors).
Proof.
  intros Hall. revert failed l.
  induction Hall as [|x rest Hx _ IH]; intros failed l.
  - cbn. by rewrite !app_nil_r.
  - cbn [try_explicit]. rewrite logged_bind, run_eq. cbv beta iota.
    fold (dkim_outcome domain timeoutSeconds x). unfold fails in Hx.
    specialize (IH (failed ++ [(x, dkim_outcome domain timeoutSeconds x)])
                   (l ++ [query_of (DKIM_strategy domain x)])).
    destruct (dkim_outcome domain timeoutSeconds x) eqn:Ex; [done | ..];
      rewrite IH, map_app; cbn [map app]; rewrite ?Ex, <- !app_assoc; done.
Qed.

(** The run of the aggregator, written out: the three record queries,
    then selector discovery. *)
Lemma checkDomain_run_eq domain selectors timeoutSeconds autoDiscover :
  checkDomain_run nameservers network candidates domain selectors timeoutSeconds autoDiscover
  = let '((dkim_field, dkim_errors), l) :=
      discover nameservers network candidates domain selectors autoDiscover
        timeoutSeconds (record_queries domain) in
    (MkDomainResult domain
       (phrase "MX" (outcome_of (MX_strategy domain) timeoutSeconds))
       (phrase "SPF" (outcome_of (SPF_strategy domain) timeoutSeconds))
       dkim_field
       (phrase "DMARC" (outcome_of (DMARC_strategy domain) timeoutSeconds))
       (diagnostic "MX" (outcome_of (MX_strategy domain) timeoutSeconds)
        ++ diagnostic "SPF" (outcome_of (SPF_strategy domain) timeoutSeconds)
        ++ diagnostic "DMARC" (outcome_of (DMARC_strategy domain) timeoutSeconds)
        ++ dkim_errors), l).
Proof.
  unfold checkDomain_run, checkDomain_logged.
  do 3 (rewrite logged_bind, run_eq; cbv beta iota).
  rewrite logged_bind. cbn [app]. unfold record_queries, query_of. cbn [query_name query_type
    MX_strategy SPF_strategy DMARC_strategy].
  by destruct (discover _ _ _ _ _ _ _ _) as [[fld errs] l].
Qed.

(** C7.  For a list of explicit selectors that is not empty, the check
    queries the selectors in the order given, stops at the first whose
    query is [Found], and reports its value in the [dkim] field: the
    queries made are those of the selectors before it, then its own, and
    none after.  When every selector fails, all are queried in order, the
    [dkim] field is [No valid selectors found], and the [errors] of the
    result end with one entry per selector, in order. *)
Theorem explicit_selectors_first_match (domain : string) (selectors : list string)
    (timeoutSeconds : Z) (autoDiscover : bool) (Hne : selectors ≠ []) :
  let run := checkDomain_run nameservers network candidates domain selectors
               timeoutSeconds autoDiscover in
  (∀ pre s post value,
     selectors = pre ++ s :: post →
     Forall (fails domain timeoutSeconds) pre →
     dkim_outcome domain timeoutSeconds s = Found value →
     ∃ r, run = (r, record_queries domain ++ map (dkim_query domain) (pre ++ [s]))
          ∧ dkim r = value)
  ∧ (Forall (fails domain timeoutSeconds) selectors →
     ∃ r before,
       run = (r, record_queries domain ++ map (dkim_query domain) selectors)
       ∧ dkim r = "No valid selectors found"
       ∧ errors r
         = before ++ map (λ s, selector_failure s (dkim_outcome domain timeoutSeconds s))
                       selectors).
Proof.
  intros run. subst run. rewrite checkDomain_run_eq. unfold discover.
  destruct selectors as [|s0 rest0] eqn:Es; [done |]. rewrite <- Es. clear Hne.
  split.
  - intros pre s post value Hsplit Hpre Hs. rewrite Hsplit.
    destruct (try_explicit_found domain timeoutSeconds pre s post value []
                (record_queries domain) Hpre Hs) as [errs ->].
    by eexists.
  - intros Hall. rewrite (try_explicit_all_fail domain timeoutSeconds selectors []
                            (record_queries domain) Hall).
    eexists _, _. split_and!; [done | done |]. cbn [errors map app].
    rewrite !app_assoc. done.
Qed.

End EngineFacts.

Lemma explicit_selectors_first_match_witness :
  ["a"; "b"; "c"] ≠ []
  ∧ ∃ r,
      DnsLookup.checkDomain_run ["8.8.8.8"] b_and_c_network ["default"] "example.com"
        ["a"; "b"; "c"] 5 false
      = (r, record_queries "example.com"
            ++ map (dkim_query "example.com") (["a"] ++ ["b"]))
      ∧ DnsLookup.dkim r = "v=DKIM1; p=KEYB".
Proof.
  assert (["a"; "b"; "c"] ≠ []) as Hne by done.
  split; [exact Hne |].
  apply (proj1 (explicit_selectors_first_match ["8.8.8.8"] b_and_c_network ["default"]
                  "example.com" ["a"; "b"; "c"] 5 false Hne) ["a"] "b" ["c"]).
  - reflexivity.
  - repeat constructor.
  - reflexivity.
Defined.

(** The engine under the command line: with no selector and no
    auto-discovery no DKIM query is made and the DKIM line is printed with
    the neutral status. *)
Example engine_no_selectors_ex :
  status_lines
    (terminal (Checker.process_single_domain
                 (DnsLookup.perform_complete_dns_check ["8.8.8.8"] b_and_c_network ["default"])
                 "example.com" [] 10 false false (Config.at_import ∅ ∅ ∅ ∅)).2)
  = [(print_not_found_p, "MX Records: No MX record found");
     (print_not_found_p, "SPF Record: No SPF record found");
     (print_partial_p, "DKIM Record: No selectors provided");
     (print_not_found_p, "DMARC Record: No DMARC record found")].
Proof. vm_compute. reflexivity. Qed.

(* ===================================================================== *)
(** * Further properties *)
(* ===================================================================== *)

(** ** Strings of one character *)

Section OneCharacter.

Lemma str_in_char_nil (c : ascii) : Py.str_in (String c "") "" = false.
Proof. reflexivity. Qed.

Lemma str_in_char_cons (c x : ascii) (s : string) :
  Py.str_in (String c "") (String x s) = Ascii.eqb c x || Py.str_in (String c "") s.
Proof.
  rewrite str_in_cons. f_equal. simpl.
  destruct (ascii_dec c x) as [->|Hne].
  - rewrite Ascii.eqb_refl. by destruct s.
  - symmetry. by apply Ascii.eqb_neq.
Qed.

Lemma str_in_char_app (c : ascii) (a b : string) :
  Py.str_in (String c "") (a +:+ b)
  = Py.str_in (String c "") a || Py.str_in (String c "") b.
Proof.
  induction a as [|x a IH].
  - by rewrite app_nil_l.
  - by rewrite app_cons, !str_in_char_cons, IH, orb_assoc.
Qed.

(** [s.replace(c, d)] for two strings of one character each. *)
Lemma replace_char (s : string) (c d : ascii) :
  Py.replace s (String c "") (String d "") = Py.map_chars (swap_char c d) s.
Proof.
  unfold Py.replace.
  induction s as [|x s IH]; [done |].
  cbn [Py.replace_go Py.map_chars String.prefix String.length Nat.sub].
  unfold swap_char at 1.
  destruct (ascii_dec c x) as [<-|Hne].
  - assert (String.prefix "" s = true) as -> by (by destruct s).
    by rewrite Ascii.eqb_refl, app_cons, app_nil_l, IH.
  - assert (Ascii.eqb x c = false) as -> by (apply Ascii.eqb_neq; congruence).
    by rewrite IH.
Qed.

(** [s.replace(c, "")] for a string of one character. *)
Lemma replace_char_away (s : string) (c : ascii) :
  Py.replace s (String c "") "" = without_char c s.
Proof.
  unfold Py.replace.
  induction s as [|x s IH]; [done |].
  cbn [Py.replace_go without_char String.prefix String.length Nat.sub].
  destruct (ascii_dec c x) as [<-|Hne].
  - assert (String.prefix "" s = true) as -> by (by destruct s).
    by rewrite Ascii.eqb_refl, app_nil_l, IH.
  - assert (Ascii.eqb x c = false) as -> by (apply Ascii.eqb_neq; congruence).
    by rewrite IH.
Qed.

Lemma map_chars_swap_free (c d : ascii) (s : string) :
  c ≠ d → Py.str_in (String c "") (Py.map_chars (swap_char c d) s) = false.
Proof.
  intros Hne. induction s as [|x s IH]; [done |].
  cbn [Py.map_chars]. rewrite str_in_char_cons, IH, orb_false_r.
  apply Ascii.eqb_neq. unfold swap_char.
  destruct (Ascii.eqb x c) eqn:E; [done |]. apply Ascii.eqb_neq in E. congruence.
Qed.

Lemma map_chars_swap_id (c d : ascii) (s : string) :
  Py.str_in (String c "") s = false → Py.map_chars (swap_char c d) s = s.
Proof.
  induction s as [|x s IH]; [done |].
  rewrite str_in_char_cons. intros [Hx Hs]%orb_false_iff.
  cbn [Py.map_chars]. rewrite IH by done. unfold swap_char.
  rewrite Ascii.eqb_sym in Hx. by rewrite Hx.
Qed.

Lemma map_chars_app f (a b : string) :
  Py.map_chars f (a +:+ b) = Py.map_chars f a +:+ Py.map_chars f b.
Proof. induction a as [|x a IH]; [done |]. by rewrite !app_cons; cbn; rewrite IH, app_cons. Qed.

Lemma without_char_free (c : ascii) (s : string) :
  Py.str_in (String c "") (without_char c s) = false.
Proof.
  induction s as [|x s IH]; [done |]. cbn [without_char].
  destruct (Ascii.eqb x c) eqn:E; [done |].
  rewrite str_in_char_cons, IH, orb_false_r. by rewrite Ascii.eqb_sym.
Qed.

Lemma without_char_keeps_free (c d : ascii) (s : string) :
  Py.str_in (String d "") s = false → Py.str_in (String d "") (without_char c s) = false.
Proof.
  induction s as [|x s IH]; [done |]. rewrite str_in_char_cons.
  intros [Hx Hs]%orb_false_iff. cbn [without_char].
  destruct (Ascii.eqb x c); [by apply IH |].
  by rewrite str_in_char_cons, Hx, IH.
Qed.

Lemma lstrip_keeps_free (d : ascii) (s : string) :
  Py.str_in (String d "") s = false → Py.str_in (String d "") (Py.lstrip s) = false.
Proof.
  induction s as [|x s IH]; [done |]. intros H. cbn [Py.lstrip].
  destruct (Py.is_space x); [| done].
  apply IH. rewrite str_in_char_cons in H. by apply orb_false_iff in H as [_ ?].
Qed.

Lemma rstrip_with_keeps_free p (d : ascii) (s : string) :
  Py.str_in (String d "") s = false →
  Py.str_in (String d "") (Py.rstrip_with p s) = false.
Proof.
  induction s as [|x s IH]; [done |]. rewrite str_in_char_cons.
  intros [Hx Hs]%orb_false_iff. cbn [Py.rstrip_with].
  specialize (IH Hs).
  destruct (Py.rstrip_with p s) as [|y r].
  - destruct (p x); [done |]. by rewrite str_in_char_cons, Hx.
  - by rewrite str_in_char_cons, Hx, IH.
Qed.

Lemma strip_keeps_free (d : ascii) (s : string) :
  Py.str_in (String d "") s = false → Py.str_in (String d "") (Py.strip s) = false.
Proof. intros H. unfold Py.strip, Py.rstrip. by apply rstrip_with_keeps_free, lstrip_keeps_free. Qed.

End OneCharacter.

(** ** helper.py: further properties *)

Lemma swap_char_idemp (c d x : ascii) : swap_char c d (swap_char c d x) = swap_char c d x.
Proof.
  unfold swap_char. destruct (Ascii.eqb x c) eqn:E; [| by rewrite E].
  destruct (Ascii.eqb d c) eqn:E'; done.
Qed.

Lemma map_chars_idemp f (s : string) :
  (∀ x, f (f x) = f x) → Py.map_chars f (Py.map_chars f s) = Py.map_chars f s.
Proof. intros Hf. induction s as [|x s IH]; [done |]. cbn. by rewrite Hf, IH. Qed.

Lemma replace_characters_char (s : string) (c d : ascii) :
  Helper.replace_characters s (String c "") (String d "") = Py.map_chars (swap_char c d) s.
Proof.
  unfold Helper.replace_characters. destruct s as [|x s]; [done |].
  cbn [Py.truthy negb]. apply replace_char.
Qed.

(** X1.  [replace_characters] with any two one-character arguments [c] and
    [d] replaces [c] by [d] position by position: the length is kept, no [c]
    is left when [d] is another character, and a second application changes
    nothing. *)
Theorem replace_characters_one_character (s : string) (c d : ascii) :
  let r := Helper.replace_characters s (String c "") (String d "") in
  String.length r = String.length s
  ∧ (∀ i, String.get i r = swap_char c d <$> String.get i s)
  ∧ (c = d ∨ ¬ contains r (String c ""))
  ∧ Helper.replace_characters r (String c "") (String d "") = r.
Proof.
  intros r. subst r. rewrite !replace_characters_char. split_and!.
  - apply map_chars_length.
  - intros i. apply map_chars_get.
  - destruct (decide (c = d)) as [|Hne]; [by left | right].
    by apply str_in_not_contains, map_chars_swap_free.
  - apply map_chars_idemp, swap_char_idemp.
Qed.

Lemma remove_new_line_char_eq (domains : list string) :
  Helper.remove_new_line_char domains
  = filter (λ d, Py.truthy d = true)
      (map (λ d, Py.strip (without_char "013" (without_char "010" d))) domains).
Proof.
  unfold Helper.remove_new_line_char. f_equal.
  apply map_ext. intros d. by rewrite !replace_char_away.
Qed.

(** X2.  [remove_new_line_char] keeps the order of its input and returns
    strings that are not empty, hold neither a line feed nor a carriage
    return anywhere, and are stripped; a string that is nothing but white
    space and line ends is dropped, so the result is never longer than the
    input. *)
Theorem remove_new_line_char_clean (domains : list string) :
  let r := Helper.remove_new_line_char domains in
  Forall (λ x, x ≠ "" ∧ ¬ contains x LF ∧ ¬ contains x CR ∧ Py.strip x = x) r
  ∧ r = filter (λ d, d ≠ "")
          (map (λ d, Py.strip (without_char "013" (without_char "010" d))) domains)
  ∧ (length r ≤ length domains)%nat.
Proof.
  intros r. subst r. rewrite remove_new_line_char_eq.
  assert (∀ l : list string, filter (λ d, Py.truthy d = true) l = filter (λ d, d ≠ "") l) as Hf.
  { intros l. apply list_filter_iff. intros [|x s]; cbn; split; done. }
  split_and!.
  - apply Forall_forall. intros x [Hx Hin]%list_elem_of_filter.
    change (map ?f ?l) with (f <$> l) in Hin.
    apply list_elem_of_fmap in Hin as (d & -> & _).
    split_and!.
    + intros E. by rewrite E in Hx.
    + apply str_in_not_contains, strip_keeps_free, without_char_keeps_free, without_char_free.
    + apply str_in_not_contains, strip_keeps_free, without_char_free.
    + apply strip_idemp.
  - apply Hf.
  - etrans; [apply length_filter |]. by rewrite length_map.
Qed.

Lemma dedup_loop_length (cleaned : list string) (seen : gset string) (acc : list string) :
  (length (Helper.dedup_loop cleaned seen acc) ≤ length acc + length cleaned)%nat.
Proof.
  revert seen acc. induction cleaned as [|d rest IH]; intros seen acc; simpl; [lia |].
  destruct (decide (d ∈ seen)).
  - etrans; [apply IH | lia].
  - etrans; [apply IH |]. rewrite length_app. simpl. lia.
Qed.

(** X3.  [cleanup_domains_list] neither loses nor invents a domain: a string
    is in the result exactly when it is the stripped, lower-cased form of an
    input string that is not blank; and the result is never longer than the
    input. *)
Theorem cleanup_domains_list_members (domains : list string) :
  (∀ x, x ∈ Helper.cleanup_domains_list domains
        ↔ ∃ d, d ∈ domains ∧ Py.strip d ≠ "" ∧ x = Py.lower (Py.strip d))
  ∧ (length (Helper.cleanup_domains_list domains) ≤ length domains)%nat.
Proof.
  split.
  - intros x. rewrite cleanup_elements. split; intros (d & Hd & Hs & ->); exists d.
    + split_and!; [done | | done]. intros E. by rewrite E in Hs.
    + split_and!; [done | | done]. by destruct (Py.strip d).
  - unfold Helper.cleanup_domains_list. destruct domains as [|d0 ds]; [done |].
    unfold Py.sort. rewrite merge_sort_Permutation.
    etrans; [apply dedup_loop_length |]. rewrite length_map.
    cbn [length Nat.add]. apply (length_filter _ (d0 :: ds)).
Qed.

(** X4.  The result of [cleanup_domains_list] depends on which strings the
    input holds, not on their order nor on how often each occurs: two lists
    with the same members give the same result. *)
Theorem cleanup_domains_list_order_insensitive (l l' : list string)
    (Hsame : ∀ d, d ∈ l ↔ d ∈ l') :
  Helper.cleanup_domains_list l = Helper.cleanup_domains_list l'.
Proof.
  apply (Sorted_unique String.le); [apply cleanup_Sorted.. |].
  apply NoDup_Permutation; [apply cleanup_NoDup.. |].
  intros x. rewrite !cleanup_elements. by setoid_rewrite Hsame.
Qed.

Lemma cleanup_domains_list_order_insensitive_witness :
  Helper.cleanup_domains_list ["b.org"; " A.com"; "b.org"]
  = Helper.cleanup_domains_list [" A.com"; "b.org"].
Proof.
  apply cleanup_domains_list_order_insensitive.
  intros d. rewrite !elem_of_cons, !elem_of_nil. tauto.
Defined.

(** ** config.py: the output path *)

Section OutputPath.

Lemma endswith_cons (c : ascii) (s suffix : string) :
  Py.endswith (String c s) suffix = String.eqb (String c s) suffix || Py.endswith s suffix.
Proof. reflexivity. Qed.

Lemma endswith_refl (s : string) : Py.endswith s s = true.
Proof. destruct s; cbn [Py.endswith]; by rewrite String.eqb_refl. Qed.

Lemma endswith_app (s suffix : string) : Py.endswith (s +:+ suffix) suffix = true.
Proof.
  induction s as [|c s IH].
  - rewrite app_nil_l. apply endswith_refl.
  - rewrite app_cons, endswith_cons, IH. apply orb_true_r.
Qed.

Lemma endswith_truthy (s : string) (c : ascii) :
  Py.endswith s (String c "") = true → Py.truthy s = true.
Proof. by destruct s. Qed.

Lemma normalized_well_formed (path : string) : well_formed_path (normalized path).
Proof.
  unfold normalized, well_formed_path. cbv zeta.
  assert (Py.str_in "\" (Py.replace path "\" "/") = false) as Hfree.
  { rewrite replace_char. by apply map_chars_swap_free. }
  destruct (Py.endswith (Py.replace path "\" "/") "/") eqn:E; cbn [negb].
  - split; [done | by apply str_in_not_contains].
  - split; [apply endswith_app |].
    apply str_in_not_contains. by rewrite str_in_char_app, Hfree.
Qed.


(** The run of [update_path]. *)
Lemma update_path_run (path : string) (w : world) :
  Config.update_path path w
  = if bool_decide (normalized path ∈ denied w) then (Ret false, w)
    else (Ret true,
          set_RELATIVE_FILE_PATH (normalized path)
            (set_dirs ({[normalized path]} ∪ dirs w) w)).
Proof.
  unfold Config.update_path. fold (normalized path).
  rewrite run_try_bind, makedirs_run.
  destruct (normalized_well_formed path) as [Hend _].
  rewrite (endswith_truthy _ _ Hend). cbn [negb].
  by destruct (bool_decide _).
Qed.

End OutputPath.


Example update_path_ex :
  normalized "C:\Users\me\out" = "C:/Users/me/out/" ∧ normalized "" = "/"
  ∧ normalized "out/" = "out/".
Proof. repeat split; reflexivity. Qed.

(** ** The output path in every reachable state *)

Section PathInvariant.

Lemma well_formed_at_import d f i x :
  well_formed_path (RELATIVE_FILE_PATH (Config.at_import d f i x)).
Proof. split; [reflexivity | by apply str_in_not_contains]. Qed.

Global Instance keeps_path_preorder good : PreOrder (keeps_path good).
Proof.
  split; unfold keeps_path.
  - by intros w.
  - intros w1 w2 w3 H1 H2 H. by apply H2, H1.
Qed.

Lemma update_path_keeps_well_formed path :
  respects (keeps_path well_formed_path) (Config.update_path path).
Proof.
  intros w H. rewrite update_path_run. destruct (bool_decide _); cbn.
  - done.
  - apply normalized_well_formed.
Qed.

Lemma main_keeps_well_formed dns validate_domain a :
  respects (keeps_path well_formed_path) (Checker.main dns validate_domain a).
Proof.
  unfold Checker.main.
  set (R := keeps_path well_formed_path).
  assert (∀ d w, R w (set_dirs d w)) as R_dirs by (intros ? ? Hw; exact Hw).
  assert (∀ f w, R w (set_csv_files f w)) as R_csv by (intros ? ? Hw; exact Hw).
  assert (∀ t w, R w (set_terminal t w)) as R_terminal by (intros ? ? Hw; exact Hw).
  assert (∀ c w, R w (set_checked c w)) as R_checked by (intros ? ? Hw; exact Hw).
  pose proof (any_line R R_terminal) as R_line.
  pose proof (validate_args_respects R any_printer R_line eq_refl eq_refl validate_domain).
  pose proof update_path_keeps_well_formed.
  pose proof (read_domains_from_file_respects R any_printer R_line eq_refl).
  pose proof (process_single_domain_respects R R_dirs R_csv R_terminal R_checked dns).
  pose proof (process_multiple_domains_respects R R_dirs R_csv R_terminal R_checked dns).
  pose proof (@run_with_locals_respects R unit).
  frames.
Qed.

Lemma step_keeps_well_formed w w' :
  step w w' → well_formed_path (RELATIVE_FILE_PATH w) → well_formed_path (RELATIVE_FILE_PATH w').
Proof.
  destruct 1.
  - apply update_path_keeps_well_formed.
  - done.
  - intros H.
    assert (keeps RELATIVE_FILE_PATH w (CsvHelper.write_results_to_csv results append w).2) as ->; [| done].
    apply (write_results_to_csv_respects (keeps RELATIVE_FILE_PATH) any_printer);
      first [apply _ | done | by intros; unfold keeps].
  - apply main_keeps_well_formed.
Qed.

Lemma reachable_well_formed w : reachable w → well_formed_path (RELATIVE_FILE_PATH w).
Proof.
  intros (d & f & i & x & Hsteps).
  pose proof (well_formed_at_import d f i x) as H0.
  induction Hsteps as [|w1 w2 w3 Hstep _ IH]; [done |].
  apply IH. by apply (step_keeps_well_formed w1).
Qed.

Lemma endswith_tail (c : ascii) (r : string) (suffix : ascii) :
  r ≠ "" → Py.endswith (String c r) (String suffix "") = Py.endswith r (String suffix "").
Proof. intros Hr. rewrite endswith_cons. destruct r as [|c' r']; [done |]. cbn. by destruct (Ascii.eqb c suffix). Qed.

Lemma upto_last_sep_app (p file : string) :
  Py.endswith p "/" = true → Py.str_in "/" file = false →
  Py.upto_last_sep (p +:+ file) = p.
Proof.
  intros Hend Hfile. induction p as [|c r IH]; [done |].
  rewrite app_cons. cbn [Py.upto_last_sep].
  destruct (decide (r = "")) as [-> | Hr].
  - rewrite app_nil_l, Hfile. destruct (Ascii.eqb_spec c "/") as [-> | Hc]; [done |].
    cbn in Hend. by rewrite (proj2 (Ascii.eqb_neq c "/")) in Hend.
  - rewrite endswith_tail in Hend by done.
    rewrite str_in_char_app, IH by done.
    assert (Py.str_in "/" r = true) as ->; [| done].
    clear IH Hr. induction r as [|c' r' IH']; [done |].
    rewrite str_in_char_cons. rewrite endswith_cons in Hend.
    destruct (Ascii.eqb_spec c' "/") as [-> | Hc].
    + by rewrite Ascii.eqb_refl.
    + destruct r' as [|c'' r'']; [| rewrite IH'; [apply orb_true_r |]].
      * cbn in Hend. by rewrite (proj2 (Ascii.eqb_neq c' "/")) in Hend.
      * cbn in Hend |- *. by destruct (Ascii.eqb c' "/").
Qed.

Lemma rstrip_with_some (q : ascii → bool) (s : string) :
  Py.all_chars q s = false → Py.truthy (Py.rstrip_with q s) = true.
Proof.
  induction s as [|c r IH]; [done |]. cbn [Py.all_chars Py.rstrip_with].
  destruct (q c) eqn:Hq; cbn [andb].
  - intros H%IH. by destruct (Py.rstrip_with q r).
  - intros _. by destruct (Py.rstrip_with q r).
Qed.

Lemma output_filepath_well_formed (w : world) :
  well_formed_path (RELATIVE_FILE_PATH w) →
  output_filepath w = RELATIVE_FILE_PATH w +:+ CsvHelper.OUTPUT_FILENAME.
Proof.
  intros [Hend Hfree%str_in_not_contains]. unfold output_filepath, Py.path_join.
  change (Py.startswith CsvHelper.OUTPUT_FILENAME "/") with false. cbv iota.
  rewrite Hend, orb_true_r, replace_char.
  apply map_chars_swap_id. by rewrite str_in_char_app, Hfree.
Qed.

Lemma dirname_well_formed (w : world) :
  well_formed_path (RELATIVE_FILE_PATH w) →
  Py.truthy (Py.dirname (output_filepath w)) = true
  ∧ Py.upto_last_sep (output_filepath w) = RELATIVE_FILE_PATH w.
Proof.
  intros Hw. rewrite (output_filepath_well_formed w Hw). destruct Hw as [Hend _].
  unfold Py.dirname. cbv zeta. rewrite upto_last_sep_app by done.
  split; [| done]. rewrite (endswith_truthy _ _ Hend). cbn [andb].
  destruct (Py.all_chars Py.is_sep (RELATIVE_FILE_PATH w)) eqn:E; cbn [negb].
  - apply (endswith_truthy _ _ Hend).
  - by apply rstrip_with_some.
Qed.

End PathInvariant.

(** X6.  In every state the program can reach from the import of
    [config], be it by [update_path], [get_nameserver_list],
    [write_results_to_csv] or a run of [main], the output directory ends
    with a slash and holds no back-slash.  So the output file is the
    directory followed by [esdar-check_result.csv], the part of the output
    path up to its last slash is the directory, and the directory handed to
    [os.makedirs] is never the empty string. *)
Theorem reachable_output_path (w : world) (Hw : reachable w) :
  Py.endswith (RELATIVE_FILE_PATH w) "/" = true
  ∧ ¬ contains (RELATIVE_FILE_PATH w) "\"
  ∧ output_filepath w = RELATIVE_FILE_PATH w +:+ CsvHelper.OUTPUT_FILENAME
  ∧ Py.upto_last_sep (output_filepath w) = RELATIVE_FILE_PATH w
  ∧ Py.truthy (Py.dirname (output_filepath w)) = true.
Proof.
  pose proof (reachable_well_formed w Hw) as Hwf.
  destruct (dirname_well_formed w Hwf) as [Hdir Hup].
  pose proof (output_filepath_well_formed w Hwf).
  by destruct Hwf.
Qed.

Lemma reachable_output_path_witness :
  let w := (Config.update_path "C:\results" (Config.at_import ∅ ∅ ∅ ∅)).2 in
  reachable w
  ∧ output_filepath w = "C:/results/esdar-check_result.csv"
  ∧ Py.truthy (Py.dirname (output_filepath w)) = true.
Proof.
  cbv zeta.
  assert (reachable (Config.update_path "C:\results" (Config.at_import ∅ ∅ ∅ ∅)).2) as Hw.
  { exists ∅, ∅, ∅, ∅. eapply rtc_l; [apply step_update_path | apply rtc_refl]. }
  split; [exact Hw |].
  destruct (reachable_output_path _ Hw) as (_ & _ & Hout & _ & Hdir).
  split; [| exact Hdir]. rewrite Hout. reflexivity.
Defined.

(** ** csv_helper.py: creating the file, and writing twice *)

Section CsvFiles.

(** The run of [create_csv_file_with_header]: the four ways it can go. *)
Lemma create_csv_file_with_header_run (filepath : string) (w : world) :
  CsvHelper.create_csv_file_with_header filepath w
  = let d := Py.dirname filepath in
    if negb (Py.truthy d)
    then (SysExit 1,
          printed print_error_p
            ("Error creating CSV file: " +:+ "[Errno 2] No such file or directory: ''") w)
    else if bool_decide (d ∈ denied w)
    then (SysExit 1, printed print_error_p (cannot_write filepath) w)
    else if bool_decide (filepath ∈ denied w)
    then (SysExit 1,
          printed print_error_p (cannot_write filepath) (set_dirs ({[d]} ∪ dirs w) w))
    else (Ret true,
          set_csv_files (<[filepath := [CsvHelper.headers]]> (csv_files w))
            (set_dirs ({[d]} ∪ dirs w) w)).
Proof.
  cbv zeta. unfold CsvHelper.create_csv_file_with_header.
  rewrite run_try_bind, makedirs_run.
  destruct (negb (Py.truthy _)); [done |].
  destruct (bool_decide (Py.dirname filepath ∈ denied w)); [done |].
  rewrite run_try_bind, open_run. cbn [denied set_dirs].
  destruct (bool_decide (filepath ∈ denied w)); [done |].
  rewrite run_try_bind. unfold Os.writerow, modify, try_except. run_m.
  cbn [csv_files set_csv_files set_dirs]. rewrite lookup_insert_eq. cbn [default app].
  by rewrite insert_insert_eq.
Qed.

(** The run of [write_results_to_csv] when the file can be written. *)
Lemma write_results_to_csv_writable (r : result) (rs : list result) (append : bool) (w : world) :
  writable w →
  CsvHelper.write_results_to_csv (r :: rs) append w
  = (Ret true,
     printed print_p ("Results written to " +:+ output_filepath w)
       (set_csv_files
          (<[output_filepath w := kept append w ++ header_rows append w
                                  ++ map CsvHelper.row_of (r :: rs)]> (csv_files w))
          (set_dirs ({[Py.dirname (output_filepath w)]} ∪ dirs w) w))).
Proof.
  intros (Hd & Hdir & Hfile). rewrite write_results_to_csv_run. cbv zeta.
  rewrite Hd. cbn [negb]. by rewrite !bool_decide_eq_false_2.
Qed.

Lemma writable_after (w w' : world) :
  RELATIVE_FILE_PATH w' = RELATIVE_FILE_PATH w → denied w' = denied w →
  writable w → writable w'.
Proof. unfold writable, output_filepath. by intros -> ->. Qed.

End CsvFiles.

(** X7.  [create_csv_file_with_header] returns [True] exactly when the
    directory of the file has a name and neither it nor the file refuses to
    be written.  Then the file holds the header row and nothing else,
    whatever it held before, and nothing is printed.  In every other case the
    call does not return [False]: it prints one error and the process exits
    with status 1, no CSV file having changed. *)
Theorem create_csv_file_with_header_outcome (filepath : string) (w : world) :
  let run := CsvHelper.create_csv_file_with_header filepath w in
  let d := Py.dirname filepath in
  (run.1 = Ret true ↔ Py.truthy d = true ∧ (d ∉ denied w) ∧ (filepath ∉ denied w))
  ∧ (run.1 = Ret true →
       csv_files run.2
       = <[filepath := [["Domain"; "MX Record"; "SPF Record"; "DKIM Record"; "DMARC Record"]]]>
           (csv_files w)
       ∧ terminal run.2 = terminal w)
  ∧ (run.1 ≠ Ret true →
       run.1 = SysExit 1 ∧ csv_files run.2 = csv_files w
       ∧ ∃ m, terminal run.2 = terminal w ++ [(print_error_p, m)]).
Proof.
  cbv zeta. rewrite create_csv_file_with_header_run. cbv zeta.
  destruct (Py.truthy _) eqn:Hd; cbn [negb].
  2: { split_and!; [split; [done | by intros [? _]] | done | by eauto]. }
  destruct (bool_decide (Py.dirname filepath ∈ denied w)) eqn:Hdir.
  { apply bool_decide_eq_true in Hdir.
    split_and!; [split; [done | by intros (_ & ? & _)] | done | by eauto]. }
  apply bool_decide_eq_false in Hdir.
  destruct (bool_decide (filepath ∈ denied w)) eqn:Hfile.
  { apply bool_decide_eq_true in Hfile.
    split_and!; [split; [done | by intros (_ & _ & ?)] | done | by eauto]. }
  apply bool_decide_eq_false in Hfile.
  split_and!; [done | done | done].
Qed.

(** X8.  A write followed by an appending write leaves the files and the
    directories that one write of the two lists together leaves: the second
    write puts no second header row, and the rows keep their order.  Both
    lists are not empty and the file can be written. *)
Theorem write_results_to_csv_append_twice (rs1 rs2 : list result) (append : bool) (w : world)
    (H1 : rs1 ≠ []) (H2 : rs2 ≠ []) (Hw : writable w) :
  let first := CsvHelper.write_results_to_csv rs1 append w in
  let second := CsvHelper.write_results_to_csv rs2 true first.2 in
  let both := CsvHelper.write_results_to_csv (rs1 ++ rs2) append w in
  first.1 = Ret true ∧ second.1 = Ret true ∧ both.1 = Ret true
  ∧ csv_files second.2 = csv_files both.2
  ∧ dirs second.2 = dirs both.2.
Proof.
  destruct rs1 as [|r1 rs1]; [done |]. destruct rs2 as [|r2 rs2]; [done |]. clear H1 H2.
  cbv zeta. rewrite <- app_comm_cons.
  rewrite !(write_results_to_csv_writable _ _ _ w Hw). cbn [fst snd].
  set (p := output_filepath w). set (d := Py.dirname p).
  set (w1 := printed _ _ _).
  assert (writable w1) as Hw1 by (by apply (writable_after w)).
  rewrite (write_results_to_csv_writable _ _ _ w1 Hw1). cbn [fst snd].
  change (output_filepath w1) with p. fold d.
  split_and!; [done | done | done | |].
  - cbn [csv_files printed set_terminal set_csv_files].
    unfold kept at 1, header_rows at 1, file_exists.
    change (output_filepath w1) with p.
    cbn [csv_files w1 printed set_terminal set_csv_files].
    rewrite lookup_insert_eq, insert_insert_eq. cbn [default].
    rewrite bool_decide_eq_true_2 by eauto. cbn [andb orb app].
    f_equal. unfold id. by rewrite (app_comm_cons rs1), map_app, <- !app_assoc.
  - cbn [dirs w1 printed set_terminal set_csv_files set_dirs].
    by rewrite (assoc_L (∪)), (idemp_L (∪)).
Qed.

Lemma write_results_to_csv_append_twice_witness :
  let w := Config.at_import ∅ ∅ ∅ ∅ in
  let first := CsvHelper.write_results_to_csv [timed_out_result] false w in
  writable w
  ∧ csv_files (CsvHelper.write_results_to_csv [timed_out_result] true first.2).2
    = csv_files (CsvHelper.write_results_to_csv [timed_out_result; timed_out_result] false w).2.
Proof.
  cbv zeta.
  assert (writable (Config.at_import ∅ ∅ ∅ ∅)) as Hw.
  { split_and!; [reflexivity | apply not_elem_of_empty | apply not_elem_of_empty]. }
  assert ([timed_out_result] ≠ []) as Hne by done.
  split; [exact Hw |].
  exact (proj1 (proj2 (proj2 (proj2
    (write_results_to_csv_append_twice [timed_out_result] [timed_out_result] false _
       Hne Hne Hw))))).
Defined.

(** X9.  Creating the output file with [create_csv_file_with_header] and
    then appending results to it is the same as writing them without
    [append]: the same outcome, the same files, directories and terminal.
    The header row is there once. *)
Theorem create_then_append_is_overwrite (results : list result) (w : world)
    (Hne : results ≠ []) (Hw : writable w) :
  let created := CsvHelper.create_csv_file_with_header (output_filepath w) w in
  created.1 = Ret true
  ∧ CsvHelper.write_results_to_csv results true created.2
    = CsvHelper.write_results_to_csv results false w.
Proof.
  destruct results as [|r rs]; [done |]. clear Hne. cbv zeta.
  rewrite create_csv_file_with_header_run. cbv zeta.
  pose proof Hw as (Hd & Hdir & Hfile).
  rewrite Hd. cbn [negb]. rewrite !bool_decide_eq_false_2 by done. cbn [fst snd].
  split; [done |].
  set (p := output_filepath w). set (d := Py.dirname p).
  set (w1 := set_csv_files _ _).
  assert (writable w1) as Hw1 by (by apply (writable_after w)).
  rewrite (write_results_to_csv_writable _ _ _ w1 Hw1).
  rewrite (write_results_to_csv_writable _ _ _ w Hw).
  change (output_filepath w1) with p. fold p d.
  unfold kept, header_rows, file_exists. change (output_filepath w1) with p.
  cbn [csv_files dirs w1 set_csv_files set_dirs andb].
  rewrite lookup_insert_eq, insert_insert_eq. cbn [default].
  rewrite bool_decide_eq_true_2 by eauto. cbn [orb app].
  unfold printed. cbn [terminal set_terminal set_csv_files set_dirs].
  by rewrite (assoc_L (∪)), (idemp_L (∪)).
Qed.

Lemma create_then_append_is_overwrite_witness :
  let w := Config.at_import ∅ ∅ ∅ ∅ in
  let created := CsvHelper.create_csv_file_with_header (output_filepath w) w in
  writable w
  ∧ CsvHelper.write_results_to_csv [timed_out_result] true created.2
    = CsvHelper.write_results_to_csv [timed_out_result] false w.
Proof.
  cbv zeta.
  assert (writable (Config.at_import ∅ ∅ ∅ ∅)) as Hw.
  { split_and!; [reflexivity | apply not_elem_of_empty | apply not_elem_of_empty]. }
  assert ([timed_out_result] ≠ []) as Hne by done.
  split; [exact Hw |].
  exact (proj2 (create_then_append_is_overwrite [timed_out_result] _ Hne Hw)).
Defined.

(** ** domain_validator.py *)

Section Validation.
Context (validate_domain : string → bool).

Lemma set_terminal_id w : set_terminal (terminal w) w = w.
Proof. by destruct w. Qed.

Lemma for_each_emit {A} (p : printer) (f : A → string) (l : list A) (w : world) :
  for_each l (λ x, Terminal.emit p (f x)) w
  = (Ret tt, set_terminal (terminal w ++ map (λ x, (p, f x)) l) w).
Proof.
  revert w. induction l as [|x l IH]; intros w.
  - cbn. by rewrite app_nil_r, set_terminal_id.
  - cbn [for_each]. rewrite run_bind, emit_run. cbv beta iota. rewrite IH.
    unfold printed. cbn [terminal set_terminal map]. by rewrite <- app_assoc.
Qed.

Lemma filter_invalid_nil (domains : list string) :
  filter (λ d, validate_domain d = false) domains = []
  ↔ Forall (λ d, validate_domain d = true) domains.
Proof.
  induction domains as [|d ds IH]; [by split |].
  rewrite filter_cons, Forall_cons, <- IH.
  destruct (decide (validate_domain d = false)) as [E | E].
  - split; [done | intros [? _]; congruence].
  - split; [| tauto]. intros ?. split; [by destruct (validate_domain d) | done].
Qed.

Lemma isfile_run p w :
  Os.isfile p w
  = (Ret (bool_decide (is_Some (csv_files w !! p)) || bool_decide (is_Some (inputs w !! p))), w).
Proof. reflexivity. Qed.

Lemma isfile_is_file p w :
  bool_decide (is_Some (csv_files w !! p)) || bool_decide (is_Some (inputs w !! p)) = true
  ↔ is_file p w.
Proof. unfold is_file. by rewrite orb_true_iff, !bool_decide_eq_true. Qed.

End Validation.

(** X10.  [validate_provided_domains] returns [True] exactly when every
    domain of the list has a valid form, and [False] otherwise; it never
    exits.  It prints one warning for each invalid domain, in the order of
    the list and as often as the domain occurs, and changes nothing else. *)
Theorem validate_provided_domains_warns (validate_domain : string → bool)
    (domains : list string) (w : world) :
  let run := DomainValidator.validate_provided_domains validate_domain domains w in
  run.1 = Ret (forallb validate_domain domains)
  ∧ (run.1 = Ret true ↔ Forall (λ d, validate_domain d = true) domains)
  ∧ run.2 = set_terminal
              (terminal w
               ++ map invalid_format (filter (λ d, validate_domain d = false) domains)) w.
Proof.
  cbv zeta. unfold DomainValidator.validate_provided_domains.
  assert (forallb validate_domain domains = true
          ↔ Forall (λ d, validate_domain d = true) domains) as Hall.
  { rewrite forallb_forall, Forall_forall. by setoid_rewrite list_elem_of_In. }
  destruct (filter _ domains) as [|d ds] eqn:E.
  - pose proof (proj1 (filter_invalid_nil validate_domain domains) E) as H.
    cbn. rewrite (proj2 Hall H), app_nil_r, set_terminal_id. done.
  - assert (forallb validate_domain domains = false) as Hf.
    { apply not_true_is_false. rewrite Hall, <- filter_invalid_nil. by rewrite E. }
    rewrite run_bind. unfold Terminal.print_warning.
    rewrite (for_each_emit print_warning_p (λ d, "Invalid domain format: " +:+ d)).
    cbn [fst snd]. rewrite Hf. split_and!; [done | | done].
    rewrite <- filter_invalid_nil, E. done.
Qed.

Lemma run_ret {S A} (a : A) (s : S) : (mret a : M S A) s = (Ret a, s).
Proof. reflexivity. Qed.

Lemma warn_unless (v : bool) (m : string) (w : world) :
  ((if negb v then Terminal.print_warning m else mret tt) ;; (mret v : M world bool)) w
  = (Ret v, if v then w else printed print_warning_p m w).
Proof. by destruct v. Qed.

(** The run of [validate_args]: the warnings, then the error. *)
Lemma validate_args_run (validate_domain : string → bool) (a : Args.t) (w : world) :
  DomainValidator.validate_args validate_domain a w
  = let domain_ok :=
      match given (Args.domain a) with Some d => validate_domain d | None => true end in
    let file_ok :=
      match given (Args.domains_file a) with
      | Some f => bool_decide (is_Some (csv_files w !! f)) || bool_decide (is_Some (inputs w !! f))
      | None => true
      end in
    if domain_ok && file_ok then (Ret true, w)
    else (SysExit 1,
          set_terminal
            (terminal w
             ++ match given (Args.domain a) with
                | Some d =>
                    if validate_domain d then []
                    else [(print_warning_p,
                           "Domain '" +:+ d +:+ "' is not valid. Is it formatted correctly?")]
                | None => []
                end
             ++ match given (Args.domains_file a) with
                | Some f =>
                    if bool_decide (is_Some (csv_files w !! f))
                       || bool_decide (is_Some (inputs w !! f))
                    then []
                    else [(print_warning_p,
                           "Domain file '" +:+ f +:+ "' does not exist or is not accessible.")]
                | None => []
                end
             ++ [(print_error_p, "Arguments are invalid. Please check your input.")]) w).
Proof.
  unfold DomainValidator.validate_args. cbv zeta.
  rewrite run_bind.
  destruct (given (Args.domain a)) as [d|], (given (Args.domains_file a)) as [f|].
  all: rewrite ?warn_unless, ?run_ret; cbv beta iota; rewrite run_bind.
  all: rewrite ?run_bind, ?isfile_run; cbv beta iota; rewrite ?warn_unless, ?run_ret.
  all: cbv beta iota.
  all: try destruct (validate_domain d) eqn:Hd.
  all: unfold printed; cbn [csv_files inputs set_terminal].
  all: try (destruct (bool_decide (is_Some (csv_files w !! f))
                     || bool_decide (is_Some (inputs w !! f))) eqn:Hf).
  all: cbn [negb andb]; rewrite run_bind; try done.
  all: rewrite run_bind, print_error_run; cbv beta iota.
  all: unfold printed; cbn [fst snd app terminal set_terminal].
  all: rewrite ?app_nil_r, <- ?app_assoc; try done.
Qed.


(** ** esdar-checker_v2.py: how [process_single_domain] ends *)

Section SingleDomainOutcome.
Context (dns : list string → string → option (list string) → Z → bool → check_reply).

Lemma getitem_run_missing {S} (r : result) key (s : S) :
  entries r !! key = None →
  Checker.getitem r key s = (Raise (OtherException ("'" +:+ key +:+ "'")), s).
Proof. intros H. unfold Checker.getitem. by rewrite H. Qed.

Lemma perform_complete_dns_check_raises domain selectors timeout auto w e :
  dns (checked w) domain selectors timeout auto = Raises e →
  Checker.perform_complete_dns_check dns domain selectors timeout auto w
  = (Raise e, set_checked (checked w ++ [domain]) w).
Proof. intros H. unfold Checker.perform_complete_dns_check. run_m. by rewrite H. Qed.

Lemma ends_with_error_printed m w : ends_with_error (printed print_error_p m w).
Proof. exists m. unfold printed. cbn [terminal set_terminal]. apply last_snoc. Qed.

(** What follows the four record lines: the warnings, then the write. *)
Lemma after_the_lines_run (r : result) (append : bool) handler (w : world) :
  try_except
    (match errors r with
     | Some (e :: es) =>
         for_each (e :: es) (λ error, Terminal.print_warning ("Warning: " +:+ error))
     | Some [] | None => mret tt
     end ;;
     written ← CsvHelper.write_results_to_csv [r] append;
     if negb written
     then Terminal.print_error "Failed to write result to CSV" ;; mret false
     else mret true)
    handler w
  = CsvHelper.write_results_to_csv [r] append
      (set_terminal
         (terminal w ++ map (λ e, (print_warning_p, "Warning: " +:+ e))
                            (default [] (errors r))) w).
Proof.
  rewrite run_try_bind.
  assert (match errors r with
          | Some (e :: es) =>
              for_each (e :: es) (λ error, Terminal.print_warning ("Warning: " +:+ error))
          | Some [] | None => mret tt
          end w
          = (Ret tt, set_terminal
                       (terminal w ++ map (λ e, (print_warning_p, "Warning: " +:+ e))
                                          (default [] (errors r))) w)) as ->.
  { destruct (errors r) as [[|e es]|]; cbn [default map].
    - by rewrite app_nil_r, set_terminal_id.
    - unfold Terminal.print_warning.
      by rewrite (for_each_emit print_warning_p (λ e, "Warning: " +:+ e)).
    - by rewrite app_nil_r, set_terminal_id. }
  cbv beta iota. set (w' := set_terminal _ w).
  rewrite run_try_bind, write_results_to_csv_run. cbv zeta.
  destruct (negb _); [done |].
  destruct (bool_decide _); [done |].
  destruct (bool_decide _); [done |].
  done.
Qed.

(** The state once the domain is checked and some lines are printed. *)
Lemma process_single_domain_fails domain selectors timeout append auto w :
  (∀ r, dns (checked w) domain (Checker.or_None selectors) timeout auto = Returns r →
        ¬ has_records r) →
  ∃ lines m,
    Checker.process_single_domain dns domain selectors timeout append auto w
    = (SysExit 1,
       set_terminal (terminal w ++ lines ++ [(print_error_p, m)])
         (set_checked (checked w ++ [domain]) w)).
Proof.
  intros Hno.
  unfold Checker.process_single_domain.
  unfold Terminal.print.
  do 3 (rewrite run_bind, emit_run; cbv beta iota).
  set (w3 := printed _ _ (printed _ _ (printed _ _ w))).
  rewrite run_bind.
  destruct (announce_dkim_run selectors auto w3) as [info ->]. cbv beta iota.
  set (w4 := printed _ _ w3).
  match goal with |- context [try_except _ ?h] => set (handler := h) end.
  assert (∀ e s, ∃ m, match handler e with
                      | Some h => h s
                      | None => (Raise e, s)
                      end = (SysExit 1, printed print_error_p m s)) as Hhandler.
  { intros [| msg | msg] s; eexists; subst handler; cbv beta iota;
      rewrite run_bind, print_error_run; reflexivity. }
  clearbody handler.
  destruct (dns (checked w) domain (Checker.or_None selectors) timeout auto) as [r | e] eqn:Hdns.
  2: { rewrite run_try_bind, (perform_complete_dns_check_raises _ _ _ _ _ e) by exact Hdns.
       cbv beta iota. destruct (Hhandler e (set_checked (checked w4 ++ [domain]) w4)) as [m ->].
       eexists [_; _; _; _], m. unfold printed.
       cbn [terminal set_terminal set_checked checked w4 w3 printed].
       by rewrite <- !app_assoc. }
  rewrite run_try_bind, (perform_complete_dns_check_run _ _ _ _ _ _ r) by exact Hdns.
  cbv beta iota. set (w5 := set_checked _ w4).
  specialize (Hno r eq_refl).
  destruct (entries r !! "mx") as [mx|] eqn:Hmx.
  2: { rewrite run_try_bind, (getitem_run_missing r "mx") by done. cbv beta iota.
       destruct (Hhandler (OtherException ("'" +:+ "mx" +:+ "'")) w5) as [m ->].
       eexists [_; _; _; _], m. unfold printed.
       cbn [terminal set_terminal set_checked checked w5 w4 w3 printed].
       by rewrite <- !app_assoc. }
  rewrite run_try_bind, (getitem_run r "mx" mx) by done. cbv beta iota.
  rewrite run_try_bind, (record_line_run "No MX"). cbv beta iota.
  destruct (entries r !! "spf") as [spf|] eqn:Hspf.
  2: { rewrite run_try_bind, (getitem_run_missing r "spf") by done. cbv beta iota.
       match goal with |- context [handler ?e] =>
         match goal with |- context [(Raise e, ?s)] => destruct (Hhandler e s) as [m ->] end end.
       eexists [_; _; _; _; _], m. unfold printed.
       cbn [terminal set_terminal set_checked checked w5 w4 w3 printed].
       by rewrite <- !app_assoc. }
  rewrite run_try_bind, (getitem_run r "spf" spf) by done. cbv beta iota.
  rewrite run_try_bind, (record_line_run "No SPF"). cbv beta iota.
  destruct (entries r !! "dkim") as [dkim|] eqn:Hdkim.
  2: { rewrite run_try_bind, (getitem_run_missing r "dkim") by done. cbv beta iota.
       match goal with |- context [handler ?e] =>
         match goal with |- context [(Raise e, ?s)] => destruct (Hhandler e s) as [m ->] end end.
       eexists [_; _; _; _; _; _], m. unfold printed.
       cbn [terminal set_terminal set_checked checked w5 w4 w3 printed].
       by rewrite <- !app_assoc. }
  rewrite run_try_bind, (getitem_run r "dkim" dkim) by done. cbv beta iota.
  rewrite run_try_bind, dkim_line_run. cbv beta iota.
  destruct (entries r !! "dmarc") as [dmarc|] eqn:Hdmarc.
  2: { rewrite run_try_bind, (getitem_run_missing r "dmarc") by done. cbv beta iota.
       match goal with |- context [handler ?e] =>
         match goal with |- context [(Raise e, ?s)] => destruct (Hhandler e s) as [m ->] end end.
       eexists [_; _; _; _; _; _; _], m. unfold printed.
       cbn [terminal set_terminal set_checked checked w5 w4 w3 printed].
       by rewrite <- !app_assoc. }
  exfalso. apply Hno. unfold has_records. rewrite Hmx, Hspf, Hdkim, Hdmarc. eauto.
Qed.

Lemma process_single_domain_answered domain selectors timeout append auto w r :
  dns (checked w) domain (Checker.or_None selectors) timeout auto = Returns r →
  has_records r →
  ∃ lines,
    Checker.process_single_domain dns domain selectors timeout append auto w
    = CsvHelper.write_results_to_csv [r] append
        (set_terminal (terminal w ++ lines) (set_checked (checked w ++ [domain]) w)).
Proof.
  intros Hdns ([mx Hmx] & [spf Hspf] & [dkim Hdkim] & [dmarc Hdmarc]).
  unfold Checker.process_single_domain.
  unfold Terminal.print.
  do 3 (rewrite run_bind, emit_run; cbv beta iota).
  set (w3 := printed _ _ (printed _ _ (printed _ _ w))).
  rewrite run_bind.
  destruct (announce_dkim_run selectors auto w3) as [info ->]. cbv beta iota.
  set (w4 := printed _ _ w3).
  rewrite run_try_bind, (perform_complete_dns_check_run _ _ _ _ _ _ r) by exact Hdns.
  cbv beta iota. set (w5 := set_checked _ w4).
  rewrite run_try_bind, (getitem_run r "mx" mx) by done. cbv beta iota.
  rewrite run_try_bind, (record_line_run "No MX"). cbv beta iota.
  rewrite run_try_bind, (getitem_run r "spf" spf) by done. cbv beta iota.
  rewrite run_try_bind, (record_line_run "No SPF"). cbv beta iota.
  rewrite run_try_bind, (getitem_run r "dkim" dkim) by done. cbv beta iota.
  rewrite run_try_bind, dkim_line_run. cbv beta iota.
  rewrite run_try_bind, (getitem_run r "dmarc" dmarc) by done. cbv beta iota.
  rewrite run_try_bind, (record_line_run "No DMARC"). cbv beta iota.
  rewrite after_the_lines_run.
  eexists ([_; _; _; _; _; _; _; _] ++ map _ (default [] (errors r))). f_equal.
  unfold printed. cbn [terminal set_terminal set_checked checked w5 w4 w3 printed].
  by rewrite <- !app_assoc.
Qed.

Lemma process_single_domain_ends domain selectors timeout append auto w :
  (Checker.process_single_domain dns domain selectors timeout append auto w).1 = Ret true
  ∨ (Checker.process_single_domain dns domain selectors timeout append auto w).1 = SysExit 1.
Proof.
  destruct (dns (checked w) domain (Checker.or_None selectors) timeout auto)
    as [r | e] eqn:Hdns.
  - assert (Decision (has_records r)) as Hdec by (unfold has_records; apply _).
    destruct Hdec as [Hrec | Hrec].
    + destruct (process_single_domain_answered domain selectors timeout append auto w r
                  Hdns Hrec) as [lines ->].
      rewrite write_results_to_csv_run. cbv zeta.
      destruct (negb _); [by right |].
      destruct (bool_decide _); [by right |].
      destruct (bool_decide _); [by right | by left].
    + destruct (process_single_domain_fails domain selectors timeout append auto w)
        as (lines & m & ->); [| by right].
      intros r' E. rewrite Hdns in E. by injection E as <-.
  - destruct (process_single_domain_fails domain selectors timeout append auto w)
      as (lines & m & ->); [| by right].
    intros r' E. by rewrite Hdns in E.
Qed.

Lemma process_single_domain_checked domain selectors timeout append auto w :
  checked (Checker.process_single_domain dns domain selectors timeout append auto w).2
  = checked w ++ [domain].
Proof.
  assert (∀ results append w', checked (CsvHelper.write_results_to_csv results append w').2
                              = checked w') as Hwrite.
  { intros. apply write_results_to_csv_keeps_checked. }
  destruct (dns (checked w) domain (Checker.or_None selectors) timeout auto)
    as [r | e] eqn:Hdns.
  - assert (Decision (has_records r)) as Hdec by (unfold has_records; apply _).
    destruct Hdec as [Hrec | Hrec].
    + destruct (process_single_domain_answered domain selectors timeout append auto w r
                  Hdns Hrec) as [lines ->].
      by rewrite Hwrite.
    + destruct (process_single_domain_fails domain selectors timeout append auto w)
        as (lines & m & ->); [| done].
      intros r' E. rewrite Hdns in E. by injection E as <-.
  - destruct (process_single_domain_fails domain selectors timeout append auto w)
      as (lines & m & ->); [| done].
    intros r' E. by rewrite Hdns in E.
Qed.

End SingleDomainOutcome.

(** X12.  [process_single_domain] checks its domain once and ends in one
    of two ways.  It returns [True] exactly when the engine answers with a
    result that has its [mx], [spf], [dkim] and [dmarc] records and the output
    file can be written; the file then holds what [write_results_to_csv]
    puts there for that one result.  In every other case, an engine that
    raises, a [KeyboardInterrupt], a result that lacks a record or a file
    that cannot be written, the process exits with status 1 after an error
    line, no CSV file having changed.  The function never returns [False] and
    never lets an exception through. *)
Theorem process_single_domain_outcome
    (dns : list string → string → option (list string) → Z → bool → check_reply)
    (domain : string) (selectors : list string) (timeout : Z) (append auto : bool)
    (w : world) :
  let run := Checker.process_single_domain dns domain selectors timeout append auto w in
  let answer := dns (checked w) domain (Checker.or_None selectors) timeout auto in
  (run.1 = Ret true ∨ run.1 = SysExit 1)
  ∧ checked run.2 = checked w ++ [domain]
  ∧ (run.1 = Ret true ↔ ∃ r, answer = Returns r ∧ has_records r ∧ writable w)
  ∧ (∀ r, answer = Returns r → run.1 = Ret true →
       csv_files run.2
       = <[output_filepath w := kept append w ++ header_rows append w
                                ++ [CsvHelper.row_of r]]> (csv_files w))
  ∧ (run.1 = SysExit 1 → csv_files run.2 = csv_files w ∧ ends_with_error run.2).
Proof.
  cbv zeta.
  destruct (dns (checked w) domain (Checker.or_None selectors) timeout auto)
    as [r | e] eqn:Hdns.
  - assert (Decision (has_records r)) as Hdec by (unfold has_records; apply _).
    destruct Hdec as [Hrec | Hrec].
    + destruct (process_single_domain_answered dns domain selectors timeout append auto w r
                  Hdns Hrec) as [lines ->].
      set (w9 := set_terminal _ _).
      rewrite write_results_to_csv_run. cbv zeta.
      change (output_filepath w9) with (output_filepath w).
      change (denied w9) with (denied w).
      change (kept append w9) with (kept append w).
      change (header_rows append w9) with (header_rows append w).
      unfold writable.
      destruct (Py.truthy (Py.dirname (output_filepath w))) eqn:Hd; cbn [negb].
      2: { split_and!; [by right | done | | done | ].
           - split; [done | by intros (? & _ & _ & ? & _)].
           - intros _. split; [done | apply ends_with_error_printed]. }
      destruct (bool_decide (Py.dirname (output_filepath w) ∈ denied w)) eqn:Hdir.
      { apply bool_decide_eq_true in Hdir.
        split_and!; [by right | done | | done | ].
        - split; [done | by intros (? & _ & _ & _ & ? & _)].
        - intros _. split; [done | apply ends_with_error_printed]. }
      apply bool_decide_eq_false in Hdir.
      destruct (bool_decide (output_filepath w ∈ denied w)) eqn:Hfile.
      { apply bool_decide_eq_true in Hfile.
        split_and!; [by right | done | | done | ].
        - split; [done | by intros (? & _ & _ & _ & _ & ?)].
        - intros _. split; [done | apply ends_with_error_printed]. }
      apply bool_decide_eq_false in Hfile.
      split_and!; [by left | done | | | done].
      * split; [| done]. intros _. by exists r.
      * by intros ? [= <-] _.
    + destruct (process_single_domain_fails dns domain selectors timeout append auto w)
        as (lines & m & ->).
      { intros r' E. rewrite Hdns in E. by injection E as <-. }
      split_and!; [by right | done | | done |].
      * split; [done |]. intros (r' & [= <-] & ? & _). done.
      * intros _. split; [done |]. exists m. cbn [snd terminal set_terminal].
        by rewrite !app_assoc, last_snoc.
  - destruct (process_single_domain_fails dns domain selectors timeout append auto w)
      as (lines & m & ->).
    { intros r' E. by rewrite Hdns in E. }
    split_and!; [by right | done | | done |].
    + split; [done |]. by intros (r' & ? & _).
    + intros _. split; [done |]. exists m. cbn [snd terminal set_terminal].
      by rewrite !app_assoc, last_snoc.
Qed.

(** ** esdar-checker_v2.py: [parse_selectors] *)

Section Selectors.

Lemma lstrip_all_space (s : string) :
  Py.all_chars Py.is_space (Py.lstrip s) = true → Py.all_chars Py.is_space s = true.
Proof.
  induction s as [|c s IH]; [done |]. cbn [Py.lstrip].
  destruct (Py.is_space c) eqn:E; [| done].
  intros H%IH. cbn [Py.all_chars]. by rewrite E.
Qed.

Lemma strip_empty_all_space (s : string) :
  Py.strip s = "" → Py.all_chars Py.is_space s = true.
Proof.
  unfold Py.strip, Py.rstrip. intros H. apply lstrip_all_space.
  destruct (Py.all_chars Py.is_space (Py.lstrip s)) eqn:E; [done |].
  apply rstrip_with_some in E. by rewrite H in E.
Qed.

Lemma all_space_strip_empty (s : string) :
  Py.all_chars Py.is_space s = true → Py.strip s = "".
Proof.
  intros H. assert (Py.lstrip s = "") as E.
  { induction s as [|c s IH]; [done |]. cbn [Py.all_chars] in H.
    apply andb_true_iff in H as [Hc Hs]. cbn [Py.lstrip]. rewrite Hc. by apply IH. }
  unfold Py.strip. by rewrite E.
Qed.

Lemma split_char_all (q : ascii → bool) (sep : ascii) (s : string) :
  q sep = false → Py.all_chars q s = true → Py.split_char sep s = [s].
Proof.
  intros Hsep. induction s as [|c s IH]; [done |]. cbn [Py.all_chars Py.split_char].
  intros [Hc Hs]%andb_true_iff.
  destruct (Ascii.eqb_spec c sep) as [-> | _]; [congruence |].
  by rewrite (IH Hs).
Qed.

Lemma split_char_free (sep : ascii) (s piece : string) :
  piece ∈ Py.split_char sep s → Py.str_in (String sep "") piece = false.
Proof.
  revert piece. induction s as [|c s IH]; intros piece; cbn [Py.split_char].
  - by intros ->%list_elem_of_singleton.
  - destruct (Ascii.eqb_spec c sep) as [-> | Hc].
    + intros [-> | H]%elem_of_cons; [done | by apply IH].
    + destruct (Py.split_char sep s) as [|p ps] eqn:E.
      * intros ->%list_elem_of_singleton. rewrite str_in_char_cons.
        rewrite (proj2 (Ascii.eqb_neq sep c)) by congruence. done.
      * intros [-> | H]%elem_of_cons.
        -- rewrite str_in_char_cons, (proj2 (Ascii.eqb_neq sep c)) by congruence.
           apply IH. left.
        -- apply IH. by right.
Qed.

Lemma dedup_loop_head (l : list string) (seen : gset string) (a : string) (acc : list string) :
  head (Helper.dedup_loop l seen (a :: acc)) = Some a.
Proof.
  revert seen acc. induction l as [|d l IH]; intros seen acc; [done |].
  cbn [Helper.dedup_loop]. destruct (decide (d ∈ seen)); [apply IH |].
  rewrite <- app_comm_cons. apply IH.
Qed.

Lemma dedup_loop_first (l : list string) (a : string) :
  head l = Some a → head (Helper.dedup_loop l ∅ []) = Some a.
Proof.
  destruct l as [|x l]; [done |]. intros [= ->]. cbn [Helper.dedup_loop].
  rewrite decide_False by apply not_elem_of_empty. apply dedup_loop_head.
Qed.

Lemma strip_nil : Py.strip "" = "".
Proof. reflexivity. Qed.

End Selectors.

(** X13.  [parse_selectors] returns the selectors without duplicates,
    each stripped of white space and not empty.  A selector is returned
    exactly when it is the stripped value of [--selector] or the stripped form
    of a comma-separated piece of [--selectors], and is not empty.  The value
    of [--selector], when it is not blank, comes first and is taken whole: it
    is the only selector that may hold a comma. *)
Theorem parse_selectors_spec (selector_arg selectors_arg : string) :
  let r := Checker.parse_selectors selector_arg selectors_arg in
  NoDup r
  ∧ Forall (λ s, s ≠ "" ∧ Py.strip s = s) r
  ∧ (∀ s, s ∈ r ↔
          s ≠ "" ∧ (s = Py.strip selector_arg
                    ∨ ∃ piece, piece ∈ Py.split_char "," selectors_arg ∧ s = Py.strip piece))
  ∧ (Py.strip selector_arg ≠ "" → head r = Some (Py.strip selector_arg))
  ∧ (∀ s, s ∈ r → s = Py.strip selector_arg ∨ ¬ contains s ",").
Proof.
  cbv zeta. unfold Checker.parse_selectors. cbv zeta.
  set (one := if Py.truthy selector_arg && Py.truthy (Py.strip selector_arg)
              then [Py.strip selector_arg] else []).
  set (many := map Py.strip
                 (filter (λ s, Py.truthy (Py.strip s) = true)
                    (Py.split_char "," selectors_arg))).
  set (all := if Py.truthy selectors_arg && Py.truthy (Py.strip selectors_arg)
              then one ++ many else one).
  assert (∀ s, s ∈ one ↔ s ≠ "" ∧ s = Py.strip selector_arg) as Hone.
  { intros s. subst one. destruct selector_arg as [|c a].
    - cbn [Py.truthy andb]. rewrite elem_of_nil, strip_nil. split; [done | by intros [? ->]].
    - cbn [Py.truthy andb]. destruct (Py.strip (String c a)) eqn:E; cbn [Py.truthy].
      + rewrite elem_of_nil. split; [done | by intros [? ->]].
      + rewrite list_elem_of_singleton. split; [by intros -> | by intros [_ ->]]. }
  assert (∀ s, s ∈ many ↔
               s ≠ "" ∧ ∃ piece, piece ∈ Py.split_char "," selectors_arg ∧ s = Py.strip piece)
    as Hmany.
  { intros s. subst many. rewrite list_elem_of_fmap. setoid_rewrite list_elem_of_filter.
    split.
    - intros (piece & -> & Ht & Hin). split; [by destruct (Py.strip piece) | by exists piece].
    - intros (Hs & piece & Hin & ->). exists piece. split_and!; [done | | done].
      by destruct (Py.strip piece). }
  assert (∀ s, s ∈ all ↔ s ∈ one ∨ s ∈ many) as Hall.
  { intros s. subst all.
    destruct (Py.truthy selectors_arg && Py.truthy (Py.strip selectors_arg)) eqn:E.
    - apply elem_of_app.
    - split; [by left |]. intros [? | Hm]; [done |]. exfalso.
      apply Hmany in Hm as (Hs & piece & Hin & ->).
      assert (Py.strip selectors_arg = "") as Hblank.
      { destruct selectors_arg as [|c a]; [done |]. cbn [Py.truthy andb] in E.
        by destruct (Py.strip (String c a)). }
      apply strip_empty_all_space in Hblank.
      rewrite (split_char_all Py.is_space "," selectors_arg eq_refl Hblank) in Hin.
      apply list_elem_of_singleton in Hin as ->.
      by apply Hs, all_space_strip_empty. }
  assert (∀ x : string, x ∈ (∅ : gset string) ↔ x ∈ ([] : list string)) as Hseen.
  { intros x. by rewrite elem_of_nil, elem_of_empty. }
  destruct (dedup_loop_spec all ∅ [] Hseen (NoDup_nil_2 (A:=string))) as [Hnd Hin].
  assert (∀ s, s ∈ Helper.dedup_loop all ∅ [] ↔
               s ≠ "" ∧ (s = Py.strip selector_arg
                         ∨ ∃ piece, piece ∈ Py.split_char "," selectors_arg ∧ s = Py.strip piece))
    as Hmem.
  { intros s. rewrite Hin, elem_of_nil, Hall, Hone, Hmany. tauto. }
  split_and!.
  - done.
  - apply Forall_forall. intros s [Hs [-> | (piece & _ & ->)]]%Hmem;
      (split; [done | apply strip_idemp]).
  - done.
  - intros Hsel.
    apply dedup_loop_first. subst all one.
    destruct selector_arg as [|c a]; [done |]. cbn [Py.truthy andb].
    destruct (Py.strip (String c a)) eqn:E; [done |]. cbn [Py.truthy].
    by destruct (Py.truthy selectors_arg && Py.truthy (Py.strip selectors_arg)).
  - intros s [Hs [-> | (piece & Hp & ->)]]%Hmem; [by left | right].
    apply str_in_not_contains, strip_keeps_free. by apply (split_char_free _ selectors_arg).
Qed.

Example parse_selectors_commas_ex :
  Checker.parse_selectors " a,b " "google, ,selector1,google,a,b"
  = ["a,b"; "google"; "selector1"; "a"; "b"].
Proof. vm_compute. reflexivity. Qed.

(** ** No exception leaves the program *)

Section Escapes.

Lemma escapes_mono {S A} (P Q : exn → Prop) (m : M S A) :
  (∀ e, P e → Q e) → escapes P m → escapes Q m.
Proof. intros HPQ H s. specialize (H s). destruct (m s).1; auto. Qed.

Lemma escapes_ret {S A} P (a : A) : escapes P (mret a : M S A).
Proof. by intros s. Qed.

Lemma escapes_raise {S A} (P : exn → Prop) e : P e → escapes P (raise e : M S A).
Proof. by intros H s. Qed.

Lemma escapes_sys_exit {S A} P : escapes P (sys_exit 1 : M S A).
Proof. by intros s. Qed.

Lemma escapes_get_state {S} P : escapes P (get_state : M S S).
Proof. by intros s. Qed.

Lemma escapes_modify {S} P (f : S → S) : escapes P (modify f).
Proof. by intros s. Qed.

Lemma escapes_get_locals {L} P : escapes P (get_locals : M (L * world) L).
Proof. by intros [l w]. Qed.

Lemma escapes_set_locals {L} P (l : L) : escapes P (set_locals l).
Proof. by intros [l' w]. Qed.

Lemma escapes_bind {S A B} P (m : M S A) (k : A → M S B) :
  escapes P m → (∀ a, escapes P (k a)) → escapes P (m ≫= k).
Proof.
  intros Hm Hk s. rewrite run_bind. specialize (Hm s).
  destruct (m s) as [[a | e | c] s']; [apply Hk | done | done].
Qed.

Lemma escapes_for_each {S A} P (l : list A) (body : A → M S unit) :
  (∀ x, escapes P (body x)) → escapes P (for_each l body).
Proof.
  intros H. induction l as [|x l IH]; [apply escapes_ret |].
  apply escapes_bind; [apply H | by intros _].
Qed.

(** A [try] statement lets through what its handlers let through, when a
    clause matches every exception the body can raise. *)
Lemma escapes_try_except {S A} P Q (body : M S A) handler :
  escapes P body →
  (∀ e, P e → ∃ h, handler e = Some h ∧ escapes Q h) →
  escapes Q (try_except body handler).
Proof.
  intros Hb Hh s. unfold try_except. specialize (Hb s).
  destruct (body s) as [[a | e | c] s']; [done | | done].
  destruct (Hh e Hb) as (h & -> & H). apply H.
Qed.

Lemma escapes_call {L A} P (m : M world A) : escapes P m → escapes P (call m : M (L * world) A).
Proof.
  intros H [l w]. unfold call. specialize (H w). by destruct (m w) as [[] ?].
Qed.

Lemma escapes_run_with_locals {A} P (m : M (Checker.locals * world) A) :
  escapes P m → escapes P (Checker.run_with_locals m).
Proof.
  intros H w. unfold Checker.run_with_locals.
  specialize (H (Checker.Locals [] 0 0, w)). by destruct (m _) as [[] [l w']].
Qed.

End Escapes.

Create HintDb escape discriminated.

Ltac escape_case :=
  match goal with
  | |- escapes _ (match ?x with _ => _ end) => destruct x
  | |- escapes _ (if ?b then _ else _) => destruct b
  | |- escapes _ (let '(_, _) := ?x in _) => destruct x
  end.

Ltac escape_step :=
  first
    [ solve [auto with escape]
    | apply escapes_ret | apply escapes_sys_exit
    | apply escapes_get_state | apply escapes_modify
    | apply escapes_get_locals | apply escapes_set_locals
    | apply escapes_raise; done
    | apply escapes_bind; [| intros ?]
    | apply escapes_for_each; intros ?
    | apply escapes_call
    | escape_case ].

Ltac escapes_all := repeat escape_step.

Section EscapesOfTheProgram.
Context (dns : list string → string → option (list string) → Z → bool → check_reply).

Lemma emit_escapes P p m : escapes P (Terminal.emit p m).
Proof. apply escapes_modify. Qed.

Lemma print_error_escapes P m : escapes P (Terminal.print_error m).
Proof. unfold Terminal.print_error, Terminal.print_error_with. pose proof (emit_escapes P). escapes_all. Qed.

Local Hint Resolve emit_escapes print_error_escapes : escape.
Local Hint Extern 1 (escapes _ (Terminal.print _)) => apply emit_escapes : escape.
Local Hint Extern 1 (escapes _ (Terminal.print_warning _)) => apply emit_escapes : escape.
Local Hint Extern 1 (escapes _ (Terminal.print_info _)) => apply emit_escapes : escape.
Local Hint Extern 1 (escapes _ (Terminal.print_success _)) => apply emit_escapes : escape.
Local Hint Extern 1 (escapes _ (Terminal.print_found _)) => apply emit_escapes : escape.
Local Hint Extern 1 (escapes _ (Terminal.print_not_found _)) => apply emit_escapes : escape.
Local Hint Extern 1 (escapes _ (Terminal.print_partial _)) => apply emit_escapes : escape.

Lemma isfile_escapes P p : escapes P (Os.isfile p).
Proof. unfold Os.isfile. escapes_all. Qed.

Lemma makedirs_escapes d : escapes errors_only (Os.makedirs d).
Proof. unfold Os.makedirs. escapes_all. Qed.

Lemma open_escapes p m : escapes errors_only (Os.open p m).
Proof. unfold Os.open. escapes_all. Qed.

Lemma writerow_escapes P p row : escapes P (Os.writerow p row).
Proof. apply escapes_modify. Qed.

Local Hint Resolve isfile_escapes makedirs_escapes open_escapes writerow_escapes : escape.

Lemma update_path_escapes path : escapes none (Config.update_path path).
Proof.
  unfold Config.update_path.
  apply (escapes_try_except errors_only).
  - escapes_all.
  - intros [] He; [done | |]; eexists; (split; [reflexivity | escapes_all]).
Qed.

Ltac handled :=
  intros [] ?; try done; eexists; (split; [reflexivity | escapes_all]).

Lemma create_csv_file_with_header_escapes filepath :
  escapes none (CsvHelper.create_csv_file_with_header filepath).
Proof.
  unfold CsvHelper.create_csv_file_with_header.
  apply (escapes_try_except errors_only); [escapes_all | handled].
Qed.

Lemma write_results_to_csv_escapes results append :
  escapes none (CsvHelper.write_results_to_csv results append).
Proof.
  unfold CsvHelper.write_results_to_csv, CsvHelper.get_output_filepath.
  destruct results as [|r rs]; [escapes_all |].
  apply escapes_bind; [escapes_all | intros filepath].
  apply escapes_bind; [escapes_all | intros file_exists].
  apply (escapes_try_except errors_only); [escapes_all | handled].
Qed.

Lemma read_domains_from_file_escapes filepath :
  escapes none (CsvHelper.read_domains_from_file filepath).
Proof. unfold CsvHelper.read_domains_from_file. escapes_all. Qed.

Lemma validate_args_escapes validate_domain a :
  escapes none (DomainValidator.validate_args validate_domain a).
Proof. unfold DomainValidator.validate_args. escapes_all. Qed.

Lemma validate_provided_domains_escapes validate_domain domains :
  escapes none (DomainValidator.validate_provided_domains validate_domain domains).
Proof. unfold DomainValidator.validate_provided_domains. escapes_all. Qed.

Lemma getitem_escapes {S} r key : escapes errors_only (Checker.getitem r key : M S string).
Proof. unfold Checker.getitem. escapes_all. Qed.

Lemma announce_dkim_escapes P selectors auto : escapes P (Checker.announce_dkim selectors auto).
Proof. unfold Checker.announce_dkim. escapes_all. Qed.

Lemma perform_complete_dns_check_escapes domain selectors timeout auto :
  escapes anything (Checker.perform_complete_dns_check dns domain selectors timeout auto).
Proof. unfold Checker.perform_complete_dns_check. escapes_all. Qed.

Lemma errors_only_anything {S A} (m : M S A) : escapes errors_only m → escapes anything m.
Proof. by apply escapes_mono. Qed.

Lemma none_anything {S A} (m : M S A) : escapes none m → escapes anything m.
Proof. by apply escapes_mono. Qed.

Local Hint Resolve write_results_to_csv_escapes read_domains_from_file_escapes
  validate_args_escapes announce_dkim_escapes perform_complete_dns_check_escapes
  update_path_escapes : escape.
Local Hint Extern 2 (escapes anything (Checker.getitem _ _)) =>
  apply errors_only_anything, getitem_escapes : escape.
Local Hint Extern 2 (escapes anything (CsvHelper.write_results_to_csv _ _)) =>
  apply none_anything, write_results_to_csv_escapes : escape.

Lemma process_single_domain_escapes domain selectors timeout append auto :
  escapes none (Checker.process_single_domain dns domain selectors timeout append auto).
Proof.
  unfold Checker.process_single_domain.
  do 4 (apply escapes_bind; [escapes_all | intros _]).
  apply (escapes_try_except anything); [escapes_all | handled].
Qed.

Lemma check_and_summarise_escapes domain selectors timeout auto :
  escapes anything (Checker.check_and_summarise dns domain selectors timeout auto).
Proof. unfold Checker.check_and_summarise. escapes_all. Qed.

Lemma write_completed_escapes append : escapes none (Checker.write_completed append).
Proof. unfold Checker.write_completed. escapes_all. Qed.

Local Hint Resolve write_completed_escapes : escape.

Lemma check_each_escapes i total rest selectors timeout append skip_errors auto :
  escapes none
    (Checker.check_each dns i total rest selectors timeout append skip_errors auto).
Proof.
  revert i. induction rest as [|d rest IH]; intros i; cbn [Checker.check_each].
  - escapes_all.
  - apply escapes_bind; [escapes_all | intros _].
    apply escapes_bind; [| intros _; apply IH].
    apply (escapes_try_except anything); [apply check_and_summarise_escapes |].
    unfold Checker.on_exception. handled.
Qed.

Local Hint Resolve check_each_escapes : escape.

Lemma process_multiple_domains_escapes domains selectors timeout append skip_errors auto :
  escapes none
    (Checker.process_multiple_domains dns domains selectors timeout append skip_errors auto).
Proof. unfold Checker.process_multiple_domains. escapes_all. Qed.

Lemma main_escapes validate_domain a : escapes none (Checker.main dns validate_domain a).
Proof.
  unfold Checker.main.
  pose proof process_single_domain_escapes. pose proof process_multiple_domains_escapes.
  pose proof (@escapes_run_with_locals unit none).
  escapes_all.
Qed.

End EscapesOfTheProgram.

(** X14.  No exception leaves the program, whatever the engine does: the
    engine may raise any exception at any call, a [KeyboardInterrupt]
    included, the file system may refuse any directory or file, and a result
    may lack any key.  A run of [main] returns or exits with status 1; so do
    [process_single_domain], [process_multiple_domains],
    [write_results_to_csv], [create_csv_file_with_header],
    [read_domains_from_file], [validate_args] and [update_path]. *)
Theorem no_exception_escapes
    (dns : list string → string → option (list string) → Z → bool → check_reply) :
  (∀ validate_domain a w,
     (Checker.main dns validate_domain a w).1 = Ret tt
     ∨ (Checker.main dns validate_domain a w).1 = SysExit 1)
  ∧ (∀ domain selectors timeout append auto,
       escapes none (Checker.process_single_domain dns domain selectors timeout append auto))
  ∧ (∀ domains selectors timeout append skip_errors auto,
       escapes none
         (Checker.process_multiple_domains dns domains selectors timeout append skip_errors
            auto))
  ∧ (∀ results append, escapes none (CsvHelper.write_results_to_csv results append))
  ∧ (∀ filepath, escapes none (CsvHelper.create_csv_file_with_header filepath))
  ∧ (∀ filepath, escapes none (CsvHelper.read_domains_from_file filepath))
  ∧ (∀ validate_domain a, escapes none (DomainValidator.validate_args validate_domain a))
  ∧ (∀ path, escapes none (Config.update_path path)).
Proof.
  split_and!.
  - intros validate_domain a w. pose proof (main_escapes dns validate_domain a w) as H.
    destruct (Checker.main dns validate_domain a w).1 as [[] | e | c];
      [by left | done | right; by rewrite H].
  - apply process_single_domain_escapes.
  - apply process_multiple_domains_escapes.
  - apply write_results_to_csv_escapes.
  - apply create_csv_file_with_header_escapes.
  - apply read_domains_from_file_escapes.
  - apply validate_args_escapes.
  - apply update_path_escapes.
Qed.

(** ** esdar-checker_v2.py: [main] *)

Section MainRuns.
Context (dns : list string → string → option (list string) → Z → bool → check_reply).
Context (validate_domain : string → bool).

Lemma validate_args_valid (a : Args.t) (w : world) :
  valid_arguments validate_domain a w →
  DomainValidator.validate_args validate_domain a w = (Ret true, w).
Proof.
  intros [Hd Hf]. rewrite validate_args_run. cbv zeta.
  destruct (given (Args.domain a)) as [d|]; [rewrite (Hd d eq_refl) |];
    (destruct (given (Args.domains_file a)) as [f|];
       [rewrite (proj2 (isfile_is_file f w) (Hf f eq_refl)) |]); done.
Qed.

Lemma validate_args_invalid (a : Args.t) (w : world) :
  ¬ valid_arguments validate_domain a w →
  ∃ lines,
    DomainValidator.validate_args validate_domain a w
    = (SysExit 1,
       set_terminal
         (terminal w ++ lines
          ++ [(print_error_p, "Arguments are invalid. Please check your input.")]) w).
Proof.
  intros Hbad. rewrite validate_args_run. cbv zeta.
  destruct (_ && _) eqn:E; [| eexists (_ ++ _); by rewrite <- app_assoc].
  exfalso. apply Hbad. apply andb_true_iff in E as [Ed Ef]. split.
  - intros d Hd. by rewrite Hd in Ed.
  - intros f Hf. rewrite Hf in Ef. by apply isfile_is_file.
Qed.

Lemma cleanup_domains_list_one (d : string) :
  Py.strip d ≠ "" → Helper.cleanup_domains_list [d] = [Py.lower (Py.strip d)].
Proof.
  intros Hd. unfold Helper.cleanup_domains_list.
  rewrite filter_cons, filter_nil.
  rewrite decide_True by (by destruct (Py.strip d)).
  cbn [map Helper.dedup_loop]. rewrite decide_False by apply not_elem_of_empty.
  reflexivity.
Qed.

(** The part of [main] that deals with [--output_path]. *)
Lemma main_output_path_run (a : Args.t) (w : world) :
  (match given (Args.output_path a) with
   | Some p =>
       updated ← Config.update_path p;
       if negb updated
       then Terminal.print_warning
              ("Invalid output path: " +:+ p +:+ ". Using default from config.py")
       else mret tt
   | None => mret tt
   end) w
  = (Ret tt, after_output_path a w).
Proof.
  unfold after_output_path. destruct (given (Args.output_path a)) as [p|]; [| done].
  rewrite run_bind, update_path_run. by destruct (bool_decide _).
Qed.

(** [main] up to the list of domains, when the arguments are valid. *)
Lemma main_run_valid (a : Args.t) (w : world) :
  valid_arguments validate_domain a w →
  Checker.main dns validate_domain a w
  = (domains ←
       match given (Args.domain a) with
       | Some d => mret [d]
       | None =>
           match given (Args.domains_file a) with
           | Some f =>
               domains ← CsvHelper.read_domains_from_file f;
               match domains with
               | [] => Terminal.print_error "No valid domains found in file" ;; sys_exit 1
               | _ => mret domains
               end
           | None => mret []
           end
       end;
     match Helper.cleanup_domains_list domains with
     | [] => Terminal.print_error "No valid domains to check" ;; sys_exit 1
     | [d] =>
         success ← Checker.process_single_domain dns d
                     (Checker.parse_selectors (Args.selector a) (Args.selectors a))
                     (Args.timeout a) (append_mode a) (Args.auto_discover_dkim a);
         if negb success then sys_exit 1 else mret tt
     | _ =>
         Checker.run_with_locals
           (Checker.process_multiple_domains dns (Helper.cleanup_domains_list domains)
              (Checker.parse_selectors (Args.selector a) (Args.selectors a))
              (Args.timeout a) (append_mode a) (Args.skip_errors a)
              (Args.auto_discover_dkim a))
     end) (after_output_path a w).
Proof.
  intros Hv. unfold Checker.main. cbv zeta.
  rewrite run_bind, (validate_args_valid a w Hv). cbv beta iota.
  rewrite run_bind, main_output_path_run. cbv beta iota. reflexivity.
Qed.

End MainRuns.

(** X15.  With arguments that [validate_args] refuses, [main] exits with
    status 1 at once: no domain is checked, no directory is made, no CSV file
    is touched and the output path stays as it was.  The last line printed is
    the error. *)
Theorem main_invalid_arguments
    (dns : list string → string → option (list string) → Z → bool → check_reply)
    (validate_domain : string → bool) (a : Args.t) (w : world)
    (Hbad : ¬ valid_arguments validate_domain a w) :
  let run := Checker.main dns validate_domain a w in
  run.1 = SysExit 1
  ∧ checked run.2 = checked w
  ∧ csv_files run.2 = csv_files w
  ∧ dirs run.2 = dirs w
  ∧ RELATIVE_FILE_PATH run.2 = RELATIVE_FILE_PATH w
  ∧ last (terminal run.2)
    = Some (print_error_p, "Arguments are invalid. Please check your input.").
Proof.
  cbv zeta. unfold Checker.main. rewrite run_bind.
  destruct (validate_args_invalid validate_domain a w Hbad) as [lines ->].
  cbn [fst snd terminal set_terminal checked csv_files dirs RELATIVE_FILE_PATH].
  split_and!; try done. by rewrite !app_assoc, last_snoc.
Qed.

Lemma main_invalid_arguments_witness :
  let run := Checker.main (always timed_out_result) rejects_all (args_of_domain "example.com")
               (Config.at_import ∅ ∅ ∅ ∅) in
  run.1 = SysExit 1 ∧ checked run.2 = [].
Proof.
  cbv zeta.
  assert (¬ valid_arguments rejects_all (args_of_domain "example.com")
            (Config.at_import ∅ ∅ ∅ ∅)) as Hbad.
  { intros [Hd _]. specialize (Hd "example.com" eq_refl). discriminate Hd. }
  destruct (main_invalid_arguments (always timed_out_result) rejects_all
              (args_of_domain "example.com") (Config.at_import ∅ ∅ ∅ ∅) Hbad)
    as (H1 & H2 & _).
  split; [exact H1 | exact H2].
Defined.

(** X16.  With valid arguments and a [--domain] that is not blank, [main]
    deals with [--output_path] and then runs [process_single_domain] on that
    one domain, stripped and in lower case, with the parsed selectors, and
    appending exactly when [--append] reads [yes] in some casing; a
    [--domains_file] given beside it is not read.  [main] returns when that
    call returns [True] and exits with status 1 when it exits. *)
Theorem main_single_domain
    (dns : list string → string → option (list string) → Z → bool → check_reply)
    (validate_domain : string → bool) (a : Args.t) (w : world) (d : string)
    (Hvalid : valid_arguments validate_domain a w)
    (Hd : given (Args.domain a) = Some d) (Hs : Py.strip d ≠ "") :
  let run := Checker.main dns validate_domain a w in
  let single :=
    Checker.process_single_domain dns (Py.lower (Py.strip d))
      (Checker.parse_selectors (Args.selector a) (Args.selectors a))
      (Args.timeout a) (append_mode a) (Args.auto_discover_dkim a)
      (after_output_path a w) in
  run.2 = single.2
  ∧ ((run.1 = Ret tt ∧ single.1 = Ret true) ∨ (run.1 = SysExit 1 ∧ single.1 = SysExit 1))
  ∧ checked run.2 = checked w ++ [Py.lower (Py.strip d)].
Proof.
  cbv zeta. rewrite (main_run_valid dns validate_domain a w Hvalid), Hd.
  rewrite run_bind, run_ret. cbv beta iota.
  rewrite (cleanup_domains_list_one d Hs). rewrite run_bind.
  set (single := Checker.process_single_domain _ _ _ _ _ _ _).
  assert (checked single.2 = checked w ++ [Py.lower (Py.strip d)]) as Hchecked.
  { subst single. rewrite process_single_domain_checked. f_equal.
    unfold after_output_path. destruct (given (Args.output_path a)); [| done].
    by destruct (bool_decide _). }
  destruct (process_single_domain_ends dns (Py.lower (Py.strip d))
              (Checker.parse_selectors (Args.selector a) (Args.selectors a))
              (Args.timeout a) (append_mode a) (Args.auto_discover_dkim a)
              (after_output_path a w)) as [E | E]; fold single in E.
  - destruct single as [[[] | e | c] w']; try done. split_and!; [done | by left | done].
  - destruct single as [[[] | e | c] w']; try done. injection E as ->.
    split_and!; [done | by right | done].
Qed.

Lemma main_single_domain_witness :
  let a := args_of_domain " Example.COM " in
  let w := Config.at_import ∅ ∅ ∅ ∅ in
  checked (Checker.main (always timed_out_result) accepts_all a w).2 = ["example.com"].
Proof.
  cbv zeta.
  assert (valid_arguments accepts_all (args_of_domain " Example.COM ")
            (Config.at_import ∅ ∅ ∅ ∅)) as Hvalid.
  { split; [done |]. intros f Hf. discriminate Hf. }
  assert (Py.strip " Example.COM " ≠ "") as Hs by discriminate.
  exact (proj2 (proj2 (main_single_domain (always timed_out_result) accepts_all
                         (args_of_domain " Example.COM ") (Config.at_import ∅ ∅ ∅ ∅)
                         " Example.COM " Hvalid eq_refl Hs))).
Defined.

(** X22.  With valid arguments but no domain to check, neither [--domain]
    nor [--domains_file] being given or the domain being blank, [main] still
    deals with [--output_path], then prints [No valid domains to check] and
    exits with status 1: no domain is checked and no CSV file is touched. *)
Theorem main_nothing_to_check
    (dns : list string → string → option (list string) → Z → bool → check_reply)
    (validate_domain : string → bool) (a : Args.t) (w : world)
    (Hvalid : valid_arguments validate_domain a w)
    (Hnone : given (Args.domain a) = None ∧ given (Args.domains_file a) = None
             ∨ ∃ d, given (Args.domain a) = Some d ∧ Py.strip d = "") :
  let run := Checker.main dns validate_domain a w in
  run = (SysExit 1, printed print_error_p "No valid domains to check" (after_output_path a w))
  ∧ checked run.2 = checked w
  ∧ csv_files run.2 = csv_files w.
Proof.
  cbv zeta. rewrite (main_run_valid dns validate_domain a w Hvalid).
  assert (∀ w', checked (after_output_path a w') = checked w'
                ∧ csv_files (after_output_path a w') = csv_files w') as Hafter.
  { intros w'. unfold after_output_path. destruct (given (Args.output_path a)); [| done].
    by destruct (bool_decide _). }
  destruct (Hafter w) as [Hc Hf].
  destruct Hnone as [[-> ->] | (d & -> & Hd)].
  - rewrite run_bind, run_ret. cbv beta iota. cbn [Helper.cleanup_domains_list].
    rewrite run_bind, print_error_run. done.
  - rewrite run_bind, run_ret. cbv beta iota.
    assert (Helper.cleanup_domains_list [d] = []) as ->.
    { unfold Helper.cleanup_domains_list. rewrite filter_cons, filter_nil, Hd.
      rewrite decide_False by done. reflexivity. }
    rewrite run_bind, print_error_run. done.
Qed.

Lemma main_nothing_to_check_witness :
  (Checker.main (always timed_out_result) accepts_all (args_of_domain " ")
     (Config.at_import ∅ ∅ ∅ ∅)).1 = SysExit 1.
Proof.
  assert (valid_arguments accepts_all (args_of_domain " ") (Config.at_import ∅ ∅ ∅ ∅))
    as Hvalid.
  { split; [done |]. intros f Hf. discriminate Hf. }
  assert (given (Args.domain (args_of_domain " ")) = None
          ∧ given (Args.domains_file (args_of_domain " ")) = None
          ∨ ∃ d, given (Args.domain (args_of_domain " ")) = Some d ∧ Py.strip d = "")
    as Hnone.
  { right. exists " ". split; reflexivity. }
  exact (f_equal fst (proj1 (main_nothing_to_check (always timed_out_result) accepts_all
                               (args_of_domain " ") (Config.at_import ∅ ∅ ∅ ∅)
                               Hvalid Hnone))).
Defined.

(** ** esdar-checker_v2.py: how [process_multiple_domains] ends *)

Section MultipleDomainsOutcome.
Context (dns : list string → string → option (list string) → Z → bool → check_reply).

Lemma has_records_b_spec (r : result) : has_records_b r = true ↔ has_records r.
Proof.
  unfold has_records_b, has_records. rewrite !andb_true_iff, !bool_decide_eq_true. tauto.
Qed.

Lemma later_later lines1 domains1 lines2 domains2 w :
  later lines2 domains2 (later lines1 domains1 w)
  = later (lines1 ++ lines2) (domains1 ++ domains2) w.
Proof. unfold later. cbn [terminal checked set_terminal set_checked]. by rewrite <- !app_assoc. Qed.

Lemma later_printed p m w : printed p m w = later [(p, m)] [] w.
Proof. unfold later, printed. cbn. rewrite app_nil_r. by destruct w. Qed.

Lemma later_checked d w : set_checked (checked w ++ [d]) w = later [] [d] w.
Proof. unfold later. cbn. rewrite app_nil_r. by destruct w. Qed.

Lemma call_emit_run {L} p m (l : L) w :
  call (Terminal.emit p m) (l, w) = (Ret tt, (l, printed p m w)).
Proof. reflexivity. Qed.

Lemma brief_line_run {L} (b : bool) p1 m1 p2 m2 (l : L) w :
  (if b then call (Terminal.emit p1 m1) else call (Terminal.emit p2 m2)) (l, w)
  = (Ret tt, (l, printed (if b then p1 else p2) (if b then m1 else m2) w)).
Proof. by destruct b. Qed.

Lemma brief_dkim_run {L} (b c : bool) p1 m1 p2 m2 p3 m3 (l : L) w :
  (if b then if c then call (Terminal.emit p1 m1) else call (Terminal.emit p2 m2)
   else call (Terminal.emit p3 m3)) (l, w)
  = (Ret tt, (l, printed (if b then if c then p1 else p2 else p3)
                   (if b then if c then m1 else m2 else m3) w)).
Proof. by destruct b, c. Qed.

Lemma check_and_summarise_run domain selectors timeout auto (l : Checker.locals) w r :
  dns (checked w) domain (Checker.or_None selectors) timeout auto = Returns r →
  has_records r →
  ∃ lines,
    Checker.check_and_summarise dns domain selectors timeout auto (l, w)
    = (Ret tt,
       (Checker.Locals (Checker.results l ++ [r]) (Checker.successful l + 1) (Checker.failed l),
        later lines [domain] w)).
Proof.
  intros Hdns ([mx Hmx] & [spf Hspf] & [dkim Hdkim] & [dmarc Hdmarc]).
  unfold Checker.check_and_summarise.
  unfold Terminal.print_found, Terminal.print_not_found, Terminal.print_partial.
  rewrite run_bind. unfold call at 1.
  rewrite (perform_complete_dns_check_run dns _ _ _ _ _ r) by exact Hdns. cbv beta iota.
  rewrite later_checked.
  do 4 (rewrite run_bind; cbn [get_locals set_locals]; cbv beta iota).
  cbn [Checker.results Checker.successful Checker.failed].
  rewrite run_bind, (getitem_run r "mx" mx) by done. cbv beta iota.
  rewrite run_bind, brief_line_run. cbv beta iota. rewrite later_printed, later_later.
  rewrite run_bind, (getitem_run r "spf" spf) by done. cbv beta iota.
  rewrite run_bind, brief_line_run. cbv beta iota. rewrite later_printed, later_later.
  rewrite run_bind, (getitem_run r "dkim" dkim) by done. cbv beta iota.
  rewrite run_bind, brief_dkim_run. cbv beta iota. rewrite later_printed, later_later.
  rewrite run_bind, (getitem_run r "dmarc" dmarc) by done. cbv beta iota.
  rewrite brief_line_run. rewrite later_printed, later_later.
  by eexists.
Qed.

Lemma check_and_summarise_raises domain selectors timeout auto (l : Checker.locals) w :
  (∀ r, dns (checked w) domain (Checker.or_None selectors) timeout auto = Returns r →
        ¬ has_records r) →
  ∃ e l' lines,
    Checker.check_and_summarise dns domain selectors timeout auto (l, w)
    = (Raise e, (l', later lines [domain] w)).
Proof.
  intros Hno.
  unfold Checker.check_and_summarise.
  unfold Terminal.print_found, Terminal.print_not_found, Terminal.print_partial.
  rewrite run_bind. unfold call at 1.
  destruct (dns (checked w) domain (Checker.or_None selectors) timeout auto) as [r | e] eqn:Hdns.
  2: { rewrite (perform_complete_dns_check_raises dns _ _ _ _ _ e) by exact Hdns.
       cbv beta iota. rewrite later_checked. by eexists _, _, _. }
  rewrite (perform_complete_dns_check_run dns _ _ _ _ _ r) by exact Hdns. cbv beta iota.
  rewrite later_checked. specialize (Hno r eq_refl).
  do 4 (rewrite run_bind; cbn [get_locals set_locals]; cbv beta iota).
  destruct (entries r !! "mx") as [mx|] eqn:Hmx.
  2: { rewrite run_bind, (getitem_run_missing r "mx") by done. by eexists _, _, _. }
  rewrite run_bind, (getitem_run r "mx" mx) by done. cbv beta iota.
  rewrite run_bind, brief_line_run. cbv beta iota. rewrite later_printed, later_later.
  destruct (entries r !! "spf") as [spf|] eqn:Hspf.
  2: { rewrite run_bind, (getitem_run_missing r "spf") by done. by eexists _, _, _. }
  rewrite run_bind, (getitem_run r "spf" spf) by done. cbv beta iota.
  rewrite run_bind, brief_line_run. cbv beta iota. rewrite later_printed, later_later.
  destruct (entries r !! "dkim") as [dkim|] eqn:Hdkim.
  2: { rewrite run_bind, (getitem_run_missing r "dkim") by done. by eexists _, _, _. }
  rewrite run_bind, (getitem_run r "dkim" dkim) by done. cbv beta iota.
  rewrite run_bind, brief_dkim_run. cbv beta iota. rewrite later_printed, later_later.
  destruct (entries r !! "dmarc") as [dmarc|] eqn:Hdmarc.
  2: { rewrite run_bind, (getitem_run_missing r "dmarc") by done. by eexists _, _, _. }
  exfalso. apply Hno. unfold has_records. rewrite Hmx, Hspf, Hdkim, Hdmarc. eauto.
Qed.

(** Each [except] clause of the loop ends the process at its first
    statement. *)
Lemma on_exception_run domain append skip_errors e (l : Checker.locals) w :
  ∃ h l' m,
    Checker.on_exception domain append skip_errors e = Some h
    ∧ h (l, w) = (SysExit 1, (l', printed print_error_p m w)).
Proof.
  destruct e; (eexists _, _, _; split; [reflexivity |]).
  - rewrite run_bind, call_print_error_run. done.
  - rewrite run_bind. cbn [get_locals]. cbv beta iota.
    rewrite run_bind. cbn [set_locals]. cbv beta iota.
    rewrite run_bind, call_print_error_run. done.
  - rewrite run_bind. cbn [get_locals]. cbv beta iota.
    rewrite run_bind. cbn [set_locals]. cbv beta iota.
    rewrite run_bind, call_print_error_run. done.
Qed.

Lemma try_check_fails domain selectors timeout append skip_errors auto (l : Checker.locals) w :
  (∀ r, dns (checked w) domain (Checker.or_None selectors) timeout auto = Returns r →
        ¬ has_records r) →
  ∃ l' lines m,
    try_except (Checker.check_and_summarise dns domain selectors timeout auto)
      (Checker.on_exception domain append skip_errors) (l, w)
    = (SysExit 1, (l', later (lines ++ [(print_error_p, m)]) [domain] w)).
Proof.
  intros Hno.
  destruct (check_and_summarise_raises domain selectors timeout auto l w Hno)
    as (e & l1 & lines & E).
  unfold try_except. rewrite E.
  destruct (on_exception_run domain append skip_errors e l1 (later lines [domain] w))
    as (h & l' & m & -> & ->).
  exists l', lines, m. rewrite later_printed, later_later. by rewrite app_nil_r.
Qed.

Lemma try_check_answered domain selectors timeout append skip_errors auto
    (l : Checker.locals) w r :
  dns (checked w) domain (Checker.or_None selectors) timeout auto = Returns r →
  has_records r →
  ∃ lines,
    try_except (Checker.check_and_summarise dns domain selectors timeout auto)
      (Checker.on_exception domain append skip_errors) (l, w)
    = (Ret tt,
       (Checker.Locals (Checker.results l ++ [r]) (Checker.successful l + 1) (Checker.failed l),
        later lines [domain] w)).
Proof.
  intros Hdns Hrec.
  destruct (check_and_summarise_run domain selectors timeout auto l w r Hdns Hrec)
    as [lines E].
  exists lines. unfold try_except. by rewrite E.
Qed.

Lemma checked_later_nil lines w : checked (later lines [] w) = checked w.
Proof. unfold later. cbn. apply app_nil_r. Qed.

(** The loop, when the engine answers for every domain. *)
Lemma check_each_answered rest :
  ∀ i total selectors timeout append skip_errors auto (l : Checker.locals) w rs,
    answers dns (Checker.or_None selectors) timeout auto (checked w) rest = Some rs →
    ∃ lines,
      Checker.check_each dns i total rest selectors timeout append skip_errors auto (l, w)
      = (Ret tt,
         (Checker.Locals (Checker.results l ++ rs) (Checker.successful l + length rs)
            (Checker.failed l),
          later lines rest w)).
Proof.
  induction rest as [|d rest IH]; intros i total selectors timeout append skip_errors auto l w rs.
  - intros [= <-]. exists []. cbn [Checker.check_each]. rewrite run_ret.
    unfold later. cbn [length]. rewrite !app_nil_r, Nat.add_0_r.
    f_equal. f_equal; [by destruct l | by destruct w].
  - cbn [answers]. intros Hans.
    destruct (dns (checked w) d (Checker.or_None selectors) timeout auto) as [r | e] eqn:Hdns;
      [| done].
    destruct (has_records_b r) eqn:Hrec; [| done]. apply has_records_b_spec in Hrec.
    destruct (answers dns _ _ _ (checked w ++ [d]) rest) as [rs'|] eqn:Hrest; [| done].
    injection Hans as <-.
    cbn [Checker.check_each]. unfold Terminal.print.
    rewrite run_bind, call_emit_run. cbv beta iota. rewrite later_printed.
    rewrite run_bind.
    destruct (try_check_answered d selectors timeout append skip_errors auto l
                (later [(print_p, Checker.nl +:+ "[" +:+ Py.str_of_nat i +:+ "/" +:+
                           Py.str_of_nat total +:+ "] Checking: " +:+ d)] [] w) r)
      as [lines ->]; [by rewrite checked_later_nil | done |].
    cbv beta iota. rewrite later_later. cbn [app].
    destruct (IH (S i) total selectors timeout append skip_errors auto
                (Checker.Locals (Checker.results l ++ [r]) (Checker.successful l + 1)
                   (Checker.failed l))
                (later ((print_p, Checker.nl +:+ "[" +:+ Py.str_of_nat i +:+ "/" +:+
                           Py.str_of_nat total +:+ "] Checking: " +:+ d) :: lines) [d] w) rs')
      as [lines' ->]; [exact Hrest |].
    eexists. rewrite later_later.
    cbn [Checker.results Checker.successful Checker.failed length app].
    rewrite <- app_assoc. cbn [app]. do 3 f_equal. lia.
Qed.

(** The loop, when the engine fails on a domain: the process exits there,
    after an error line. *)
Lemma check_each_fails rest :
  ∀ i total selectors timeout append skip_errors auto (l : Checker.locals) w,
    answers dns (Checker.or_None selectors) timeout auto (checked w) rest = None →
    ∃ l' lines m k,
      Checker.check_each dns i total rest selectors timeout append skip_errors auto (l, w)
      = (SysExit 1, (l', later (lines ++ [(print_error_p, m)]) (take (S k) rest) w)).
Proof.
  induction rest as [|d rest IH]; intros i total selectors timeout append skip_errors auto l w;
    [done |].
  cbn [answers]. intros Hans.
  cbn [Checker.check_each]. unfold Terminal.print.
  rewrite run_bind, call_emit_run. cbv beta iota. rewrite later_printed.
  rewrite run_bind.
  set (line := (print_p, Checker.nl +:+ "[" +:+ Py.str_of_nat i +:+ "/" +:+
                         Py.str_of_nat total +:+ "] Checking: " +:+ d)).
  assert (∀ r, dns (checked w) d (Checker.or_None selectors) timeout auto = Returns r →
               has_records r →
               answers dns (Checker.or_None selectors) timeout auto (checked w ++ [d]) rest
               = None) as Hrest.
  { intros r Hdns Hrec%has_records_b_spec. rewrite Hdns, Hrec in Hans.
    by destruct (answers dns _ _ _ (checked w ++ [d]) rest). }
  destruct (dns (checked w) d (Checker.or_None selectors) timeout auto) as [r | e] eqn:Hdns.
  - destruct (has_records_b r) eqn:Hrec.
    + apply has_records_b_spec in Hrec.
      destruct (try_check_answered d selectors timeout append skip_errors auto l
                  (later [line] [] w) r) as [lines ->];
        [by rewrite checked_later_nil | done |].
      cbv beta iota. rewrite later_later. cbn [app].
      destruct (IH (S i) total selectors timeout append skip_errors auto
                  (Checker.Locals (Checker.results l ++ [r]) (Checker.successful l + 1)
                     (Checker.failed l))
                  (later (line :: lines) [d] w)) as (l' & lines' & m & k & ->).
      { by apply (Hrest r). }
      exists l', (line :: lines ++ lines'), m, (S k).
      rewrite later_later. cbn [app]. rewrite <- !app_assoc.
      by rewrite (firstn_cons (S k) d rest).
    + destruct (try_check_fails d selectors timeout append skip_errors auto l
                  (later [line] [] w)) as (l' & lines & m & ->).
      { intros r'. rewrite checked_later_nil, Hdns. intros [= <-] Hr%has_records_b_spec.
        congruence. }
      exists l', (line :: lines), m, 0. rewrite later_later. cbn [app take]. by destruct rest.
  - destruct (try_check_fails d selectors timeout append skip_errors auto l
                (later [line] [] w)) as (l' & lines & m & ->).
    { intros r'. by rewrite checked_later_nil, Hdns. }
    exists l', (line :: lines), m, 0. rewrite later_later. cbn [app take]. by destruct rest.
Qed.

Lemma answers_length selectors timeout auto seen domains rs :
  answers dns selectors timeout auto seen domains = Some rs → length rs = length domains.
Proof.
  revert seen rs. induction domains as [|d ds IH]; intros seen rs; cbn [answers].
  - by intros [= <-].
  - destruct (dns seen d selectors timeout auto) as [r | e]; [| done].
    destruct (has_records_b r); [| done].
    destruct (answers dns selectors timeout auto (seen ++ [d]) ds) as [rs'|] eqn:E; [| done].
    intros [= <-]. cbn [length]. f_equal. by apply (IH (seen ++ [d])).
Qed.

(** [process_multiple_domains] up to the end of its loop. *)
Lemma process_multiple_domains_loop domains selectors timeout append skip_errors auto
    (l0 : Checker.locals) w :
  ∃ pre,
    Checker.process_multiple_domains dns domains selectors timeout append skip_errors auto
      (l0, w)
    = (Checker.check_each dns 1 (length domains) domains selectors timeout append skip_errors
         auto ;;
       l ← get_locals;
       match Checker.results l with
       | _ :: _ =>
           call (Terminal.print (Checker.nl +:+ Checker.rule)) ;;
           call (Terminal.print_info
                   ("Writing " +:+ Py.str_of_nat (length (Checker.results l)) +:+
                    " result(s) to CSV...")) ;;
           written ← call (CsvHelper.write_results_to_csv (Checker.results l) append);
           if (written : bool)
           then call (Terminal.print_success
                        ("✓ Successfully processed " +:+
                         Py.str_of_nat (Checker.successful l) +:+ " domain(s)")) ;;
                if (0 <? Checker.failed l)%nat
                then call (Terminal.print_warning
                             ("⚠ " +:+ Py.str_of_nat (Checker.failed l) +:+ " domain(s) failed"))
                else mret tt
           else call (Terminal.print_error "Failed to write results to CSV")
       | [] => call (Terminal.print_error "No results to write")
       end) (Checker.Locals [] 0 0, later pre [] w).
Proof.
  unfold Checker.process_multiple_domains. unfold Terminal.print.
  do 2 (rewrite run_bind, call_emit_run; cbv beta iota; rewrite later_printed).
  rewrite later_later.
  rewrite run_bind. unfold call at 1.
  match goal with
  | |- context [Checker.announce_dkim selectors auto ?s] =>
      destruct (announce_dkim_run selectors auto s) as [info ->]
  end.
  cbv beta iota. rewrite later_printed, later_later.
  rewrite run_bind, call_emit_run; cbv beta iota; rewrite later_printed, later_later.
  rewrite run_bind. cbn [set_locals]. cbv beta iota.
  by eexists.
Qed.

(** The run when the engine answers for every domain: the write decides. *)
Lemma process_multiple_domains_answered domains selectors timeout append skip_errors auto w
    r rs :
  answers dns (Checker.or_None selectors) timeout auto (checked w) domains = Some (r :: rs) →
  ∃ lines,
    Checker.run_with_locals
      (Checker.process_multiple_domains dns domains selectors timeout append skip_errors auto) w
    = match CsvHelper.write_results_to_csv (r :: rs) append (later lines domains w) with
      | (Ret _, w') =>
          (Ret tt,
           printed print_success_p
             ("✓ Successfully processed " +:+ Py.str_of_nat (length domains) +:+ " domain(s)")
             w')
      | (Raise e, w') => (Raise e, w')
      | (SysExit c, w') => (SysExit c, w')
      end.
Proof.
  intros Hans. unfold Checker.run_with_locals.
  destruct (process_multiple_domains_loop domains selectors timeout append skip_errors auto
              (Checker.Locals [] 0 0) w) as [pre ->].
  rewrite run_bind.
  destruct (check_each_answered domains 1 (length domains) selectors timeout append
              skip_errors auto (Checker.Locals [] 0 0) (later pre [] w) (r :: rs))
    as [lines ->]; [by rewrite checked_later_nil |].
  cbv beta iota. rewrite later_later.
  cbn [Checker.results Checker.successful Checker.failed app Nat.add].
  rewrite (answers_length _ _ _ _ _ _ Hans).
  rewrite run_bind. cbn [get_locals]. cbv beta iota.
  cbn [Checker.results Checker.successful Checker.failed].
  unfold Terminal.print, Terminal.print_info, Terminal.print_success.
  do 2 (rewrite run_bind, call_emit_run; cbv beta iota; rewrite later_printed, later_later).
  rewrite run_bind. unfold call at 1.
  exists ((pre ++ lines) ++ [(print_p, Checker.nl +:+ Checker.rule)]
          ++ [(print_info_p, "Writing " +:+ Py.str_of_nat (length (r :: rs)) +:+
                             " result(s) to CSV...")]).
  rewrite !app_nil_r, <- !app_assoc.
  rewrite !write_results_to_csv_run. cbv zeta.
  destruct (negb _); [done |].
  destruct (bool_decide _); [done |].
  destruct (bool_decide _); [done |].
  rewrite run_bind, call_emit_run. done.
Qed.

(** The run when the engine fails on a domain: the first domain, at
    least, has been checked. *)
Lemma process_multiple_domains_fails_first domains selectors timeout append skip_errors auto w :
  answers dns (Checker.or_None selectors) timeout auto (checked w) domains = None →
  ∃ lines m k,
    Checker.run_with_locals
      (Checker.process_multiple_domains dns domains selectors timeout append skip_errors auto) w
    = (SysExit 1, later (lines ++ [(print_error_p, m)]) (take (S k) domains) w).
Proof.
  intros Hans. unfold Checker.run_with_locals.
  destruct (process_multiple_domains_loop domains selectors timeout append skip_errors auto
              (Checker.Locals [] 0 0) w) as [pre ->].
  rewrite run_bind.
  destruct (check_each_fails domains 1 (length domains) selectors timeout append
              skip_errors auto (Checker.Locals [] 0 0) (later pre [] w))
    as (l' & lines & m & k & ->); [by rewrite checked_later_nil |].
  rewrite later_later. exists (pre ++ lines), m, k. by rewrite <- app_assoc.
Qed.

(** The run when the engine fails on a domain, or when there is no domain. *)
Lemma process_multiple_domains_fails domains selectors timeout append skip_errors auto w :
  answers dns (Checker.or_None selectors) timeout auto (checked w) domains = None
  ∨ domains = [] →
  ∃ lines m k,
    Checker.run_with_locals
      (Checker.process_multiple_domains dns domains selectors timeout append skip_errors auto) w
    = (SysExit 1, later (lines ++ [(print_error_p, m)]) (take k domains) w).
Proof.
  intros Hans. unfold Checker.run_with_locals.
  destruct (process_multiple_domains_loop domains selectors timeout append skip_errors auto
              (Checker.Locals [] 0 0) w) as [pre ->].
  rewrite run_bind.
  destruct Hans as [Hans | ->].
  - destruct (check_each_fails domains 1 (length domains) selectors timeout append
                skip_errors auto (Checker.Locals [] 0 0) (later pre [] w))
      as (l' & lines & m & k & ->); [by rewrite checked_later_nil |].
    rewrite later_later. exists (pre ++ lines), m, (S k). by rewrite <- app_assoc.
  - cbn [Checker.check_each]. rewrite run_ret. cbv beta iota.
    rewrite run_bind. cbn [get_locals]. cbv beta iota. cbn [Checker.results].
    rewrite call_print_error_run, later_printed, later_later.
    by exists pre, "No results to write", 0.
Qed.

End MultipleDomainsOutcome.

(** X17.  [process_multiple_domains] is all or nothing.  It returns
    exactly when the list of domains is not empty, the engine answers for
    every domain, in order, with a result that has its four records, and the
    output file can be written.  Then every domain is checked, the file holds
    what [write_results_to_csv] puts there for the results in the order of
    the domains, and the last line printed reports as many successes as there
    are domains.  In every other case the process exits with status 1 after an
    error line, the domains checked being the first of the list, and no CSV
    file has changed: the results collected before a failure are not
    written. *)
Theorem process_multiple_domains_outcome
    (dns : list string → string → option (list string) → Z → bool → check_reply)
    (domains selectors : list string) (timeout : Z) (append skip_errors auto : bool)
    (w : world) :
  let run :=
    Checker.run_with_locals
      (Checker.process_multiple_domains dns domains selectors timeout append skip_errors auto)
      w in
  let answered := answers dns (Checker.or_None selectors) timeout auto (checked w) domains in
  (run.1 = Ret tt ∨ run.1 = SysExit 1)
  ∧ (run.1 = Ret tt ↔ domains ≠ [] ∧ is_Some answered ∧ writable w)
  ∧ (∀ rs, run.1 = Ret tt → answered = Some rs →
       length rs = length domains
       ∧ checked run.2 = checked w ++ domains
       ∧ csv_files run.2
         = <[output_filepath w := kept append w ++ header_rows append w
                                  ++ map CsvHelper.row_of rs]> (csv_files w)
       ∧ last (terminal run.2)
         = Some (print_success_p,
                 "✓ Successfully processed " +:+ Py.str_of_nat (length domains)
                 +:+ " domain(s)"))
  ∧ (run.1 = SysExit 1 →
       csv_files run.2 = csv_files w
       ∧ ends_with_error run.2
       ∧ ∃ k, checked run.2 = checked w ++ take k domains).
Proof.
  cbv zeta.
  destruct (answers dns (Checker.or_None selectors) timeout auto (checked w) domains)
    as [[|r rs]|] eqn:Hans.
  - (* no domain *)
    assert (domains = []) as ->.
    { apply answers_length in Hans. by destruct domains. }
    destruct (process_multiple_domains_fails dns [] selectors timeout append skip_errors auto w)
      as (lines & m & k & ->); [by right |].
    split_and!; [by right | | done |].
    + split; [done | by intros [? _]].
    + intros _. split_and!; [done | | by exists k].
      exists m. unfold later. cbn [snd terminal set_terminal]. by rewrite !app_assoc, last_snoc.
  - (* every domain answered *)
    pose proof (answers_length _ _ _ _ _ _ _ Hans) as Hlen.
    assert (domains ≠ []) as Hne by (by destruct domains).
    destruct (process_multiple_domains_answered dns domains selectors timeout append
                skip_errors auto w r rs Hans) as [lines ->].
    set (w1 := later lines domains w).
    rewrite write_results_to_csv_run. cbv zeta.
    change (output_filepath w1) with (output_filepath w).
    change (denied w1) with (denied w).
    change (kept append w1) with (kept append w).
    change (header_rows append w1) with (header_rows append w).
    unfold writable.
    destruct (Py.truthy (Py.dirname (output_filepath w))) eqn:Hd; cbn [negb].
    2: { split_and!; [by right | | done |].
         - split; [done | by intros (_ & _ & ? & _)].
         - intros _. split_and!; [done | apply ends_with_error_printed |].
           exists (length domains). by rewrite firstn_all. }
    destruct (bool_decide (Py.dirname (output_filepath w) ∈ denied w)) eqn:Hdir.
    { apply bool_decide_eq_true in Hdir.
      split_and!; [by right | | done |].
      - split; [done | by intros (_ & _ & _ & ? & _)].
      - intros _. split_and!; [done | apply ends_with_error_printed |].
        exists (length domains). by rewrite firstn_all. }
    apply bool_decide_eq_false in Hdir.
    destruct (bool_decide (output_filepath w ∈ denied w)) eqn:Hfile.
    { apply bool_decide_eq_true in Hfile.
      split_and!; [by right | | done |].
      - split; [done | by intros (_ & _ & _ & _ & ?)].
      - intros _. split_and!; [done | apply ends_with_error_printed |].
        exists (length domains). by rewrite firstn_all. }
    apply bool_decide_eq_false in Hfile.
    split_and!; [by left | | | done].
    + split; [| done]. intros _. split_and!; [done | by eexists | done..].
    + intros rs' _ [= <-]. split_and!; [done | done | done |].
      unfold printed. cbn [snd terminal set_terminal]. apply last_snoc.
  - (* the engine fails on a domain *)
    destruct (process_multiple_domains_fails dns domains selectors timeout append skip_errors
                auto w) as (lines & m & k & ->); [by left |].
    split_and!; [by right | | done |].
    + split; [done | by intros (_ & [? ?] & _)].
    + intros _. split_and!; [done | | by exists k].
      exists m. unfold later. cbn [snd terminal set_terminal]. by rewrite !app_assoc, last_snoc.
Qed.

(** ** esdar-checker_v2.py: [--skip_errors] *)

Section SkipErrors.
Context (dns : list string → string → option (list string) → Z → bool → check_reply).

Lemma bind_ext {S A B} (m m' : M S A) (k k' : A → M S B) (s : S) :
  m s = m' s → (∀ a s', k a s' = k' a s') → (m ≫= k) s = (m' ≫= k') s.
Proof.
  intros Hm Hk. rewrite !run_bind, Hm. by destruct (m' s) as [[] ?].
Qed.

Lemma try_skip_errors domain selectors timeout append auto s :
  try_except (Checker.check_and_summarise dns domain selectors timeout auto)
    (Checker.on_exception domain append true) s
  = try_except (Checker.check_and_summarise dns domain selectors timeout auto)
      (Checker.on_exception domain append false) s.
Proof.
  unfold try_except.
  destruct (Checker.check_and_summarise dns domain selectors timeout auto s)
    as [[a | e | c] [l w]]; [done | | done].
  by destruct e.
Qed.

Lemma check_each_skip_errors rest :
  ∀ i total selectors timeout append auto s,
    Checker.check_each dns i total rest selectors timeout append true auto s
    = Checker.check_each dns i total rest selectors timeout append false auto s.
Proof.
  induction rest as [|d rest IH]; intros i total selectors timeout append auto s; [done |].
  cbn [Checker.check_each].
  apply bind_ext; [done | intros _ s1].
  apply bind_ext; [apply try_skip_errors | intros _ s2]. apply IH.
Qed.

Lemma process_multiple_domains_skip_errors domains selectors timeout append auto s :
  Checker.process_multiple_domains dns domains selectors timeout append true auto s
  = Checker.process_multiple_domains dns domains selectors timeout append false auto s.
Proof.
  unfold Checker.process_multiple_domains.
  do 5 (apply bind_ext; [done | intros _ ?]).
  apply bind_ext; [apply check_each_skip_errors | done].
Qed.

End SkipErrors.

(** X18.  [--skip_errors] changes nothing.  The first statement of the
    [except] clause is a call of [print_error], which ends the process before
    the flag is looked at: a run of [process_multiple_domains], and so a run
    of [main], ends the same way, in the same state, with the flag and
    without it. *)
Theorem skip_errors_has_no_effect
    (dns : list string → string → option (list string) → Z → bool → check_reply) :
  (∀ domains selectors timeout append auto s,
     Checker.process_multiple_domains dns domains selectors timeout append true auto s
     = Checker.process_multiple_domains dns domains selectors timeout append false auto s)
  ∧ (∀ validate_domain a w,
       Checker.main dns validate_domain (with_skip_errors true a) w
       = Checker.main dns validate_domain (with_skip_errors false a) w).
Proof.
  split; [apply process_multiple_domains_skip_errors |].
  intros validate_domain a w. unfold Checker.main.
  apply bind_ext; [done | intros _ s1].
  apply bind_ext; [done | intros _ s2].
  apply bind_ext; [done | intros domains s3].
  cbn [Args.skip_errors Args.selector Args.selectors Args.timeout Args.append
         Args.auto_discover_dkim with_skip_errors].
  destruct (Helper.cleanup_domains_list domains) as [|d1 [|d2 ds]]; [done | done |].
  unfold Checker.run_with_locals. by rewrite process_multiple_domains_skip_errors.
Qed.

(** ** esdar-checker_v2.py: what a run of [main] that returns has done *)

Section MainReturns.
Context (dns : list string → string → option (list string) → Z → bool → check_reply).
Context (validate_domain : string → bool).

Lemma valid_arguments_or_not (a : Args.t) (w : world) :
  valid_arguments validate_domain a w ∨ ¬ valid_arguments validate_domain a w.
Proof.
  unfold valid_arguments.
  destruct (given (Args.domain a)) as [d|] eqn:Hd.
  - destruct (validate_domain d) eqn:Hv.
    + destruct (given (Args.domains_file a)) as [f|] eqn:Hf.
      * destruct (bool_decide (is_Some (csv_files w !! f))
                  || bool_decide (is_Some (inputs w !! f))) eqn:Hfile.
        -- left. split; [by intros ? [= <-] | intros ? [= <-]; by apply isfile_is_file].
        -- right. intros [_ H]. specialize (H f eq_refl). apply isfile_is_file in H. congruence.
      * left. split; [by intros ? [= <-] | done].
    + right. intros [H _]. specialize (H d eq_refl). congruence.
  - destruct (given (Args.domains_file a)) as [f|] eqn:Hf.
    + destruct (bool_decide (is_Some (csv_files w !! f))
                || bool_decide (is_Some (inputs w !! f))) eqn:Hfile.
      * left. split; [done | intros ? [= <-]; by apply isfile_is_file].
      * right. intros [_ H]. specialize (H f eq_refl). apply isfile_is_file in H. congruence.
    + left. by split.
Qed.

(** A write that returns has left rows in the output file. *)
Lemma write_results_to_csv_returns results append w b :
  (CsvHelper.write_results_to_csv results append w).1 = Ret b →
  results = [] ∧ b = false
  ∨ b = true
    ∧ ∃ rows, csv_files (CsvHelper.write_results_to_csv results append w).2
                !! output_filepath w = Some rows
              ∧ rows ≠ [].
Proof.
  destruct results as [|r rs].
  - intros [= <-]. by left.
  - rewrite write_results_to_csv_run. cbv zeta.
    destruct (negb _); [done |].
    destruct (bool_decide _); [done |].
    destruct (bool_decide _); [done |].
    intros [= <-]. right. split; [done |]. eexists. split.
    + cbn [snd csv_files printed set_terminal set_csv_files]. apply lookup_insert_eq.
    + cbn [map]. intros E. apply (f_equal length) in E. rewrite !length_app in E.
      cbn [length] in E. lia.
Qed.

Lemma process_single_domain_returns domain selectors timeout append auto w :
  (Checker.process_single_domain dns domain selectors timeout append auto w).1 = Ret true →
  ∃ rows,
    csv_files (Checker.process_single_domain dns domain selectors timeout append auto w).2
      !! output_filepath w = Some rows
    ∧ rows ≠ [].
Proof.
  destruct (dns (checked w) domain (Checker.or_None selectors) timeout auto)
    as [r | e] eqn:Hdns.
  - assert (Decision (has_records r)) as Hdec by (unfold has_records; apply _).
    destruct Hdec as [Hrec | Hrec].
    + destruct (process_single_domain_answered dns domain selectors timeout append auto w r
                  Hdns Hrec) as [lines ->].
      intros [[? [=]] | [_ H]]%write_results_to_csv_returns. exact H.
    + destruct (process_single_domain_fails dns domain selectors timeout append auto w)
        as (lines & m & ->); [| done].
      intros r' E. rewrite Hdns in E. by injection E as <-.
  - destruct (process_single_domain_fails dns domain selectors timeout append auto w)
      as (lines & m & ->); [| done].
    intros r' E. by rewrite Hdns in E.
Qed.

Lemma process_multiple_domains_returns domains selectors timeout append skip_errors auto w :
  (Checker.run_with_locals
     (Checker.process_multiple_domains dns domains selectors timeout append skip_errors auto)
     w).1 = Ret tt →
  checked (Checker.run_with_locals
             (Checker.process_multiple_domains dns domains selectors timeout append
                skip_errors auto) w).2
  = checked w ++ domains
  ∧ ∃ rows,
      csv_files (Checker.run_with_locals
                   (Checker.process_multiple_domains dns domains selectors timeout append
                      skip_errors auto) w).2
        !! output_filepath w = Some rows
      ∧ rows ≠ [].
Proof.
  destruct (answers dns (Checker.or_None selectors) timeout auto (checked w) domains)
    as [[|r rs]|] eqn:Hans.
  - assert (domains = []) as ->.
    { apply answers_length in Hans. by destruct domains. }
    destruct (process_multiple_domains_fails dns [] selectors timeout append skip_errors auto w)
      as (lines & m & k & ->); [by right | done].
  - destruct (process_multiple_domains_answered dns domains selectors timeout append
                skip_errors auto w r rs Hans) as [lines ->].
    pose proof (write_results_to_csv_returns (r :: rs) append (later lines domains w)) as Hw.
    pose proof (write_results_to_csv_keeps_checked (r :: rs) append (later lines domains w))
      as Hc.
    destruct (CsvHelper.write_results_to_csv (r :: rs) append (later lines domains w))
      as [[b | e | c] w']; [| done | done].
    intros _. destruct (Hw b eq_refl) as [[[=] _] | [_ H]].
    split; [exact Hc | exact H].
  - destruct (process_multiple_domains_fails dns domains selectors timeout append skip_errors
                auto w) as (lines & m & k & ->); [by left | done].
Qed.

(** The domains [main] gets from its arguments: getting them prints
    nothing, unless the process exits there. *)
Lemma main_domains_run (a : Args.t) (w : world) domains w' :
  (match given (Args.domain a) with
   | Some d => mret [d]
   | None =>
       match given (Args.domains_file a) with
       | Some f =>
           domains ← CsvHelper.read_domains_from_file f;
           match domains with
           | [] => Terminal.print_error "No valid domains found in file" ;; sys_exit 1
           | _ => mret domains
           end
       | None => mret []
       end
   end) w = (Ret domains, w') → w' = w.
Proof.
  destruct (given (Args.domain a)) as [d|]; [by intros [= _ <-] |].
  destruct (given (Args.domains_file a)) as [f|]; [| by intros [= _ <-]].
  rewrite run_bind. unfold CsvHelper.read_domains_from_file.
  rewrite run_bind, isfile_run. cbv beta iota.
  destruct (negb _).
  { rewrite run_bind, print_error_run. done. }
  rewrite run_bind. cbn [get_state]. cbv beta iota.
  assert (∀ ds : list string,
            match ds with
            | [] => Terminal.print_error "No valid domains found in file" ;; sys_exit 1
            | _ => mret ds
            end w = (Ret domains, w') → w' = w) as Hlist.
  { intros [|x ds]; [| by intros [= _ <-]]. by rewrite run_bind, print_error_run. }
  destruct (inputs w !! f) as [[ds | msg]|].
  - rewrite run_ret. apply Hlist.
  - by rewrite run_bind, print_error_run.
  - destruct (_ && _); rewrite run_ret; apply Hlist.
Qed.

Lemma process_single_domain_keeps_path domain selectors timeout append auto w :
  RELATIVE_FILE_PATH (Checker.process_single_domain dns domain selectors timeout append auto w).2
  = RELATIVE_FILE_PATH w.
Proof.
  apply (process_single_domain_respects (keeps RELATIVE_FILE_PATH)); keeps_side.
Qed.

Lemma process_multiple_domains_keeps_path domains selectors timeout append skip_errors auto w :
  RELATIVE_FILE_PATH
    (Checker.run_with_locals
       (Checker.process_multiple_domains dns domains selectors timeout append skip_errors auto)
       w).2
  = RELATIVE_FILE_PATH w.
Proof.
  apply (run_with_locals_respects (keeps RELATIVE_FILE_PATH)).
  apply process_multiple_domains_respects; keeps_side.
Qed.

Lemma checked_after_output_path a w : checked (after_output_path a w) = checked w.
Proof.
  unfold after_output_path. destruct (given (Args.output_path a)); [| done].
  by destruct (bool_decide _).
Qed.

End MainReturns.

(** X19.  A run of [main] that returns has done its work: the arguments
    were valid, every domain of a cleaned-up list that is not empty has been
    checked, in the order of that list, and the output file, at the path in
    force when [main] ends, holds rows.  In every other case [main] does not
    return. *)
Theorem main_returns
    (dns : list string → string → option (list string) → Z → bool → check_reply)
    (validate_domain : string → bool) (a : Args.t) (w : world)
    (Hret : (Checker.main dns validate_domain a w).1 = Ret tt) :
  let run := Checker.main dns validate_domain a w in
  valid_arguments validate_domain a w
  ∧ (∃ ds, Helper.cleanup_domains_list ds ≠ []
           ∧ checked run.2 = checked w ++ Helper.cleanup_domains_list ds)
  ∧ (∃ rows, csv_files run.2 !! output_filepath run.2 = Some rows ∧ rows ≠ []).
Proof.
  cbv zeta.
  destruct (valid_arguments_or_not validate_domain a w) as [Hv | Hbad].
  2: { exfalso. revert Hret. unfold Checker.main. rewrite run_bind.
       by destruct (validate_args_invalid validate_domain a w Hbad) as [lines ->]. }
  split; [done |].
  revert Hret. rewrite (main_run_valid dns validate_domain a w Hv).
  set (w1 := after_output_path a w).
  rewrite run_bind.
  match goal with
  | |- context [match ?m w1 with _ => _ end] =>
      pose proof (main_domains_run a w1) as Hget; destruct (m w1) as [[ds | e | c] w2]
  end; [| done | done].
  rewrite (Hget ds w2 eq_refl). clear Hget w2.
  destruct (Helper.cleanup_domains_list ds) as [|d1 [|d2 rest]] eqn:Hclean.
  - by rewrite run_bind, print_error_run.
  - rewrite run_bind.
    pose proof (process_single_domain_returns dns d1
                  (Checker.parse_selectors (Args.selector a) (Args.selectors a))
                  (Args.timeout a) (append_mode a) (Args.auto_discover_dkim a) w1) as Hrows.
    pose proof (process_single_domain_keeps_path dns d1
                  (Checker.parse_selectors (Args.selector a) (Args.selectors a))
                  (Args.timeout a) (append_mode a) (Args.auto_discover_dkim a) w1) as Hpath.
    pose proof (process_single_domain_checked dns d1
                  (Checker.parse_selectors (Args.selector a) (Args.selectors a))
                  (Args.timeout a) (append_mode a) (Args.auto_discover_dkim a) w1) as Hchecked.
    destruct (Checker.process_single_domain dns d1 _ _ _ _ w1) as [[[] | e | c] w']; try done.
    cbv beta iota. cbn [negb]. rewrite run_ret. intros _. cbn [fst snd] in *. split.
    + exists ds. rewrite Hclean. split; [done |].
      rewrite Hchecked. unfold w1. by rewrite (checked_after_output_path a w).
    + unfold output_filepath in *. rewrite Hpath. by apply Hrows.
  - pose proof (process_multiple_domains_returns dns (d1 :: d2 :: rest)
                  (Checker.parse_selectors (Args.selector a) (Args.selectors a))
                  (Args.timeout a) (append_mode a) (Args.skip_errors a)
                  (Args.auto_discover_dkim a) w1) as Hrows.
    pose proof (process_multiple_domains_keeps_path dns (d1 :: d2 :: rest)
                  (Checker.parse_selectors (Args.selector a) (Args.selectors a))
                  (Args.timeout a) (append_mode a) (Args.skip_errors a)
                  (Args.auto_discover_dkim a) w1) as Hpath.
    intros Hret. destruct (Hrows Hret) as [Hchecked Hfile]. split.
    + exists ds. rewrite Hclean. split; [done |].
      rewrite Hchecked. unfold w1. by rewrite (checked_after_output_path a w).
    + unfold output_filepath in *. rewrite Hpath. exact Hfile.
Qed.

Lemma main_returns_witness :
  let run := Checker.main (always timed_out_result) accepts_all (args_of_domain "example.com")
               (Config.at_import ∅ ∅ ∅ ∅) in
  run.1 = Ret tt
  ∧ ∃ rows, csv_files run.2 !! output_filepath run.2 = Some rows ∧ rows ≠ [].
Proof.
  cbv zeta.
  assert ((Checker.main (always timed_out_result) accepts_all (args_of_domain "example.com")
             (Config.at_import ∅ ∅ ∅ ∅)).1 = Ret tt) as Hret by (vm_compute; reflexivity).
  split; [exact Hret |].
  exact (proj2 (proj2 (main_returns (always timed_out_result) accepts_all
                         (args_of_domain "example.com") (Config.at_import ∅ ∅ ∅ ∅) Hret))).
Defined.

(** ** esdar-checker_v2.py: the summary lines of [process_multiple_domains] *)

Section Summary.
Context (dns : list string → string → option (list string) → Z → bool → check_reply).

Lemma length_append (a b : string) :
  String.length (a +:+ b) = (String.length a + String.length b)%nat.
Proof.
  induction a as [|c a IH]; [by rewrite app_nil_l |].
  rewrite app_cons. cbn [String.length]. by rewrite IH.
Qed.


Lemma take_whole (s : string) :
  ∀ pending n, (Py.len_from pending s ≤ n)%nat → Py.take_from pending n s = s.
Proof.
  induction s as [|c r IH]; intros pending n; [done |].
  cbn [Py.take_from Py.len_from]. destruct (Py.continues pending c).
  - intros H. by rewrite IH.
  - destruct n as [|k]; [lia |]. intros H. rewrite IH; [done | lia].
Qed.













End Summary.

(** The dash of the engine's report counts once: the report is cut after
    its fiftieth character, and a value of 49 characters, the dash among
    them, is printed whole. *)
Example brief_counts_characters_ex :
  Py.len none_of_three = 67%nat
  ∧ Checker.brief "  DKIM: " none_of_three
    = "  DKIM: No DKIM record found — tested common selectors: de..."
  ∧ Checker.brief "  DKIM: " "No DKIM record found — tested common selectors: d"
    = "  DKIM: No DKIM record found — tested common selectors: d".
Proof. repeat split; vm_compute; reflexivity. Qed.



(** ** csv_helper.py: [read_domains_from_file] *)

(** X21.  [read_domains_from_file] never returns after an error: for a
    path that is no file it prints [File not found] and the process exits
    with status 1, and so it does for a file that cannot be read.  When it
    returns, the path is a file and nothing has been printed or changed.  The
    domains read from a file held as rows are stripped of white space and
    none is empty. *)
Theorem read_domains_from_file_outcome (filepath : string) (w : world) :
  let run := CsvHelper.read_domains_from_file filepath w in
  (¬ is_file filepath w →
     run = (SysExit 1, printed print_error_p ("File not found: " +:+ filepath) w))
  ∧ (∀ msg, is_file filepath w → inputs w !! filepath = Some (Unreadable msg) →
       run = (SysExit 1,
              printed print_error_p ("Error reading domains from file: " +:+ msg) w))
  ∧ (∀ domains, run.1 = Ret domains → is_file filepath w ∧ run.2 = w)
  ∧ (∀ domains, run.1 = Ret domains → inputs w !! filepath = None →
       Forall (λ d, d ≠ "" ∧ Py.strip d = d) domains).
Proof.
  cbv zeta. unfold CsvHelper.read_domains_from_file.
  rewrite run_bind, isfile_run. cbv beta iota.
  destruct (bool_decide (is_Some (csv_files w !! filepath))
            || bool_decide (is_Some (inputs w !! filepath))) eqn:Hfile; cbn [negb].
  2: { rewrite run_bind, print_error_run. cbv beta iota.
       assert (¬ is_file filepath w) as Hno by (rewrite <- isfile_is_file; congruence).
       split_and!; done. }
  apply isfile_is_file in Hfile.
  rewrite run_bind. cbn [get_state]. cbv beta iota.
  destruct (inputs w !! filepath) as [[ds | msg]|] eqn:Hin.
  - rewrite run_ret. split_and!; try done; by intros ? [= <-].
  - rewrite run_bind, print_error_run. cbv beta iota.
    split_and!; try done; by intros ? _ [= <-].
  - destruct (_ && _); rewrite run_ret; cbn [fst snd].
    + split_and!; try done; try (by intros ? [= <-]).
      intros ? [= <-] _. apply Forall_forall. intros d Hd.
      apply list_elem_of_fmap in Hd as (row & -> & Hrow).
      apply list_elem_of_filter in Hrow as [Hrow _].
      split; [by destruct (Py.strip (default "" (head row))) | apply strip_idemp].
    + split_and!; try done; try (by intros ? [= <-]).
      intros ? [= <-] _. apply Forall_forall. intros d Hd.
      apply list_elem_of_filter in Hd as [Hd Hin'].
      apply list_elem_of_fmap in Hin' as (row & -> & _).
      apply andb_true_iff in Hd as [Hd _].
      split; [by destruct (Py.strip (Py.join "," row)) | apply strip_idemp].
Qed.

(** ** esdar-checker_v2.py: the order in which [main] checks the domains *)

Section SortedOrder.
Context (dns : list string → string → option (list string) → Z → bool → check_reply).
Context (validate_domain : string → bool).

(** Reading the file of domains looks at the files alone. *)
Lemma read_domains_from_file_same filepath w w' :
  csv_files w' = csv_files w → inputs w' = inputs w →
  (CsvHelper.read_domains_from_file filepath w').1
  = (CsvHelper.read_domains_from_file filepath w).1
  ∧ checked (CsvHelper.read_domains_from_file filepath w').2 = checked w'
  ∧ (∀ domains, (CsvHelper.read_domains_from_file filepath w').1 = Ret domains →
       (CsvHelper.read_domains_from_file filepath w').2 = w').
Proof.
  intros Hc Hi. unfold CsvHelper.read_domains_from_file.
  rewrite !run_bind, !isfile_run. cbv beta iota. rewrite Hc, Hi.
  destruct (negb _).
  { rewrite !run_bind, !print_error_run. done. }
  rewrite !run_bind. cbn [get_state]. cbv beta iota. rewrite Hc, Hi.
  destruct (inputs w !! filepath) as [[ds | msg]|].
  - by rewrite !run_ret.
  - by rewrite !run_bind, !print_error_run.
  - destruct (_ && _); by rewrite !run_ret.
Qed.

(** The domains [main] works on are the given ones; when it gets none from
    a file it exits there. *)
Lemma main_domains_given (a : Args.t) (w w1 : world) :
  csv_files w1 = csv_files w → inputs w1 = inputs w →
  let get :=
    (match given (Args.domain a) with
     | Some d => mret [d]
     | None =>
         match given (Args.domains_file a) with
         | Some f =>
             domains ← CsvHelper.read_domains_from_file f;
             match domains with
             | [] => Terminal.print_error "No valid domains found in file" ;; sys_exit 1
             | _ => mret domains
             end
         | None => mret []
         end
     end : M world (list string)) w1 in
  get = (Ret (given_domains a w), w1)
  ∨ (get.1 = SysExit 1 ∧ checked get.2 = checked w1 ∧ given_domains a w = []).
Proof.
  intros Hc Hi. cbv zeta. unfold given_domains.
  destruct (given (Args.domain a)) as [d|]; [by left |].
  destruct (given (Args.domains_file a)) as [f|]; [| by left].
  destruct (read_domains_from_file_same f w w1 Hc Hi) as (Hsame & Hchecked & Hstate).
  rewrite run_bind. rewrite <- Hsame.
  destruct (CsvHelper.read_domains_from_file f w1) as [[ds | e | c] w2] eqn:E;
    cbn [fst snd] in *.
  - rewrite (Hstate ds eq_refl). destruct ds as [|x ds].
    + right. by rewrite run_bind, print_error_run.
    + by left.
  - exfalso. pose proof (read_domains_from_file_escapes f w1) as H. by rewrite E in H.
  - right. pose proof (read_domains_from_file_escapes f w1) as H. rewrite E in H.
    cbn in H. by subst c.
Qed.

Lemma after_output_path_files a w :
  csv_files (after_output_path a w) = csv_files w
  ∧ inputs (after_output_path a w) = inputs w.
Proof.
  unfold after_output_path. destruct (given (Args.output_path a)); [| done].
  by destruct (bool_decide _).
Qed.

(** With valid arguments, [main] checks the given domains, cleaned up, in
    the order of the cleaned-up list: none when that list is empty, and
    otherwise its first domain and those that follow, up to the first on
    which the engine fails. *)
Lemma main_checks_sorted (a : Args.t) (w : world) :
  valid_arguments validate_domain a w →
  let run := Checker.main dns validate_domain a w in
  let sorted := Helper.cleanup_domains_list (given_domains a w) in
  let answered :=
    answers dns (Checker.or_None (Checker.parse_selectors (Args.selector a) (Args.selectors a)))
      (Args.timeout a) (Args.auto_discover_dkim a) (checked w) sorted in
  match sorted with
  | [] => run.1 = SysExit 1 ∧ checked run.2 = checked w
  | d :: rest =>
      (∃ n, checked run.2 = checked w ++ d :: take n rest)
      ∧ (is_Some answered → checked run.2 = checked w ++ sorted)
      ∧ (run.1 = Ret tt → checked run.2 = checked w ++ sorted)
  end.
Proof.
  intros Hv. cbv zeta. rewrite (main_run_valid dns validate_domain a w Hv).
  pose proof (checked_after_output_path a w) as Hc1.
  destruct (after_output_path_files a w) as [Hfiles Hinputs].
  set (w1 := after_output_path a w) in *.
  rewrite run_bind.
  destruct (main_domains_given a w w1 Hfiles Hinputs) as [-> | (Hexit & Hchecked & Hnone)].
  2: { rewrite Hnone.
       change (Helper.cleanup_domains_list []) with (@nil string).
       match goal with
       | H : (?m w1).1 = SysExit 1 |- _ =>
           destruct (m w1) as [[ds | e | c] w2]; cbn [fst snd] in *; try done
       end.
       injection Hexit as ->. split; [done | congruence]. }
  cbv beta iota.
  destruct (Helper.cleanup_domains_list (given_domains a w)) as [|d [|d2 rest]] eqn:Hsorted.
  - rewrite run_bind, print_error_run. done.
  - rewrite run_bind.
    pose proof (process_single_domain_checked dns d
                  (Checker.parse_selectors (Args.selector a) (Args.selectors a))
                  (Args.timeout a) (append_mode a) (Args.auto_discover_dkim a) w1) as Hchecked.
    assert (∀ o w', checked (o, w').2 = checked w1 ++ [d] →
              (∃ n, checked (o : outcome unit, w').2 = checked w ++ d :: take n [])
              ∧ (is_Some (answers dns
                            (Checker.or_None
                               (Checker.parse_selectors (Args.selector a) (Args.selectors a)))
                            (Args.timeout a) (Args.auto_discover_dkim a) (checked w) [d]) →
                 checked (o, w').2 = checked w ++ [d])
              ∧ ((o, w').1 = Ret tt → checked (o, w').2 = checked w ++ [d])) as Hall.
    { intros o w' ->. rewrite Hc1. split_and!; [by exists 0 | done | done]. }
    destruct (Checker.process_single_domain dns d _ _ _ _ w1) as [[[] | e | c] w'];
      cbv beta iota; cbn [negb]; apply Hall; exact Hchecked.
  - destruct (answers dns
                (Checker.or_None (Checker.parse_selectors (Args.selector a) (Args.selectors a)))
                (Args.timeout a) (Args.auto_discover_dkim a) (checked w) (d :: d2 :: rest))
      as [[|r rs]|] eqn:Hans.
    + apply answers_length in Hans. done.
    + rewrite <- Hc1 in Hans.
      destruct (process_multiple_domains_answered dns (d :: d2 :: rest)
                  (Checker.parse_selectors (Args.selector a) (Args.selectors a))
                  (Args.timeout a) (append_mode a) (Args.skip_errors a)
                  (Args.auto_discover_dkim a) w1 r rs Hans) as [lines ->].
      pose proof (write_results_to_csv_keeps_checked (r :: rs) (append_mode a)
                    (later lines (d :: d2 :: rest) w1)) as Hchecked.
      destruct (CsvHelper.write_results_to_csv (r :: rs) (append_mode a)
                  (later lines (d :: d2 :: rest) w1)) as [[b | e | c] w'];
        cbn [fst snd printed checked set_terminal] in *;
        rewrite Hchecked; cbn [later checked set_terminal set_checked]; rewrite Hc1;
        (split_and!; [exists (length (d2 :: rest)); by rewrite firstn_all | done | done]).
    + rewrite <- Hc1 in Hans.
      destruct (process_multiple_domains_fails_first dns (d :: d2 :: rest)
                  (Checker.parse_selectors (Args.selector a) (Args.selectors a))
                  (Args.timeout a) (append_mode a) (Args.skip_errors a)
                  (Args.auto_discover_dkim a) w1 Hans) as (lines & m & k & ->).
      cbn [fst snd later checked set_terminal set_checked]. rewrite Hc1.
      split_and!; [by exists k | by intros [? [=]] | done].
Qed.
End SortedOrder.

(** C9.  For every list of strings, [cleanup_domains_list] returns a list in
    ascending order, without duplicates and without the empty string, whose
    elements are all stripped of white space and in lower case; its elements
    are the stripped, lower-cased forms of the input strings that are not
    blank, and no others; applied to its own result it returns it unchanged.
    And [main] checks the domains it is given, the [--domain] or those read
    from the [--domains_file], in the order of their cleaned-up list, not in
    the order given: what a run has checked is a first part of that list;
    with valid arguments and a list that is not empty, the first domain of
    the list is checked first; when the engine answers for every domain of
    the list the whole list is checked, in its order; and so it is whenever
    [main] returns. *)
Theorem cleanup_domains_list_sorted_unique_clean (domains : list string) :
  let r := Helper.cleanup_domains_list domains in
  StronglySorted String.le r
  ∧ NoDup r
  ∧ ("" ∉ r)
  ∧ Forall (λ x, Py.strip x = x ∧ Py.lower x = x) r
  ∧ (∀ x, x ∈ r ↔ ∃ d, d ∈ domains ∧ Py.strip d ≠ "" ∧ x = Py.lower (Py.strip d))
  ∧ Helper.cleanup_domains_list r = r
  ∧ ∀ dns validate_domain a w,
      let run := Checker.main dns validate_domain a w in
      let sorted := Helper.cleanup_domains_list (given_domains a w) in
      let answered :=
        answers dns
          (Checker.or_None (Checker.parse_selectors (Args.selector a) (Args.selectors a)))
          (Args.timeout a) (Args.auto_discover_dkim a) (checked w) sorted in
      (∃ n, checked run.2 = checked w ++ take n sorted)
      ∧ (valid_arguments validate_domain a w → sorted ≠ [] →
         ∃ d rest n, sorted = d :: rest ∧ checked run.2 = checked w ++ d :: take n rest)
      ∧ (valid_arguments validate_domain a w → is_Some answered →
         checked run.2 = checked w ++ sorted)
      ∧ (run.1 = Ret tt → sorted ≠ [] ∧ checked run.2 = checked w ++ sorted).
Proof.
  intros r. subst r.
  pose proof (cleanup_Sorted domains) as Hs.
  pose proof (cleanup_NoDup domains) as Hnd.
  pose proof (cleanup_clean domains) as Hc.
  split_and!.
  - by apply Sorted_StronglySorted; [apply _ |].
  - done.
  - intros Hin. rewrite Forall_forall in Hc. by destruct (Hc _ Hin) as (_ & _ & ?).
  - eapply Forall_impl; [exact Hc |]. by intros x (? & ? & _).
  - intros x. rewrite cleanup_elements. split; intros (d & Hd & Hne & ->); exists d.
    + split_and!; [done | | done]. intros E. by rewrite E in Hne.
    + split_and!; [done | | done]. by destruct (Py.strip d).
  - by apply cleanup_fixed.
  - intros dns validate_domain a w. cbv zeta.
    destruct (valid_arguments_or_not validate_domain a w) as [Hv | Hbad].
    + pose proof (main_checks_sorted dns validate_domain a w Hv) as H. cbv zeta in H.
      destruct (Helper.cleanup_domains_list (given_domains a w)) as [|d rest].
      * destruct H as [Hexit Hchecked]. split_and!.
        -- exists 0. by rewrite Hchecked, app_nil_r.
        -- done.
        -- intros _ _. by rewrite Hchecked, app_nil_r.
        -- by rewrite Hexit.
      * destruct H as ([n Hn] & Hall & Hret). split_and!.
        -- exists (S n). by rewrite Hn.
        -- intros _ _. by exists d, rest, n.
        -- intros _. exact Hall.
        -- intros E. split; [done | by apply Hret].
    + assert ((Checker.main dns validate_domain a w).1 = SysExit 1
              ∧ checked (Checker.main dns validate_domain a w).2 = checked w) as [Hexit Hchecked].
      { unfold Checker.main. rewrite run_bind.
        by destruct (validate_args_invalid validate_domain a w Hbad) as [lines ->]. }
      split_and!.
      * exists 0. by rewrite Hchecked, take_0, app_nil_r.
      * done.
      * done.
      * by rewrite Hexit.
Qed.

Lemma cleanup_domains_list_sorted_unique_clean_witness :
  let w := Config.at_import ∅ ∅ three_domains ∅ in
  let run := Checker.main (always (example_result "m" "s" "k" "d")) accepts_all args_of_file w in
  valid_arguments accepts_all args_of_file w
  ∧ given_domains args_of_file w = ["zeta.org"; " Alpha.com"; "mid.net"; "ZETA.org"]
  ∧ Helper.cleanup_domains_list (given_domains args_of_file w)
    = ["alpha.com"; "mid.net"; "zeta.org"]
  ∧ checked run.2 = checked w ++ Helper.cleanup_domains_list (given_domains args_of_file w).
Proof.
  cbv zeta.
  assert (valid_arguments accepts_all args_of_file (Config.at_import ∅ ∅ three_domains ∅))
    as Hvalid.
  { split; [done |]. intros f [= <-]. right. vm_compute. by eexists. }
  assert (is_Some
            (answers (always (example_result "m" "s" "k" "d"))
               (Checker.or_None
                  (Checker.parse_selectors (Args.selector args_of_file)
                     (Args.selectors args_of_file)))
               (Args.timeout args_of_file) (Args.auto_discover_dkim args_of_file)
               (checked (Config.at_import ∅ ∅ three_domains ∅))
               (Helper.cleanup_domains_list
                  (given_domains args_of_file (Config.at_import ∅ ∅ three_domains ∅)))))
    as Hanswered.
  { vm_compute. by eexists. }
  split_and!; [exact Hvalid | vm_compute; reflexivity | vm_compute; reflexivity |].
  destruct (cleanup_domains_list_sorted_unique_clean
              (given_domains args_of_file (Config.at_import ∅ ∅ three_domains ∅)))
    as (_ & _ & _ & _ & _ & _ & Hmain).
  destruct (Hmain (always (example_result "m" "s" "k" "d")) accepts_all args_of_file
              (Config.at_import ∅ ∅ three_domains ∅)) as (_ & _ & Hall & _).
  exact (Hall Hvalid Hanswered).
Defined.
